(* ===== verification/_CoqProject ===== *)
-Q . S2P
Prelude.v
PyStr.v
PyPath.v
TokenHex.v
Utf8Decode.v
Subprocess.v
Router.v
RouterSpec.v
Server.v
Cors.v
Startup.v
