(* ===== verification/Prelude.v ===== *)
(** * A verification development of the Free File Converters API

    The program is [src/server/app/main.py], a FastAPI service with two
    routes of its own, besides the documentation pages FastAPI adds, behind
    a CORS middleware.  [GET /healthz] answers [{"ok": true}].  [POST /convert] takes
    an uploaded file and a target format; it checks the file name, draws
    a random stem with [secrets.token_hex(8)], normalizes the target,
    writes the upload to [/tmp/freefileconverters/uploads/], checks its
    size (100 MiB), classifies it by declared MIME type or extension, runs
    one external converter ([convert], [ffmpeg] or [soffice]) through
    [run_command], checks that the output exists and answers it as a
    download.  The parts interact only through the handler: [convert]
    calls the helpers in order and [run_command] is the one place where
    the file system is changed by someone else (the converter).

    ** Files, in dependency order

    - [Prelude] (this file): the scope [conv_scope] with the string append
      [^^], the hint database [pyconv] and rewrite database [pyconv_rw],
      the tactics [case_char], [case_bool], [zlia], [zcase], [strs], and
      generic lemmas on strings and lists ([list_len_ind]).
    - [PyStr], Module [PyStr]: the Python [str] methods the handler calls
      ([strip], [lstrip], [lower], [startswith], [rfind], slicing, [in]) on
      strings whose code points are below 256, with their laws
      ([strip_spec]).
    - [PyPath], Module [PyPath]: [pathlib.PurePosixPath]: [parse]
      ([Path(s)]), [join] ([p / s], through [posixpath.join]), [to_str]
      ([str(p)]), [name], [suffix], [stem], with the laws that a name has no
      separator, [stem + suffix = name] ([suffix_stem_spec]) and that
      joining an absolute directory with a relative name appends parts
      ([join_abs]).
    - [TokenHex], Module [TokenHex]: [secrets.token_hex] as [hexlify] of
      the drawn bytes; [unhexlify] recovers them ([token_hex_roundtrip]).
    - [Utf8Decode], Module [Utf8]: CPython's UTF-8 decoder with
      [errors="ignore"] ([decode_ignore]), used on the converter's stderr
      (line 49); it inverts [encode_utf8] on scalar values
      ([decode_encode]), only produces scalar values and never more code
      points than bytes.
    - [Subprocess], Module [Subprocess]: what [subprocess.run] reports
      ([proc_result]: exit status and stderr, timeout, failure to start),
      the exceptions that leave the handler ([exc]), [repr] of the argument
      list and [str(CalledProcessError)], the detail message
      ([failure_message]) and the [try]/[except] of [run_command]
      ([run_command_outcome]).
    - [Router], Module [Router]: the handler.  The state is a [world]: the
      file system as a [gmap] from [str(path)] to [st_size] (the handler
      never reads contents, so sizes are all it observes) and the log of
      the argument vectors of the started processes.  [M] is a
      state-and-exception monad over it.  The libraries the handler only
      calls ([mimetypes.guess_type], [subprocess.run], signal names) form
      the [Platform] class, so every theorem holds for every platform,
      and [mock_platform] is a scripted fake for the witnesses.  Each
      binding of [convert] is a definition ([safe_id], [input_suffix],
      [input_path], [normalize_target], [output_path], [mime_of], [route],
      [convert_branch], [download_name]) and [convert] composes them with
      the effects [write_file], [ensure_size_limit], [run_command] and
      [path_exists] in the order of lines 60-117.
      The state also logs each started process with its timeout, and
      holds the set of directories: [write_file] raises the errors of
      [open] when the path is a directory or its parent is missing
      ([writable] is the condition under which it succeeds).
    - [RouterSpec], Module [RouterSpec]: the specification's decision
      table as data ([spec_table], [classify]) and its per-request state
      machine ([Received] ... [Succeeded | Failed]) as the step relation
      [pstep] over an [observation] of a request: what the handler is sent
      and what the platform does.  [observe] computes the observation of a
      request from the code's own bindings.
    - [Server], Module [Server]: the application around the handler:
      the routes of the decorators (lines 55 and 60) with Starlette's
      routing ([dispatch]: 405, trailing-slash redirect, 404), FastAPI's
      required form parameters ([form_value]: an empty form string is
      missing, 422), the exceptions as responses ([of_result]), [serve]
      for one request and [serve_all] for a sequence of requests, each
      with its own draw of [token_bytes(8)].  The collaborator contracts
      of the specification (section 6) are the class [ConverterContract]
      over [Platform]: a command changes no file but the one it declares
      ([Router.declared_output]); [mock_platform] is an instance.
      The routes include the documentation pages [FastAPI(title=...)]
      registers (line 12), for [GET] and [HEAD].
    - [Cors], Module [Cors]: lines 12-21, the application as Starlette
      builds it: [asgi] is [ServerErrorMiddleware (CORSMiddleware
      (ExceptionMiddleware router))] on a request with its headers.
      [cors_init] is [CORSMiddleware.__init__] on the configuration
      [app_cors] of lines 16-20; [cors_call], [preflight_response] and
      [cors_send] are its [__call__], preflight answer and [send] on
      header lists ([hget], [hset] as [MutableHeaders]).  [route_app] is
      the router whose uncaught exceptions propagate, and
      [route_app_serve] relates it to [Server.serve].
    - [Startup], Module [Startup]: lines 24-28, the creation of
      [uploads/] and [outputs/] at import: [os_mkdir] is [os.mkdir] with
      its three errors, [path_mkdir] is [Path.mkdir] with its recursion on
      parents bounded by a fuel, [startup] the loop; an exception stops
      the import.

    ** What is proved

    - Safety of storage: the upload always lands directly in [uploads/]
      under the 16 hex digits of the token and the lowered suffix, whatever
      the client's name ([input_path_in_uploads]); different tokens never
      collide ([input_paths_distinct]); under the converter contract a
      stored upload survives every later sequence of requests with other
      tokens ([Server.uploads_persist]).
    - Functional behaviour of [convert] on every branch: success with the
      download name [stem.ext] ([convert_success]), 500 when the output is
      missing, 408 on timeout, 400 with the stderr prefix on a non-zero
      exit, 413 above 100 MiB, 400 for a missing name or target, 400 for a
      document whose output is not [.pdf] before any converter runs, and
      the uncaught exception when a converter cannot be started.  These
      follow from [convert_guarded] and [convert_runs_converter], which
      decompose the handler into its steps; [convert_world] says where the
      world of a request comes from.  Every answer has a status of the
      taxonomy ([Server.convert_status_taxonomy]).
    - Refinement: the phase the handler's result stands for is the unique
      terminal phase the specification's pipeline reaches on the
      observation of the request ([RouterSpec.convert_refines_pipeline],
      for targets without ['.'] or ['/'] and converters that start); the
      pipeline is deterministic, never revisits a phase and terminates
      (by well-foundedness of the rank); [route] is the decision table read top to bottom
      ([RouterSpec.route_is_spec_table]).
    - Startup: it succeeds when no file stands in the way
      ([Startup.startup_succeeds]) and stops the import when a file
      stands at the base directory ([Startup.startup_blocked_by_file]); after it, every later upload
      can be written, whatever requests ran before
      ([Startup.startup_then_uploads_writable]); without [uploads/] every
      conversion fails with an uncaught [FileNotFoundError], or
      [NotADirectoryError] when a file stands there
      ([convert_uploads_dir_missing]).
    - The request loop: at most one process per request, each with the
      timeout of 180 s, over any sequence ([Server.serve_all_processes]);
      only [POST /convert] with both fields changes the state
      ([Server.serve_changes_only_convert]); [GET /healthz] always answers
      200 ([Server.serve_healthz]).
    - CORS: no response carries [Access-Control-Allow-Credentials]
      ([Cors.asgi_no_credentials]); a cross-origin request is answered
      with [Access-Control-Allow-Origin: *], or its origin and [Vary:
      Origin] when it sends cookies, while the 500 of an uncaught
      exception has no CORS header ([Cors.asgi_simple_origin]); a
      preflight is 200 for every origin and the seven methods, changes
      nothing and mirrors the requested headers ([Cors.asgi_preflight]).
      On every other request the stack answers the status and body of
      [serve] ([Cors.asgi_refines_serve]), so the theorems on [serve]
      hold of the whole application.
    - Equivalences and bounds: the float test [st_size / 2**20 > max_mb]
      is the integer test [st_size > max_mb * 2**20]
      ([ensure_size_limit_spec]); the stderr detail is its first 600
      decoded characters, 2400 bytes for characters of four bytes
      ([Subprocess.failure_message_utf8_2400]).
    - Round trips of the codecs ([decode_encode], [token_hex_roundtrip]).
    - Divergences from the specification, proved as theorems: the
      document check reads the output suffix, so a target [notes.pdf]
      starts [soffice] ([doc_check_accepts_pdf_suffix]); normalization
      keeps the whitespace after leading dots
      ([normalize_target_keeps_inner_space]);
      an empty target is a 422 ([Server.serve_empty_target_422]), and a
      target may put [".."] into the output path ([Server.output_path_dotdot]).

    ** Bounds and fuel

    Two definitions have fuel.  [Cors.dec_go] ([str(n)]) gets one step
    more than the bits of [n], more than its decimal digits; the model
    uses it only for [str(600)], computed in [Cors.app_mw].  Every other
    recursion but [Startup.path_mkdir] is structural ([decode_ignore]
    recurses on a sub-list of its input, and [list_len_ind] gives the
    induction on length its proofs need; [serve_all] recurses on the list
    of requests).  Integers are [Z] with explicit ranges: bytes in
    [0 .. 255] ([TokenHex.bytes_wf], [Utf8.byte_ok]).  The size test is
    proved for every [st_size] and [max_mb].  The termination of the
    pipeline uses the rank of a phase, bounded by 6.  [Startup.path_mkdir]
    has fuel: its recursion goes to the parent, whose path has one part
    fewer, and running out of fuel is the distinct answer [None].
    [length (parts p)] is enough: with it or any larger fuel the
    recursion completes with the same answer ([Startup.path_mkdir_total]),
    so [mkdir_p]'s default for [None] is never used.

    ** Not modelled

    The headers the response classes set themselves (content type,
    length, disposition) are the parameter [own_headers] of [Cors.asgi],
    assumed to name no CORS header; the CORS middleware's origin regex and
    exposed headers are absent because line 15 leaves them at their
    defaults.  The documentation pages are answered without their
    content.  The model's
    file system does not require that the parent of every file be a
    directory; the theorems state what they need of a world.  [uvicorn.run]
    (120-122) is I/O; the converters themselves and [mimetypes] are
    external and appear only through [Platform] and [ConverterContract].
    Files are identified by [str(path)]: [".."] components are not
    resolved.  Strings with code points of 256 and above in the file name
    or the target are outside the model (their [lower] and whitespace
    need Unicode tables).  Concurrency is not modelled because [convert]
    is an [async def] without [await]: each request runs to completion on
    the event loop, one atomic transition of the world, and [serve_all]
    is the resulting sequential semantics.

    ** Further work

    - Responses of the whole server against the pipeline: the refinement
      lifted to [serve] (validation, routing) and to sequences.
    - The response as a function of the request, the platform and the
      existence of the output alone. *)

From Stdlib Require Export ZArith Ascii.
From stdpp Require Export base list gmap strings.

Declare Scope conv_scope.
Delimit Scope conv_scope with conv.
Open Scope conv_scope.

Create HintDb pyconv discriminated.
Create Rewrite HintDb pyconv_rw.

(** ** Python strings

    A Python [str] is a sequence of Unicode code points.  The request
    fields the handler reads are modelled by Rocq [string]s, whose
    characters are the code points [0 .. 255] (the Latin-1 block of
    Unicode); [ord] is Python's [ord]. *)

Abbreviation pystr := string (only parsing).

Definition ord (c : ascii) : Z := Z.of_N (N_of_ascii c).

(** The code points of a string, for the places where a Python [str]
    may hold any code point (the decoded stderr of a converter). *)
Fixpoint cps (s : string) : list Z :=
  match s with
  | EmptyString => []
  | String c t => ord c :: cps t
  end.

Notation "s1 ^^ s2" := (String.append s1 s2)
  (at level 60, right associativity) : conv_scope.

(** ** Generic lemmas on strings *)

Lemma str_app_nil_l (s : string) : "" ^^ s = s.
Proof. reflexivity. Qed.

Lemma str_app_cons (c : ascii) (s t : string) :
  String c s ^^ t = String c (s ^^ t).
Proof. reflexivity. Qed.

Lemma str_app_nil_r (s : string) : s ^^ "" = s.
Proof. induction s as [|c s IH]; [done|]. by rewrite str_app_cons, IH. Qed.

Lemma str_app_assoc (s t u : string) : s ^^ (t ^^ u) = (s ^^ t) ^^ u.
Proof. induction s as [|c s IH]; [done|]. by rewrite !str_app_cons, IH. Qed.

Lemma str_length_app (s t : string) :
  String.length (s ^^ t) = String.length s + String.length t.
Proof. induction s as [|c s IH]; [done|]. rewrite str_app_cons. cbn. by rewrite IH. Qed.

Lemma cps_app (s t : string) : cps (s ^^ t) = cps s ++ cps t.
Proof. induction s as [|c s IH]; [done|]. rewrite str_app_cons. cbn. by rewrite IH. Qed.

Lemma length_cps (s : string) : length (cps s) = String.length s.
Proof. induction s as [|c s IH]; [done|]. cbn. by rewrite IH. Qed.

Lemma ord_range (c : ascii) : (0 <= ord c < 256)%Z.
Proof.
  unfold ord. pose proof (N_ascii_bounded c). lia.
Qed.

Lemma ord_inj (c d : ascii) : ord c = ord d -> c = d.
Proof.
  unfold ord. intros H. apply N2Z.inj in H.
  rewrite <- (ascii_N_embedding c), <- (ascii_N_embedding d). by rewrite H.
Qed.

Lemma str_app_inv_l (s t1 t2 : string) : s ^^ t1 = s ^^ t2 -> t1 = t2.
Proof. induction s as [|c s IH]; [done|]. rewrite !str_app_cons. intros [= H]. by apply IH. Qed.

(** Two concatenations with first parts of the same length split alike. *)
Lemma str_app_inv_len (a b s t : string) :
  a ^^ s = b ^^ t -> String.length a = String.length b -> a = b /\ s = t.
Proof.
  revert b. induction a as [|c a IH]; intros [|d b]; try discriminate; [done|].
  rewrite !str_app_cons. intros [= -> H] [= Hl]. destruct (IH b H Hl) as [-> ->]. done.
Qed.

#[export] Hint Rewrite str_app_nil_r str_app_cons cps_app length_cps
  str_length_app : pyconv_rw.
#[export] Hint Resolve ord_range : pyconv.

(** ** Tactics *)

(** [case_bool]: case on the first boolean test of the goal, keeping its
    equation. *)
Ltac case_bool :=
  match goal with
  | |- context [if ?b then _ else _] =>
      let E := fresh "E" in destruct b eqn:E
  end.

(** Character comparisons stay folded under [simpl] and [cbn]; proofs case
    on them with [case_char]. *)
#[global] Arguments Ascii.eqb : simpl never.

(** [case_char]: case on the first character comparison of the goal. *)
Ltac case_char :=
  match goal with
  | |- context [Ascii.eqb ?a ?b] => destruct (Ascii.eqb_spec a b)
  end.

(** [zlia]: [lia] after turning [/] and [mod] by constants into
    equations. *)
Ltac zlia := Z.to_euclidean_division_equations; lia.

(** [zcase]: case on the first integer comparison of the goal, closing
    the branch whose arithmetic is contradictory. *)
Ltac zcase :=
  match goal with
  | |- context [(?a <? ?b)%Z] => destruct (Z.ltb_spec a b); try zlia
  | |- context [(?a <=? ?b)%Z] => destruct (Z.leb_spec a b); try zlia
  | |- context [(?a =? ?b)%Z] => destruct (Z.eqb_spec a b); try zlia
  end.

(** ** Generic lemmas on lists *)

(** Induction on the length of a list, for functions that consume a
    variable number of elements per step. *)
Lemma list_len_ind {A} (P : list A -> Prop) :
  (forall l, (forall l', length l' < length l -> P l') -> P l) -> forall l, P l.
Proof.
  intros Hstep l. remember (length l) as n eqn:Hn. revert l Hn.
  induction (lt_wf n) as [n _ IH]. intros l ->. apply Hstep.
  intros l' Hl'. by apply (IH (length l')).
Qed.

(** A deterministic relation reaches at most one normal form from a
    given point. *)
Lemma rtc_det_nf {A} (R : relation A) :
  (forall x y z, R x y -> R x z -> y = z) ->
  forall x y z, rtc R x y -> rtc R x z -> (forall v, ~ R y v) -> (forall v, ~ R z v) -> y = z.
Proof.
  intros Hdet x y z Hy. revert z.
  induction Hy as [x|x x' y Hxx' Hy IH]; intros z Hz Hny Hnz.
  - destruct Hz as [|x x'' z Hxx'' _]; [done|by destruct (Hny _ Hxx'')].
  - destruct Hz as [|x x'' z Hxx'' Hz]; [by destruct (Hnz _ Hxx')|].
    rewrite <- (Hdet _ _ _ Hxx' Hxx'') in Hz. by apply IH.
Qed.

(** [strs]: normalise string appends and code point lists. *)
Ltac strs := autorewrite with pyconv_rw in *.
