(* ===== verification/PyStr.v ===== *)
(** * Python [str] methods used by [main.py]

    [isspace], [strip()], [lstrip(chars)], [lower()], [startswith],
    [rfind], slicing and membership in a literal set, on strings whose
    code points are below 256 (see [Prelude]).  Each definition follows
    CPython's algorithm for that range: [strip] scans from both ends with
    [Py_UNICODE_ISSPACE], [lower] maps the Latin-1 capitals to their
    small letters, [rfind] answers [-1] when the character is absent.
    Besides the definitions, the file holds their laws: the full
    specification of [strip] and [lstrip] and the algebra of [lower]. *)

From S2P Require Import Prelude.

Module PyStr.

(** ** Definitions *)

(** [str.isspace] on one character: CPython's [_Py_ascii_whitespace]
    table (tab to carriage return, the four separators [0x1c .. 0x1f],
    space) and the two Latin-1 spaces [U+0085] and [U+00A0]. *)
Definition isspace (c : ascii) : bool :=
  let n := N_of_ascii c in
  (((9 <=? n) && (n <=? 13)) || ((28 <=? n) && (n <=? 32))
   || (n =? 133) || (n =? 160))%N.

Fixpoint lstrip_ws (s : string) : string :=
  match s with
  | EmptyString => EmptyString
  | String c t => if isspace c then lstrip_ws t else s
  end.

Fixpoint rstrip_ws (s : string) : string :=
  match s with
  | EmptyString => EmptyString
  | String c t =>
      match rstrip_ws t with
      | EmptyString => if isspace c then EmptyString else String c EmptyString
      | t' => String c t'
      end
  end.

(** [s.strip()]. *)
Definition strip (s : string) : string := rstrip_ws (lstrip_ws s).

(** [c in chars] for a string [chars]. *)
Fixpoint mem (c : ascii) (chars : string) : bool :=
  match chars with
  | EmptyString => false
  | String d t => if Ascii.eqb c d then true else mem c t
  end.

(** [s.lstrip(chars)]. *)
Fixpoint lstrip (chars s : string) : string :=
  match s with
  | EmptyString => EmptyString
  | String c t => if mem c chars then lstrip chars t else s
  end.

(** [str.lower] on one character of the Latin-1 block: [A .. Z],
    [U+00C0 .. U+00D6] and [U+00D8 .. U+00DE] move up by [0x20]; every
    other code point below 256 is its own lower case. *)
Definition is_upper (c : ascii) : bool :=
  let n := N_of_ascii c in
  (((65 <=? n) && (n <=? 90)) || ((192 <=? n) && (n <=? 214))
   || ((216 <=? n) && (n <=? 222)))%N.

Definition lower_char (c : ascii) : ascii :=
  if is_upper c then ascii_of_N (N_of_ascii c + 32)%N else c.

Fixpoint lower (s : string) : string :=
  match s with
  | EmptyString => EmptyString
  | String c t => String (lower_char c) (lower t)
  end.

(** [s.startswith(p)]. *)
Definition startswith (s p : string) : bool := String.prefix p s.

(** [s.rfind(c)] for a one-character needle: the index of the last
    occurrence, [-1] when there is none. *)
Fixpoint rfind (c : ascii) (s : string) : Z :=
  match s with
  | EmptyString => (-1)%Z
  | String d t =>
      let r := rfind c t in
      if (0 <=? r)%Z then (r + 1)%Z
      else if Ascii.eqb c d then 0%Z else (-1)%Z
  end.

(** [s[:i]] and [s[i:]] for [0 <= i]. *)
Definition slice_to (i : nat) (s : string) : string := String.substring 0 i s.
Definition slice_from (i : nat) (s : string) : string :=
  String.substring i (String.length s - i) s.

(** [x in {a, b, ...}] for a set literal of strings. *)
Definition in_set (x : string) (l : list string) : bool :=
  existsb (String.eqb x) l.

(** ** Auxiliary predicates *)

Fixpoint all_chars (p : ascii -> bool) (s : string) : bool :=
  match s with
  | EmptyString => true
  | String c t => p c && all_chars p t
  end.

Definition head (s : string) : option ascii :=
  match s with EmptyString => None | String c _ => Some c end.

Fixpoint last (s : string) : option ascii :=
  match s with
  | EmptyString => None
  | String c EmptyString => Some c
  | String _ t => last t
  end.

(** ** Laws of [lstrip] *)

Lemma all_chars_app p s t :
  all_chars p (s ^^ t) = all_chars p s && all_chars p t.
Proof.
  induction s as [|c s IH]; [done|]. rewrite str_app_cons. cbn.
  rewrite IH. by destruct (p c).
Qed.

Lemma lstrip_ws_spec s :
  exists pre, s = pre ^^ lstrip_ws s /\ all_chars isspace pre = true /\
    match head (lstrip_ws s) with Some c => isspace c = false | None => True end.
Proof.
  induction s as [|c t IH]; cbn.
  - by exists "".
  - destruct (isspace c) eqn:E.
    + destruct IH as (pre & H1 & H2 & H3). exists (String c pre).
      rewrite str_app_cons, <- H1. cbn. by rewrite E, H2.
    + exists "". by cbn.
Qed.

Lemma lstrip_spec chars s :
  exists pre, s = pre ^^ lstrip chars s /\ all_chars (fun c => mem c chars) pre = true /\
    match head (lstrip chars s) with Some c => mem c chars = false | None => True end.
Proof.
  induction s as [|c t IH]; cbn.
  - by exists "".
  - destruct (mem c chars) eqn:E.
    + destruct IH as (pre & H1 & H2 & H3). exists (String c pre).
      rewrite str_app_cons, <- H1. cbn. by rewrite E, H2.
    + exists "". by cbn.
Qed.

Lemma lstrip_app_head chars s t :
  all_chars (fun c => mem c chars) s = true -> lstrip chars (s ^^ t) = lstrip chars t.
Proof.
  induction s as [|c s IH]; [done|]. rewrite str_app_cons. cbn.
  destruct (mem c chars); [done|discriminate].
Qed.

Lemma lstrip_no_head chars t :
  match head t with Some c => mem c chars = false | None => True end -> lstrip chars t = t.
Proof. destruct t as [|c t]; [done|]. cbn. by intros ->. Qed.

(** ** Laws of [rstrip] and [strip] *)

Lemma rstrip_ws_spec s :
  exists post, s = rstrip_ws s ^^ post /\ all_chars isspace post = true /\
    match last (rstrip_ws s) with Some c => isspace c = false | None => True end.
Proof.
  induction s as [|c t IH]; cbn.
  - by exists "".
  - destruct IH as (post & H1 & H2 & H3).
    destruct (rstrip_ws t) as [|d u] eqn:R.
    + rewrite str_app_nil_l in H1. subst t.
      destruct (isspace c) eqn:E.
      * exists (String c post). cbn. by rewrite E, H2.
      * exists post. by cbn.
    + exists post. rewrite str_app_cons, <- H1. split; [done|]. split; [done|].
      exact H3.
Qed.

Lemma lstrip_ws_head_app s t :
  match head s with Some c => isspace c = false | None => False end ->
  lstrip_ws (s ^^ t) = s ^^ t.
Proof. destruct s as [|c s]; [done|]. intros H. rewrite str_app_cons. cbn. by rewrite H. Qed.

Lemma last_is_Some c u : is_Some (last (String c u)).
Proof. revert c. induction u as [|d u IH]; intros c; [by eexists|]. apply IH. Qed.

(** [strip] removes exactly the leading and trailing whitespace. *)
Lemma strip_spec s :
  exists pre post, s = pre ^^ strip s ^^ post /\
    all_chars isspace pre = true /\ all_chars isspace post = true /\
    match head (strip s), last (strip s) with
    | Some c, Some d => isspace c = false /\ isspace d = false
    | _, _ => strip s = ""
    end.
Proof.
  unfold strip.
  destruct (lstrip_ws_spec s) as (pre & Hs & Hpre & Hh).
  destruct (rstrip_ws_spec (lstrip_ws s)) as (post & Hl & Hpost & Hlast).
  exists pre, post. rewrite Hl in Hs. repeat split; [done|done|done|].
  destruct (rstrip_ws (lstrip_ws s)) as [|c u] eqn:R; [done|].
  cbn [head]. destruct (last_is_Some c u) as [d L]. rewrite L.
  rewrite L in Hlast. split; [|done].
  rewrite Hl in Hh; try rewrite R in Hh. rewrite str_app_cons in Hh. exact Hh.
Qed.

(** ** Laws of [lower] *)

Lemma lower_length s : String.length (lower s) = String.length s.
Proof. induction s as [|c s IH]; [done|]. cbn. by rewrite IH. Qed.

Lemma lower_app s t : lower (s ^^ t) = lower s ^^ lower t.
Proof. induction s as [|c s IH]; [done|]. rewrite str_app_cons. cbn. by rewrite IH. Qed.

Lemma lower_char_not_upper c : is_upper (lower_char c) = false.
Proof. destruct c as [[] [] [] [] [] [] [] []]; reflexivity. Qed.

Lemma lower_char_id c : is_upper c = false -> lower_char c = c.
Proof. unfold lower_char. by intros ->. Qed.

Lemma lower_char_idem c : lower_char (lower_char c) = lower_char c.
Proof. apply lower_char_id, lower_char_not_upper. Qed.

(** The result of [lower] holds no capital letter. *)
Lemma lower_no_upper s : all_chars (fun c => negb (is_upper c)) (lower s) = true.
Proof.
  induction s as [|c s IH]; [done|]. cbn. by rewrite lower_char_not_upper, IH.
Qed.

Lemma lower_idem s : lower (lower s) = lower s.
Proof. induction s as [|c s IH]; [done|]. cbn. by rewrite lower_char_idem, IH. Qed.

Lemma lower_char_isspace c : isspace (lower_char c) = isspace c.
Proof. destruct c as [[] [] [] [] [] [] [] []]; reflexivity. Qed.

Lemma isspace_not_upper c : isspace c = true -> is_upper c = false.
Proof. destruct c as [[] [] [] [] [] [] [] []]; vm_compute; congruence. Qed.

(** A string that starts with whitespace is not stripped. *)
Lemma strip_space_head c v : isspace c = true -> strip (String c v) <> String c v.
Proof.
  intros Hc E. destruct (strip_spec (String c v)) as (pre & post & _ & _ & _ & Hh).
  rewrite E in Hh. cbn [head] in Hh. destruct (last_is_Some c v) as [d Hd]. rewrite Hd in Hh.
  destruct Hh as [Hc' _]. congruence.
Qed.

Lemma lower_char_dot c : lower_char c = "."%char <-> c = "."%char.
Proof.
  split; [|by intros ->].
  destruct c as [[] [] [] [] [] [] [] []]; cbv; congruence.
Qed.

Lemma lower_char_slash c : lower_char c = "/"%char <-> c = "/"%char.
Proof.
  split; [|by intros ->].
  destruct c as [[] [] [] [] [] [] [] []]; cbv; congruence.
Qed.

(** [lower] neither creates nor removes a separator or a dot. *)
Lemma mem_lower_sep c s :
  c = "/"%char \/ c = "."%char -> mem c (lower s) = mem c s.
Proof.
  intros Hc. induction s as [|d s IH]; [done|]. cbn [lower mem]. rewrite IH.
  assert (Ascii.eqb c (lower_char d) = Ascii.eqb c d) as ->; [|done].
  destruct Hc as [-> | ->].
  - destruct (Ascii.eqb_spec "/"%char d) as [<-|Hd]; [done|].
    apply Ascii.eqb_neq. intros E. apply Hd. symmetry. by apply lower_char_slash.
  - destruct (Ascii.eqb_spec "."%char d) as [<-|Hd]; [done|].
    apply Ascii.eqb_neq. intros E. apply Hd. symmetry. by apply lower_char_dot.
Qed.

Lemma lower_empty s : lower s = "" <-> s = "".
Proof. destruct s; cbn; split; congruence. Qed.

(** ** Laws of [rfind] and slicing *)

Lemma rfind_ge c s : (-1 <= rfind c s)%Z.
Proof.
  induction s as [|d t IH]; cbn; [lia|].
  destruct (Z.leb_spec 0 (rfind c t)); [lia|]. case_char; lia.
Qed.

Lemma rfind_none c s : rfind c s = (-1)%Z <-> mem c s = false.
Proof.
  induction s as [|d t IH]; cbn; [done|].
  pose proof (rfind_ge c t).
  destruct (Z.leb_spec 0 (rfind c t)).
  - split; [lia|]. case_char; [done|]. intros Hm. apply IH in Hm. lia.
  - assert (rfind c t = (-1)%Z) as Hr by lia. apply IH in Hr.
    case_char; [done|]. by split.
Qed.

(** A non-negative [rfind] splits the string at the last occurrence. *)
Lemma rfind_some c s (i : nat) :
  rfind c s = Z.of_nat i ->
  exists a b, s = a ^^ String c b /\ String.length a = i /\ mem c b = false.
Proof.
  revert i. induction s as [|d t IH]; intros i; cbn; [lia|].
  pose proof (rfind_ge c t).
  destruct (Z.leb_spec 0 (rfind c t)).
  - intros Hi. destruct i as [|j]; [lia|].
    destruct (IH j) as (a & b & -> & Ha & Hb); [lia|].
    exists (String d a), b. rewrite str_app_cons. cbn. by rewrite Ha.
  - case_char; [subst|lia].
    intros Hi. destruct i; [|lia]. exists "", t. split; [done|]. split; [done|].
    apply rfind_none. lia.
Qed.

Lemma substring_app_l a t : String.substring 0 (String.length a) (a ^^ t) = a.
Proof.
  induction a as [|c a IH]; [by destruct t|]. rewrite str_app_cons. cbn. by rewrite IH.
Qed.

Lemma substring_app_r a t :
  String.substring (String.length a) (String.length (a ^^ t) - String.length a) (a ^^ t) = t.
Proof.
  rewrite str_length_app, Nat.add_comm, Nat.add_sub.
  induction a as [|c a IH].
  - rewrite str_app_nil_l. cbn [String.length].
    induction t as [|d t IHt]; [done|]. cbn. by rewrite IHt.
  - rewrite str_app_cons. exact IH.
Qed.

Lemma slice_split a t :
  slice_to (String.length a) (a ^^ t) = a /\
  slice_from (String.length a) (a ^^ t) = t.
Proof. split; [apply substring_app_l | apply substring_app_r]. Qed.

Lemma mem_app c s t : mem c (s ^^ t) = mem c s || mem c t.
Proof.
  induction s as [|d s IH]; [done|]. rewrite str_app_cons. cbn.
  case_char; [done|]. exact IH.
Qed.

Lemma rfind_app_last c a b :
  mem c b = false -> rfind c (a ^^ String c b) = Z.of_nat (String.length a).
Proof.
  intros Hb. induction a as [|d a IH].
  - rewrite str_app_nil_l. apply rfind_none in Hb. cbn. rewrite Hb. cbn.
    by rewrite Ascii.eqb_refl.
  - rewrite str_app_cons. cbn [rfind]. rewrite IH. cbn [String.length].
    destruct (Z.leb_spec 0 (Z.of_nat (String.length a))); lia.
Qed.

(** ** First and last characters *)

Lemma last_cons c u : u <> "" -> last (String c u) = last u.
Proof. by destruct u. Qed.

Lemma last_app s u : u <> "" -> last (s ^^ u) = last u.
Proof.
  intros Hu. induction s as [|c s IH]; [done|]. rewrite str_app_cons, last_cons; [done|].
  destruct s, u; done.
Qed.

Lemma last_mem s c : last s = Some c -> mem c s = true.
Proof.
  induction s as [|d s IH]; [done|]. destruct s as [|e s].
  - cbn. intros [= ->]. by rewrite Ascii.eqb_refl.
  - intros H. specialize (IH H). cbn [mem] in *. rewrite IH. by destruct (Ascii.eqb c d).
Qed.

End PyStr.

#[export] Hint Rewrite PyStr.lower_app PyStr.lower_length PyStr.lower_idem : pyconv_rw.
