(* ===== verification/PyPath.v ===== *)
(** * [pathlib.PurePosixPath] as [main.py] uses it

    A path is its root ([""], ["/"] or ["//"]) and its list of parts.
    [parse] is CPython's [_parse_path] with [posixpath.splitroot]: the
    text after the root is split at ['/'] and the empty and ["."]
    components are dropped ([".."] is kept).  [join] is the [/] operator:
    [posixpath.join] of the two strings followed by [parse].  [name],
    [suffix] and [stem] are the properties of the same names (Python up to
    3.13: a trailing dot gives no suffix), [to_str] is [str(path)].

    The laws proved here are what the handler relies on: a name never
    holds ['/'], [stem + suffix = name], and joining a directory with a
    one-component relative name gives a path whose parent is that
    directory. *)

From S2P Require Import Prelude PyStr.

Module PyPath.
Import PyStr.

Record path := mkPath { root : string; parts : list string }.

#[export] Instance path_eq_dec : EqDecision path.
Proof. solve_decision. Defined.

(** ** Parsing *)

(** [s.split("/")]: never empty, one field more than there are slashes. *)
Fixpoint split_slash (s : string) : list string :=
  match s with
  | EmptyString => [""]
  | String c t =>
      let r := split_slash t in
      if Ascii.eqb c "/"%char then "" :: r
      else match r with
           | x :: xs => String c x :: xs
           | [] => [String c ""]
           end
  end.

(** [posixpath.splitroot] without the drive: one slash or three and
    more give the root ["/"] and keep the rest after the first slash;
    exactly two give the root ["//"]. *)
Definition is_slash (c : ascii) : bool := Ascii.eqb c "/"%char.

Definition splitroot (s : string) : string * string :=
  match s with
  | String c1 r1 =>
      if is_slash c1 then
        match r1 with
        | String c2 r2 =>
            if is_slash c2 then
              match r2 with
              | String c3 _ => if is_slash c3 then ("/", r1) else ("//", r2)
              | EmptyString => ("//", r2)
              end
            else ("/", r1)
        | EmptyString => ("/", r1)
        end
      else ("", s)
  | EmptyString => ("", s)
  end.

Definition keep_part (x : string) : bool :=
  negb (String.eqb x "") && negb (String.eqb x ".").

Definition parse_parts (rel : string) : list string :=
  List.filter keep_part (split_slash rel).

(** [PurePosixPath(s)]. *)
Definition parse (s : string) : path :=
  let '(r, rel) := splitroot s in mkPath r (parse_parts rel).

(** ** Printing and joining *)

Fixpoint join_sep (l : list string) : string :=
  match l with
  | [] => ""
  | [x] => x
  | x :: xs => x ^^ "/" ^^ join_sep xs
  end.

(** [str(p)]: root and parts, or ["."] for the empty relative path. *)
Definition to_str (p : path) : string :=
  match root p ^^ join_sep (parts p) with
  | EmptyString => "."
  | s => s
  end.

Definition ends_with_slash (s : string) : bool :=
  match last s with Some c => Ascii.eqb c "/"%char | None => false end.

(** [posixpath.join(a, b)] for two components. *)
Definition posix_join (a b : string) : string :=
  if startswith b "/" then b
  else if String.eqb a "" || ends_with_slash a then a ^^ b
  else a ^^ "/" ^^ b.

(** [p / key]. *)
Definition join (p : path) (key : string) : path :=
  parse (posix_join (to_str p) key).

(** ** Properties *)

(** [p.name]: the last part, [""] when there is none. *)
Definition name (p : path) : string :=
  List.last (parts p) "".

Definition dot_index (n : string) : Z := rfind "."%char n.

(** [0 < i < len(name) - 1], the test of [suffix] and [stem]. *)
Definition has_suffix (n : string) : bool :=
  let i := dot_index n in
  (0 <? i)%Z && (i <? Z.of_nat (String.length n) - 1)%Z.

(** [p.suffix]: [name[i:]] where [i = name.rfind(".")], or [""]. *)
Definition suffix (p : path) : string :=
  let n := name p in
  if has_suffix n then slice_from (Z.to_nat (dot_index n)) n else "".

(** [p.stem]: [name[:i]], or the whole name. *)
Definition stem (p : path) : string :=
  let n := name p in
  if has_suffix n then slice_to (Z.to_nat (dot_index n)) n else n.

(** [p.parent] for a path with at least one part. *)
Definition parent (p : path) : path := mkPath (root p) (removelast (parts p)).

(** ** Laws of [split_slash] and [parse] *)

Definition no_slash (x : string) : bool := negb (mem "/"%char x).

Lemma split_slash_nonempty s : split_slash s <> [].
Proof.
  induction s as [|c t IH]; cbn; [done|].
  case_char; [done|]. by destruct (split_slash t).
Qed.

Lemma split_slash_app a b :
  split_slash (a ^^ String "/"%char b) = split_slash a ++ split_slash b.
Proof.
  induction a as [|c a IH]; [done|]. rewrite str_app_cons. cbn [split_slash].
  rewrite IH. case_char; [done|].
  pose proof (split_slash_nonempty a). by destruct (split_slash a).
Qed.

Lemma split_slash_no_slash s : Forall (fun x => no_slash x = true) (split_slash s).
Proof.
  induction s as [|c t IH]; cbn; [by repeat constructor|].
  case_char; [subst; by constructor|].
  destruct (split_slash t) as [|x xs] eqn:E; [by apply split_slash_nonempty in E|].
  inversion IH as [|? ? Hx Hxs]; subst. constructor; [|done].
  unfold no_slash in *. cbn. case_char; [congruence|done].
Qed.

Lemma split_slash_single x : no_slash x = true -> split_slash x = [x].
Proof.
  unfold no_slash. induction x as [|c t IH]; [done|]. cbn.
  do 2 (case_char; [subst; done|]). intros H. by rewrite IH.
Qed.

Lemma parse_parts_app a b :
  parse_parts (a ^^ String "/"%char b) = parse_parts a ++ parse_parts b.
Proof. unfold parse_parts. by rewrite split_slash_app, List.filter_app. Qed.

(** A well-formed part: what [parse] keeps. *)
Definition wf_part (x : string) : bool := keep_part x && no_slash x.

Lemma parse_parts_wf s : Forall (fun x => wf_part x = true) (parse_parts s).
Proof.
  unfold parse_parts. pose proof (split_slash_no_slash s) as H.
  induction H as [|x l Hx _ IH]; cbn; [done|].
  destruct (keep_part x) eqn:E; [|done]. constructor; [|done].
  unfold wf_part. by rewrite E, Hx.
Qed.

Lemma parse_parts_single x : wf_part x = true -> parse_parts x = [x].
Proof.
  unfold wf_part. intros [Hk Hs]%andb_prop.
  unfold parse_parts. rewrite split_slash_single by done. cbn. by rewrite Hk.
Qed.

Lemma join_sep_cons x y l : join_sep (x :: y :: l) = x ^^ "/" ^^ join_sep (y :: l).
Proof. reflexivity. Qed.

Lemma parse_parts_join_sep l :
  l <> [] -> Forall (fun x => wf_part x = true) l -> parse_parts (join_sep l) = l.
Proof.
  intros Hne Hwf. induction Hwf as [|x l Hx Hl IH]; [done|].
  destruct l as [|y l]; [by apply parse_parts_single|].
  rewrite join_sep_cons. change ("/" ^^ ?t) with (String "/"%char t).
  rewrite parse_parts_app, parse_parts_single by done. by rewrite IH.
Qed.

(** ** [suffix] and [stem] *)

(** Either the name has no suffix, or it splits at its last dot into a
    non-empty stem and a non-empty extension without further dots. *)
Lemma suffix_stem_cases p :
  (has_suffix (name p) = false /\ suffix p = "" /\ stem p = name p) \/
  (exists a b, name p = a ^^ String "."%char b /\ a <> "" /\ b <> "" /\
     mem "."%char b = false /\ stem p = a /\ suffix p = String "."%char b).
Proof.
  unfold suffix, stem. destruct (has_suffix (name p)) eqn:Hs; [right|by left].
  unfold has_suffix in Hs. set (n := name p) in *. set (i := dot_index n) in *.
  apply andb_prop in Hs as [H1%Z.ltb_lt H2%Z.ltb_lt].
  destruct (rfind_some "."%char n (Z.to_nat i)) as (a & b & Hn & Ha & Hb);
    [unfold i, dot_index in *; lia|].
  assert (Hl : String.length n = String.length a + S (String.length b))
    by (rewrite Hn, str_length_app; done).
  exists a, b. rewrite <- Ha. rewrite Hn at 2 3. rewrite !(proj1 (slice_split _ _)),
    !(proj2 (slice_split _ _)).
  repeat split; try done.
  - intros ->. cbn in Ha. lia.
  - intros ->. cbn in Hl. lia.
Qed.

Lemma stem_suffix p : stem p ^^ suffix p = name p.
Proof.
  destruct (suffix_stem_cases p) as [(_ & -> & ->) | (a & b & Hn & _ & _ & _ & -> & ->)].
  - apply str_app_nil_r.
  - by rewrite Hn.
Qed.

(** [suffix] and [stem] split the name at its last dot when that dot is
    neither the first nor the last character, and otherwise give [""] and
    the whole name; in both cases [stem + suffix = name]. *)
Lemma suffix_stem_spec p :
  stem p ^^ suffix p = name p /\
  ((suffix p = "" /\ stem p = name p /\
    (rfind "."%char (name p) <= 0 \/ rfind "."%char (name p) = Z.of_nat (String.length (name p)) - 1)%Z) \/
   (exists a b, name p = a ^^ String "."%char b /\ a <> "" /\ b <> "" /\
      mem "."%char b = false /\ stem p = a /\ suffix p = String "."%char b)).
Proof.
  split; [apply stem_suffix|].
  destruct (suffix_stem_cases p) as [(Hs & Hsuf & Hst) | H]; [left|by right].
  split; [done|]. split; [done|].
  unfold has_suffix, dot_index in Hs. pose proof (rfind_ge "."%char (name p)).
  assert (rfind "."%char (name p) < Z.of_nat (String.length (name p)))%Z.
  { destruct (Z.leb_spec 0 (rfind "."%char (name p))); [|lia].
    destruct (rfind_some "."%char (name p) (Z.to_nat (rfind "."%char (name p)))) as (a & b & E & La & _);
      [lia|].
    assert (String.length (name p) = String.length a + S (String.length b))
      by (rewrite E, str_length_app; done).
    lia. }
  apply andb_false_iff in Hs as [Hs%Z.ltb_ge|Hs%Z.ltb_ge]; lia.
Qed.

(** The converse direction, to compute [suffix] and [stem] of a name
    given as stem and extension. *)
Lemma suffix_of_name p a b :
  name p = a ^^ String "."%char b -> a <> "" -> b <> "" -> mem "."%char b = false ->
  suffix p = String "."%char b /\ stem p = a.
Proof.
  intros Hn Ha Hb Hm.
  destruct (suffix_stem_cases p) as [(Hs & _ & _) | (a' & b' & Hn' & _ & _ & Hm' & -> & ->)].
  - exfalso. unfold has_suffix, dot_index in Hs. rewrite Hn, rfind_app_last in Hs by done.
    rewrite str_length_app in Hs.
    apply andb_false_iff in Hs as [Hs|Hs]; apply Z.ltb_ge in Hs;
      destruct a, b; try done; cbn [String.length] in Hs; lia.
  - rewrite Hn in Hn'. clear Hn.
    assert (E : rfind "."%char (a ^^ String "."%char b) = rfind "."%char (a' ^^ String "."%char b'))
      by (by rewrite Hn').
    rewrite !rfind_app_last in E by done. apply Nat2Z.inj in E.
    pose proof (slice_split a (String "."%char b)) as [Ea Eb].
    rewrite Hn', E, (proj1 (slice_split _ _)), (proj2 (slice_split _ _)) in *.
    subst. done.
Qed.

Lemma parse_parts_of s : parts (parse s) = parse_parts (snd (splitroot s)).
Proof. unfold parse. by destruct (splitroot s). Qed.

Lemma list_last_in_or_default (l : list string) d : List.last l d ∈ l \/ List.last l d = d.
Proof.
  destruct l as [|x l]; [by right|]. left.
  destruct (exists_last (l := x :: l) ltac:(done)) as (l' & z & ->).
  rewrite last_last. set_solver.
Qed.

(** The name of a parsed path never holds a separator. *)
Lemma name_parse_no_slash s : mem "/"%char (name (parse s)) = false.
Proof.
  unfold name. rewrite parse_parts_of.
  pose proof (parse_parts_wf (snd (splitroot s))) as Hwf. rewrite Forall_forall in Hwf.
  destruct (list_last_in_or_default (parse_parts (snd (splitroot s))) "") as [Hin| ->]; [|done].
  apply Hwf in Hin. unfold wf_part, no_slash in Hin. apply andb_prop in Hin as [_ Hn].
  by apply negb_true_iff in Hn.
Qed.

(** A suffix is empty or a dot followed by a non-empty extension without
    separator or further dot. *)
Lemma suffix_parse_shape s :
  suffix (parse s) = "" \/
  exists b, suffix (parse s) = String "."%char b /\ b <> "" /\
    mem "/"%char b = false /\ mem "."%char b = false.
Proof.
  destruct (suffix_stem_cases (parse s)) as [(_ & -> & _) | (a & b & Hn & _ & Hb & Hd & _ & ->)];
    [by left|right].
  exists b. split; [done|]. split; [done|]. split; [|done].
  pose proof (name_parse_no_slash s) as Hs. rewrite Hn, mem_app in Hs.
  apply orb_false_iff in Hs as [_ Hs]. cbn [mem] in Hs.
  by destruct (Ascii.eqb "/"%char "."%char).
Qed.

(** ** Joining under an absolute directory *)

Lemma wf_part_shape x :
  wf_part x = true -> exists c x', x = String c x' /\ c <> "/"%char /\ no_slash x = true.
Proof.
  unfold wf_part, keep_part. intros [[Hne _]%andb_prop Hs]%andb_prop.
  destruct x as [|c x']; [done|]. exists c, x'. split; [done|]. split; [|done].
  intros ->. unfold no_slash in Hs. cbn in Hs. by rewrite Ascii.eqb_refl in Hs.
Qed.

Lemma join_sep_head x l : exists t, join_sep (x :: l) = x ^^ t.
Proof.
  destruct l as [|y l]; [exists ""; by rewrite str_app_nil_r|].
  eexists. apply join_sep_cons.
Qed.

Lemma join_sep_last l : l <> [] -> exists t, join_sep l = t ^^ List.last l "".
Proof.
  induction l as [|x l IH]; [done|]. intros _.
  destruct l as [|y l]; [by exists ""|].
  destruct IH as [t Ht]; [done|]. exists (x ^^ "/" ^^ t).
  rewrite join_sep_cons, Ht, <- !str_app_assoc. done.
Qed.

Lemma wf_last_not_slash x :
  wf_part x = true -> exists c, PyStr.last x = Some c /\ c <> "/"%char.
Proof.
  intros Hx. destruct (wf_part_shape x Hx) as (c0 & x' & -> & _ & Hs).
  destruct (last_is_Some c0 x') as [c Hc]. exists c. split; [done|].
  intros ->. apply last_mem in Hc. unfold no_slash in Hs. by rewrite Hc in Hs.
Qed.

Lemma list_last_elem_of (l : list string) d : l <> [] -> List.last l d ∈ l.
Proof.
  intros Hne. destruct (exists_last Hne) as (l' & z & ->).
  rewrite last_last. set_solver.
Qed.

(** [str()] of an absolute path with well-formed parts. *)
Lemma to_str_abs l : to_str (mkPath "/" l) = String "/"%char (join_sep l).
Proof. reflexivity. Qed.

(** [dir / key] for an absolute directory and a relative [key]: the
    parts of [key] are appended to those of [dir]. *)
Lemma join_abs l key :
  l <> [] -> Forall (fun x => wf_part x = true) l -> head key <> Some "/"%char ->
  join (mkPath "/" l) key = mkPath "/" (l ++ parse_parts key).
Proof.
  intros Hne Hwf Hkey. unfold join. rewrite to_str_abs.
  pose proof (list_last_elem_of l "" Hne) as Hlast.
  rewrite Forall_forall in Hwf.
  destruct (wf_last_not_slash _ (Hwf _ Hlast)) as (c & Hc & Hcs).
  destruct (join_sep_last l Hne) as [t Ht].
  assert (Hpj : posix_join (String "/"%char (join_sep l)) key
                = String "/"%char (join_sep l ^^ String "/"%char key)).
  { unfold posix_join.
    assert (startswith key "/" = false) as ->.
    { destruct key as [|k key]; [done|]. unfold startswith. cbn [String.prefix].
      destruct (ascii_dec "/"%char k); [subst; done|done]. }
    assert (ends_with_slash (String "/"%char (join_sep l)) = false) as ->.
    { unfold ends_with_slash. destruct (wf_part_shape _ (Hwf _ Hlast)) as (? & ? & Hx & _).
      rewrite Ht, last_cons, last_app, Hc by (rewrite ?Hx; by destruct t).
      by apply Ascii.eqb_neq. }
    reflexivity. }
  unfold parse. rewrite Hpj.
  destruct l as [|x l']; [done|].
  destruct (join_sep_head x l') as [t' Ht'].
  destruct (wf_part_shape x (Hwf x (proj2 (elem_of_cons _ _ _) (or_introl eq_refl))))
    as (c0 & x' & -> & Hc0 & _).
  rewrite Ht', str_app_cons, str_app_cons. cbn [splitroot]. unfold is_slash.
  rewrite Ascii.eqb_refl. rewrite (proj2 (Ascii.eqb_neq c0 "/"%char) Hc0).
  rewrite <- str_app_cons, <- str_app_cons, <- Ht', parse_parts_app.
  rewrite parse_parts_join_sep; [done|done|]. apply Forall_forall. exact Hwf.
Qed.

End PyPath.
