(* ===== verification/TokenHex.v ===== *)
(** * [secrets.token_hex]: the random stem of the stored files

    [secrets.token_hex(n)] is [binascii.hexlify(token_bytes(n))
    .decode("ascii")]: every byte becomes two lowercase hexadecimal
    digits, high nibble first.  The [n] random bytes are an input of the
    model (they come from [os.urandom]); a byte is a [Z] in [0 .. 255].
    [unhexlify] is the inverse, used to state the round trip and hence
    that two different draws never give the same stem. *)

From S2P Require Import Prelude PyStr.

Module TokenHex.
Import PyStr.

Definition is_byte (b : Z) : bool := (0 <=? b)%Z && (b <? 256)%Z.

Definition bytes_wf (bs : list Z) : Prop := Forall (fun b => is_byte b = true) bs.

(** One hexadecimal digit, [0 .. 9] then [a .. f]. *)
Definition hex_digit (n : Z) : ascii :=
  if (n <? 10)%Z then ascii_of_N (Z.to_N (48 + n)) else ascii_of_N (Z.to_N (87 + n)).

(** [binascii.hexlify(bs).decode("ascii")]. *)
Fixpoint hexlify (bs : list Z) : string :=
  match bs with
  | [] => ""
  | b :: t => String (hex_digit (b / 16)) (String (hex_digit (b mod 16)) (hexlify t))
  end.

(** [secrets.token_hex(len(bs))] after [token_bytes] drew [bs]. *)
Definition token_hex (bs : list Z) : string := hexlify bs.

(** The value of a lowercase hexadecimal digit. *)
Definition unhex_digit (c : ascii) : option Z :=
  let n := Z.of_N (N_of_ascii c) in
  if (48 <=? n)%Z && (n <=? 57)%Z then Some (n - 48)%Z
  else if (97 <=? n)%Z && (n <=? 102)%Z then Some (n - 87)%Z
  else None.

(** [binascii.unhexlify] on lowercase digits. *)
Fixpoint unhexlify (s : string) : option (list Z) :=
  match s with
  | EmptyString => Some []
  | String h (String l t) =>
      match unhex_digit h, unhex_digit l, unhexlify t with
      | Some a, Some b, Some r => Some ((16 * a + b)%Z :: r)
      | _, _, _ => None
      end
  | String _ EmptyString => None
  end.

Definition is_hex_char (c : ascii) : bool :=
  match unhex_digit c with Some _ => true | None => false end.

(** ** Laws *)

Lemma unhex_hex_digit n : (0 <= n < 16)%Z -> unhex_digit (hex_digit n) = Some n.
Proof.
  intros Hn. unfold hex_digit, unhex_digit.
  destruct (Z.ltb_spec n 10); rewrite N_ascii_embedding by lia; rewrite Z2N.id by lia.
  - replace ((48 <=? 48 + n)%Z && (48 + n <=? 57)%Z) with true
      by (symmetry; apply andb_true_intro; split; apply Z.leb_le; lia).
    f_equal. lia.
  - replace ((48 <=? 87 + n)%Z && (87 + n <=? 57)%Z) with false
      by (symmetry; apply andb_false_intro2; apply Z.leb_gt; lia).
    replace ((97 <=? 87 + n)%Z && (87 + n <=? 102)%Z) with true
      by (symmetry; apply andb_true_intro; split; apply Z.leb_le; lia).
    f_equal. lia.
Qed.

Lemma nibbles_range b : is_byte b = true -> (0 <= b / 16 < 16)%Z /\ (0 <= b mod 16 < 16)%Z.
Proof.
  unfold is_byte. intros [H1%Z.leb_le H2%Z.ltb_lt]%andb_prop.
  split; [split; [apply Z.div_pos|apply Z.div_lt_upper_bound]|apply Z.mod_pos_bound]; lia.
Qed.

Lemma hexlify_length bs : String.length (hexlify bs) = 2 * length bs.
Proof. induction bs as [|b t IH]; [done|]. cbn. rewrite IH. lia. Qed.

(** [unhexlify] inverts [hexlify] on byte lists. *)
Lemma unhexlify_hexlify bs : bytes_wf bs -> unhexlify (hexlify bs) = Some bs.
Proof.
  induction 1 as [|b t Hb _ IH]; [done|]. cbn [hexlify unhexlify].
  destruct (nibbles_range b Hb) as [Hh Hl].
  rewrite !unhex_hex_digit, IH by done. do 2 f_equal.
  pose proof (Z.div_mod b 16). lia.
Qed.

(** Two draws give the same token only when they are the same bytes. *)
Lemma token_hex_inj a b :
  bytes_wf a -> bytes_wf b -> token_hex a = token_hex b -> a = b.
Proof.
  intros Ha Hb E. apply (f_equal unhexlify) in E.
  unfold token_hex in E. rewrite !unhexlify_hexlify in E by done. congruence.
Qed.

Lemma hex_digit_is_hex n : (0 <= n < 16)%Z -> is_hex_char (hex_digit n) = true.
Proof. intros Hn. unfold is_hex_char. by rewrite unhex_hex_digit. Qed.

Lemma hexlify_hex bs : bytes_wf bs -> all_chars is_hex_char (hexlify bs) = true.
Proof.
  induction 1 as [|b t Hb _ IH]; [done|]. cbn.
  destruct (nibbles_range b Hb). by rewrite !hex_digit_is_hex, IH.
Qed.

(** C37 (roundtrip).  [token_hex] of [n] bytes is [2n] lowercase hexadecimal digits from
    which [unhexlify] recovers the bytes. *)
Theorem token_hex_roundtrip bs :
  bytes_wf bs ->
  unhexlify (token_hex bs) = Some bs /\ String.length (token_hex bs) = 2 * length bs /\
  all_chars is_hex_char (token_hex bs) = true.
Proof.
  intros Hwf. unfold token_hex. split; [by apply unhexlify_hexlify|].
  split; [apply hexlify_length|by apply hexlify_hex].
Qed.

Lemma hex_char_not_sep c : is_hex_char c = true -> c <> "/"%char /\ c <> "."%char.
Proof. intros Hc. split; intros ->; discriminate Hc. Qed.

Lemma all_hex_no_sep s :
  all_chars is_hex_char s = true -> mem "/"%char s = false /\ mem "."%char s = false.
Proof.
  induction s as [|c s IH]; [done|]. cbn. intros [Hc Hs]%andb_prop.
  destruct (hex_char_not_sep c Hc) as [H1 H2].
  rewrite !(proj2 (Ascii.eqb_neq _ _)) by congruence. by apply IH.
Qed.

Lemma token_hex_roundtrip_witness :
  unhexlify (token_hex [222; 173; 190; 239; 0; 1; 2; 255]%Z) = Some [222; 173; 190; 239; 0; 1; 2; 255]%Z /\
  String.length (token_hex [222; 173; 190; 239; 0; 1; 2; 255]%Z) = 16.
Proof.
  destruct (token_hex_roundtrip [222; 173; 190; 239; 0; 1; 2; 255]%Z) as (E & L & _);
    [repeat constructor|].
  split; [exact E|exact L].
Defined.

End TokenHex.
