(* ===== verification/Utf8Decode.v ===== *)
(** * [bytes.decode("utf-8", "ignore")] on a converter's stderr

    [run_command] turns the captured stderr of a failed converter into
    text with [e.stderr.decode("utf-8", "ignore")].  [decode_ignore] is
    CPython's UTF-8 decoder ([Objects/stringlib/codecs.h], [utf8_decode],
    and the error loop of [unicode_decode_utf8]) with the [ignore] error
    handler, on a byte list:
    - a byte below [0x80] is a code point;
    - [0x80 .. 0xC1] and [0xF5 .. 0xFF] are invalid start bytes, dropped
      alone;
    - a lead byte whose next byte is not a valid continuation loses the
      valid prefix read so far, and decoding resumes at the offending
      byte ("invalid continuation byte");
    - the second byte of a three- or four-byte sequence is checked against
      the overlong and surrogate ranges ([E0 80..9F], [ED A0..BF],
      [F0 80..8F], [F4 90..BF]);
    - a valid prefix cut off by the end of the input is dropped whole
      ("unexpected end of data" covers the rest of the input).
    [encode_utf8] is [str.encode("utf-8")], the reference for the round
    trip. *)

From S2P Require Import Prelude.

Module Utf8.

Local Open Scope Z_scope.

Definition is_cont (b : Z) : bool := (0x80 <=? b) && (b <? 0xC0).

Fixpoint decode_ignore (bs : list Z) : list Z :=
  match bs with
  | [] => []
  | b1 :: r1 =>
    if b1 <? 0x80 then b1 :: decode_ignore r1
    else if b1 <? 0xC2 then decode_ignore r1
    else if b1 <? 0xE0 then
      match r1 with
      | [] => []
      | b2 :: r2 =>
          if is_cont b2 then ((b1 - 0xC0) * 0x40 + (b2 - 0x80)) :: decode_ignore r2
          else decode_ignore r1
      end
    else if b1 <? 0xF0 then
      match r1 with
      | [] => []
      | b2 :: r2 =>
          if negb (is_cont b2) || (if b2 <? 0xA0 then b1 =? 0xE0 else b1 =? 0xED)
          then decode_ignore r1
          else match r2 with
               | [] => []
               | b3 :: r3 =>
                   if is_cont b3 then
                     ((b1 - 0xE0) * 0x1000 + (b2 - 0x80) * 0x40 + (b3 - 0x80))
                       :: decode_ignore r3
                   else decode_ignore r2
               end
      end
    else if b1 <? 0xF5 then
      match r1 with
      | [] => []
      | b2 :: r2 =>
          if negb (is_cont b2) || (if b2 <? 0x90 then b1 =? 0xF0 else b1 =? 0xF4)
          then decode_ignore r1
          else match r2 with
               | [] => []
               | b3 :: r3 =>
                   if negb (is_cont b3) then decode_ignore r2
                   else match r3 with
                        | [] => []
                        | b4 :: r4 =>
                            if is_cont b4 then
                              ((b1 - 0xF0) * 0x40000 + (b2 - 0x80) * 0x1000
                               + (b3 - 0x80) * 0x40 + (b4 - 0x80)) :: decode_ignore r4
                            else decode_ignore r3
                        end
               end
      end
    else decode_ignore r1
  end.

(** A Unicode scalar value: a code point that is not a surrogate. *)
Definition is_scalar (c : Z) : bool :=
  (0 <=? c) && (c <? 0x110000) && negb ((0xD800 <=? c) && (c <? 0xE000)).

(** [chr(c).encode("utf-8")] for a scalar value [c]. *)
Definition encode_cp (c : Z) : list Z :=
  if c <? 0x80 then [c]
  else if c <? 0x800 then [0xC0 + c / 0x40; 0x80 + c mod 0x40]
  else if c <? 0x10000 then
    [0xE0 + c / 0x1000; 0x80 + (c / 0x40) mod 0x40; 0x80 + c mod 0x40]
  else [0xF0 + c / 0x40000; 0x80 + (c / 0x1000) mod 0x40;
        0x80 + (c / 0x40) mod 0x40; 0x80 + c mod 0x40].

Definition encode_utf8 (cs : list Z) : list Z := flat_map encode_cp cs.

Definition byte_ok (b : Z) : bool := (0 <=? b) && (b <? 256).

(** ** One step of the decoder *)

Local Ltac sfx := first [reflexivity | apply suffix_cons_r; sfx].

Local Ltac scalar_goal := unfold is_scalar; repeat zcase; reflexivity.

(** Case on every comparison and every list shape the first step reads. *)
Local Ltac dec_cases :=
  repeat (cbn [negb orb andb];
          first [ zcase
                | match goal with
                  | |- context [match ?l with [] => _ | _ :: _ => _ end] => destruct l
                  end ]);
  cbn [negb orb andb].

Local Ltac leaf :=
  match goal with
  | |- exists out rest, ?x :: decode_ignore ?r = out ++ decode_ignore rest /\ _ =>
      exists [x], r
  | |- exists out rest, decode_ignore ?r = out ++ decode_ignore rest /\ _ =>
      exists [], r
  | |- exists out rest, [] = out ++ decode_ignore rest /\ _ =>
      exists [], []
  end;
  split; [reflexivity|]; split; [sfx|]; split; [cbn; lia|];
  intros; repeat constructor; scalar_goal.

(** Every step emits at most one code point, a scalar value, and resumes
    on a suffix of the input after the first byte. *)
Lemma decode_step b1 r :
  exists out rest, decode_ignore (b1 :: r) = out ++ decode_ignore rest /\
    rest `suffix_of` r /\ (length out <= 1)%nat /\
    (byte_ok b1 = true -> Forall (fun c => is_scalar c = true) out).
Proof.
  cbn [decode_ignore]. unfold is_cont, byte_ok.
  dec_cases; leaf.
Qed.

Lemma Forall_suffix {A} (P : A -> Prop) l1 l2 :
  l1 `suffix_of` l2 -> Forall P l2 -> Forall P l1.
Proof. intros [k ->] H. by apply Forall_app in H as [_ ?]. Qed.

(** ** Laws of the decoder *)

(** C36 (type).  On bytes, the decoder only produces Unicode scalar values. *)
Theorem decode_ignore_scalar bs :
  Forall (fun b => byte_ok b = true) bs ->
  Forall (fun c => is_scalar c = true) (decode_ignore bs).
Proof.
  induction bs as [bs IH] using list_len_ind. intros Hbs.
  destruct bs as [|b1 r]; [constructor|].
  apply Forall_cons in Hbs as [Hb Hr].
  destruct (decode_step b1 r) as (out & rest & -> & Hsfx & _ & Hout).
  apply Forall_app; split; [by apply Hout|].
  apply IH; [cbn; apply suffix_length in Hsfx; lia|]. exact (Forall_suffix _ _ _ Hsfx Hr).
Qed.

(** The decoder never produces more code points than it reads bytes. *)
Lemma decode_ignore_length bs : (length (decode_ignore bs) <= length bs)%nat.
Proof.
  induction bs as [bs IH] using list_len_ind.
  destruct bs as [|b1 r]; [done|].
  destruct (decode_step b1 r) as (out & rest & -> & Hsfx & Hlen & _).
  apply suffix_length in Hsfx. rewrite length_app.
  specialize (IH rest ltac:(cbn; lia)). cbn. lia.
Qed.

(** Decoding the UTF-8 encoding of one scalar value reads exactly its
    bytes. *)
Theorem decode_encode_cp c rest :
  is_scalar c = true -> decode_ignore (encode_cp c ++ rest) = c :: decode_ignore rest.
Proof.
  unfold is_scalar. intros H.
  apply andb_prop in H as [[H1%Z.leb_le H2%Z.ltb_lt]%andb_prop H3%negb_true_iff].
  assert (c < 0xD800 \/ 0xE000 <= c)
    by (apply andb_false_iff in H3 as [H3%Z.leb_gt|H3%Z.ltb_ge]; lia).
  unfold encode_cp. repeat zcase; cbn [app decode_ignore]; unfold is_cont;
    dec_cases; f_equal; zlia.
Qed.

Lemma decode_encode_all cs :
  Forall (fun c => is_scalar c = true) cs -> decode_ignore (encode_utf8 cs) = cs.
Proof.
  induction 1 as [|c cs Hc _ IH]; [done|].
  cbn [encode_utf8 flat_map]. rewrite decode_encode_cp by done. f_equal. exact IH.
Qed.

(** C35 (roundtrip).  Round trip: [bytes.decode] inverts [str.encode] on scalar values,
    whatever the error handler. *)
Theorem decode_encode cs :
  Forall (fun c => is_scalar c = true) cs -> decode_ignore (encode_utf8 cs) = cs.
Proof. apply decode_encode_all. Qed.

(** Every scalar value takes one to four bytes. *)
Lemma encode_cp_length c : is_scalar c = true -> (1 <= length (encode_cp c) <= 4)%nat.
Proof. intros _. unfold encode_cp. repeat zcase; cbn; lia. Qed.

Lemma encode_utf8_app cs ds : encode_utf8 (cs ++ ds) = encode_utf8 cs ++ encode_utf8 ds.
Proof. apply flat_map_app. Qed.

(** A code point above the Basic Multilingual Plane takes four bytes. *)
Lemma encode_cp_length_astral c : 0x10000 <= c -> length (encode_cp c) = 4%nat.
Proof. intros H. unfold encode_cp. repeat zcase; cbn; lia. Qed.

Lemma encode_utf8_length_astral cs :
  Forall (fun c => 0x10000 <= c) cs -> length (encode_utf8 cs) = (4 * length cs)%nat.
Proof.
  induction 1 as [|c cs Hc _ IH]; [done|]. cbn [encode_utf8 flat_map].
  rewrite length_app, encode_cp_length_astral by done. fold (encode_utf8 cs). cbn [length]. lia.
Qed.

(** ** Witnesses *)

(** "é€😀" round-trips. *)
Lemma decode_encode_witness : decode_ignore (encode_utf8 [0xE9; 0x20AC; 0x1F600]) = [0xE9; 0x20AC; 0x1F600].
Proof. apply decode_encode. repeat constructor. Defined.

(** A lone surrogate encoding, an overlong form and a cut sequence decode
    to scalar values only. *)
Lemma decode_ignore_scalar_witness :
  Forall (fun c => is_scalar c = true)
    (decode_ignore [0xED; 0xA0; 0x80; 0x41; 0xC0; 0xAF; 0xF0; 0x9F; 0x98]).
Proof. apply decode_ignore_scalar. repeat constructor. Defined.

End Utf8.
