(* ===== verification/Subprocess.v ===== *)
(** * [run_command]: what a converter process can do, and how the
    handler reports it

    [subprocess.run(cmd, check=True, stdout=PIPE, stderr=PIPE,
    timeout=t)] ends in one of three ways that [main.py] distinguishes:
    the child exits with a return code (negative when a signal killed
    it) and the captured stderr bytes; the timeout expires
    ([TimeoutExpired], after which [subprocess] kills the child); or the
    child never starts ([Popen] raises an [OSError], [FileNotFoundError]
    when the converter binary is missing).  [run_command_outcome] is the
    [try]/[except] of [run_command] (lines 40-52): return code [0] is
    success, a non-zero one becomes HTTP 400 with the first 600 decoded
    characters of stderr (or [str(e)] when they are empty), a timeout
    becomes HTTP 408, and anything else escapes the handler.

    [called_process_error_str] is [CalledProcessError.__str__], with
    [repr] of the argument list as CPython prints it (Latin-1 strings:
    quote choice, backslash escapes, [\xNN] for the non-printable
    characters).  The names of signals ([repr(signal.Signals(n))]) are the
    platform's and are a parameter. *)

From S2P Require Import Prelude PyStr TokenHex Utf8Decode.
From stdpp Require Import pretty.

Module Subprocess.
Import PyStr.

(** ** What [subprocess.run] reports *)

Inductive proc_result :=
| Exited (returncode : Z) (stderr : list Z)
| TimedOut
| SpawnFailed (oserror : string).

(** The exceptions that leave the handler: FastAPI's [HTTPException]
    (status code and [detail], a Python [str] as code points) and any
    other exception, which the framework turns into a bare 500. *)
Inductive exc :=
| HTTPException (status_code : Z) (detail : list Z)
| Unhandled (what : string).

#[export] Instance exc_eq_dec : EqDecision exc.
Proof. solve_decision. Defined.

(** ** [repr] of a list of strings *)

Definition repr_needs_hex (c : ascii) : bool :=
  let n := N_of_ascii c in
  ((n <? 32) || (n =? 127) || ((128 <=? n) && (n <=? 160)) || (n =? 173))%N.

(** One character of [repr(s)] inside the quote [q]. *)
Definition repr_char (q c : ascii) : string :=
  if Ascii.eqb c q || Ascii.eqb c "\"%char then String "\"%char (String c "")
  else if Ascii.eqb c "009"%char then "\t"
  else if Ascii.eqb c "010"%char then "\n"
  else if Ascii.eqb c "013"%char then "\r"
  else if repr_needs_hex c then
    String "\"%char (String "x"%char
      (String (TokenHex.hex_digit (ord c / 16)) (String (TokenHex.hex_digit (ord c mod 16)) "")))
  else String c "".

Fixpoint repr_body (q : ascii) (s : string) : string :=
  match s with
  | EmptyString => ""
  | String c t => repr_char q c ^^ repr_body q t
  end.

(** [repr(s)]: single quotes, unless [s] holds a single quote and no
    double quote. *)
Definition repr_str (s : string) : string :=
  let q := if mem "'"%char s && negb (mem "034"%char s) then "034"%char else "'"%char in
  String q (repr_body q s ^^ String q "").

Fixpoint repr_items (l : list string) : string :=
  match l with
  | [] => ""
  | [x] => repr_str x
  | x :: t => repr_str x ^^ ", " ^^ repr_items t
  end.

(** [repr(l)] (and [str(l)]) for a list of strings. *)
Definition repr_list (l : list string) : string := "[" ^^ repr_items l ^^ "]".

(** ** [CalledProcessError] *)

Section WithSignals.

(** [repr(signal.Signals(n))], [None] when [n] is not a signal of the
    platform ([ValueError]). *)
Variable signal_repr : Z -> option string.

(** [str(CalledProcessError(returncode, cmd))]. *)
Definition called_process_error_str (cmd : list string) (returncode : Z) : string :=
  if (returncode <? 0)%Z then
    match signal_repr (- returncode)%Z with
    | Some sg => "Command '" ^^ repr_list cmd ^^ "' died with " ^^ sg ^^ "."
    | None => "Command '" ^^ repr_list cmd ^^ "' died with unknown signal "
               ^^ pretty (- returncode)%Z ^^ "."
    end
  else "Command '" ^^ repr_list cmd ^^ "' returned non-zero exit status "
        ^^ pretty returncode ^^ ".".

(** [e.stderr.decode("utf-8", "ignore")[:600] or str(e)]. *)
Definition failure_message (cmd : list string) (returncode : Z) (stderr : list Z) : list Z :=
  match take 600 (Utf8.decode_ignore stderr) with
  | [] => cps (called_process_error_str cmd returncode)
  | m => m
  end.

(** The [try]/[except] of [run_command]: [None] when the command
    succeeded, otherwise the exception that leaves it. *)
Definition run_command_outcome (cmd : list string) (r : proc_result) : option exc :=
  match r with
  | Exited rc err =>
      if (rc =? 0)%Z then None
      else Some (HTTPException 400 (cps "Conversion failed: " ++ failure_message cmd rc err))
  | TimedOut => Some (HTTPException 408 (cps "Conversion timed out"))
  | SpawnFailed e => Some (Unhandled e)
  end.

(** ** Laws *)

(** The detail of a failed conversion is the first 600 decoded
    characters of stderr when stderr decodes to anything at all, and
    [str(e)] otherwise. *)
Lemma failure_message_bound cmd rc err :
  (Utf8.decode_ignore err <> [] ->
   failure_message cmd rc err = take 600 (Utf8.decode_ignore err) /\
   (length (failure_message cmd rc err) <= 600)%nat) /\
  (Utf8.decode_ignore err = [] ->
   failure_message cmd rc err = cps (called_process_error_str cmd rc)).
Proof.
  unfold failure_message. split.
  - intros Hne.
    assert (Hm : take 600 (Utf8.decode_ignore err) = [] -> False).
    { intros E. apply Hne. destruct (Utf8.decode_ignore err); [done|discriminate]. }
    destruct (take 600 (Utf8.decode_ignore err)) as [|c m] eqn:E; [by destruct Hm|].
    rewrite <- E. split; [done|]. rewrite length_take; lia.
  - intros ->. done.
Qed.

(** C34 (bounds).  The truncation counts characters, not bytes: when the
    converter writes to stderr the UTF-8 encoding of at least 600
    characters outside the Basic Multilingual Plane (emoji, for
    instance), the detail is their first 600 characters, 2400 bytes once
    encoded. *)
Theorem failure_message_utf8_2400 cmd rc cs :
  Forall (fun c => Utf8.is_scalar c = true /\ (0x10000 <= c)%Z) cs -> (600 <= length cs)%nat ->
  failure_message cmd rc (Utf8.encode_utf8 cs) = take 600 cs /\
  length (Utf8.encode_utf8 (failure_message cmd rc (Utf8.encode_utf8 cs))) = 2400%nat.
Proof.
  intros Hcs Hlen.
  assert (Hd : Utf8.decode_ignore (Utf8.encode_utf8 cs) = cs)
    by (apply Utf8.decode_encode_all; eapply Forall_impl; [exact Hcs|]; by intros ? []).
  assert (Hm : failure_message cmd rc (Utf8.encode_utf8 cs) = take 600 cs).
  { unfold failure_message. rewrite Hd.
    destruct (take 600 cs) eqn:E; [|done]. apply (f_equal length) in E.
    rewrite length_take, Nat.min_l in E by lia. cbn in E. lia. }
  split; [done|]. rewrite Hm, Utf8.encode_utf8_length_astral, length_take, Nat.min_l; [lia|lia|].
  apply Forall_take. eapply Forall_impl; [exact Hcs|]. by intros ? [].
Qed.

End WithSignals.

(** 600 copies of U+1F600 on stderr: a detail of 2400 bytes. *)
Lemma failure_message_utf8_2400_witness :
  length (Utf8.encode_utf8 (failure_message (fun _ => None) ["ffmpeg"] 1
            (Utf8.encode_utf8 (repeat 0x1F600%Z 600)))) = 2400%nat.
Proof.
  apply (failure_message_utf8_2400 (fun _ => None) ["ffmpeg"] 1 (repeat 0x1F600%Z 600));
    [apply (bool_decide_unpack _); vm_compute; exact I|rewrite repeat_length; lia].
Defined.

End Subprocess.
