(* ===== verification/Router.v ===== *)
(** * The [/convert] handler of [main.py]

    The handler is modelled in a state-and-exception monad [M] over a
    [world]: the files of the server, each [str(path)] with its size in
    bytes ([st_size]; the handler never reads file contents), the log of
    the argument vectors of the processes it started with their timeouts,
    oldest first, and the set of directories ([open("wb")] needs the
    parent directory, [exists()] also holds for a directory).  An exception is a [Subprocess.exc]: an [HTTPException] with
    its status and detail, or an exception FastAPI turns into a bare 500.

    What the handler only calls is the [Platform] interface:
    [mimetypes.guess_type], [subprocess.run] (the converter runs on the
    file system and reports a [proc_result]) and the platform's signal
    names.  The random bytes of [secrets.token_hex(8)] are an argument of
    [convert].

    Each binding of [convert] (lines 60-117) is a definition of its own:
    [safe_id] (65), [input_suffix] (66), [input_path] (67),
    [normalize_target] (70), [output_path] (73), [mime_of] (80), [route]
    (the conditions of lines 83, 86, 89, 92 and 106, in order),
    [download_name] (112); [convert] composes them with the effects:
    [write_file] (76-77), [ensure_size_limit] (33-36, 78), [run_command]
    (39-52) and [path_exists] (109). *)

From S2P Require Import Prelude PyStr PyPath TokenHex Utf8Decode Subprocess.
From Stdlib Require Import QArith.
Close Scope Q_scope.

Module Router.
Import PyStr PyPath Subprocess.

(** ** World and monad *)

Record world := mkWorld {
  fs : gmap string N;
  procs : list (list string * Z);
  dirs : gset string
}.

Definition M (A : Type) : Type := world -> (exc + A) * world.

Definition ret {A} (x : A) : M A := fun w => (inr x, w).

Definition bind {A B} (m : M A) (k : A -> M B) : M B :=
  fun w => match m w with
           | (inl e, w') => (inl e, w')
           | (inr x, w') => k x w'
           end.

Definition raise {A} (e : exc) : M A := fun w => (inl e, w).

Notation "'let*' x ':=' m 'in' k" := (bind m (fun x => k))
  (at level 100, x name, m at level 99, k at level 100, right associativity) : conv_scope.

Definition http (status : Z) (detail : string) : exc := HTTPException status (cps detail).

(** ** The platform the handler calls *)

Class Platform := {
  (** [mimetypes.guess_type(name)[0]] *)
  guess_type : string -> option string;
  (** [subprocess.run(cmd, timeout=t)] on the file system *)
  run_proc : list string -> Z -> gmap string N -> proc_result * gmap string N;
  (** [repr(signal.Signals(n))] *)
  signal_repr : Z -> option string
}.

Section Handler.
Context `{Platform}.

(** ** Configuration (lines 24-30) *)

Definition BASE_DIR : path := parse "/tmp/freefileconverters".
Definition UPLOAD_DIR : path := join BASE_DIR "uploads".
Definition OUTPUT_DIR : path := join BASE_DIR "outputs".
Definition MAX_MB : Z := 100.

(** ** Effects *)

(** [with path.open("wb") as f: shutil.copyfileobj(file.file, f)]: the
    file now holds the whole upload.  [open] fails on a directory, when
    the parent is a file ([ENOTDIR]) and when the parent is missing
    ([ENOENT]); as for [os.mkdir], only the parent is examined. *)
Definition write_file (p : path) (size : N) : M unit :=
  fun w =>
    if decide (to_str p ∈ dirs w) then (inl (Unhandled "IsADirectoryError"), w)
    else if decide (to_str (parent p) ∈ dirs w) then
      (inr tt, mkWorld (<[to_str p := size]> (fs w)) (procs w) (dirs w))
    else if decide (is_Some (fs w !! to_str (parent p))) then
      (inl (Unhandled "NotADirectoryError"), w)
    else (inl (Unhandled "FileNotFoundError"), w).

(** [os.stat] succeeds: a file or a directory is there. *)
Definition exists_in (w : world) (k : string) : bool :=
  bool_decide (is_Some (fs w !! k)) || bool_decide (k ∈ dirs w).

(** [path.exists()]. *)
Definition path_exists (p : path) : M bool :=
  fun w => (inr (exists_in w (to_str p)), w).

(** [size_mb > max_mb] with [size_mb = st_size / (1024 * 1024)], a true
    division. *)
Definition size_exceeds (st_size : N) (max_mb : Z) : bool :=
  negb (Qle_bool (inject_Z (Z.of_N st_size) / inject_Z (1024 * 1024)) (inject_Z max_mb)).

(** [ensure_size_limit(temp_path, max_mb)]. *)
Definition ensure_size_limit (p : path) (max_mb : Z) : M unit :=
  fun w =>
    match fs w !! to_str p with
    | None => (inl (Unhandled "FileNotFoundError"), w)
    | Some sz =>
        if size_exceeds sz max_mb then (inl (http 413 "File too large"), w)
        else (inr tt, w)
    end.

(** [run_command(cmd)] with its default timeout of 180 seconds: the
    process is started (and logged), then its outcome is mapped. *)
Definition run_command (cmd : list string) (timeout_seconds : Z) : M unit :=
  fun w =>
    let '(r, fs') := run_proc cmd timeout_seconds (fs w) in
    let w' := mkWorld fs' (procs w ++ [(cmd, timeout_seconds)]) (dirs w) in
    match run_command_outcome signal_repr cmd r with
    | None => (inr tt, w')
    | Some e => (inl e, w')
    end.

(** ** The bindings of [convert] *)

Record UploadFile := mkUpload {
  filename : option string;
  content_type : option string;
  upload_size : N
}.

Record FileResponse := mkFileResponse {
  fr_path : string;
  fr_filename : string;
  fr_media_type : string
}.

Definition safe_id (tok : list Z) : string := TokenHex.token_hex tok.

Definition input_suffix (fname : string) : string := lower (suffix (parse fname)).

Definition input_path (fname : string) (tok : list Z) : path :=
  join UPLOAD_DIR (safe_id tok ^^ input_suffix fname).

Definition normalize_target (target : string) : string := lower (lstrip "." (strip target)).

Definition output_path (tok : list Z) (target : string) : path :=
  join OUTPUT_DIR (safe_id tok ^^ "." ^^ target).

(** Python's [a or b] on an optional string. *)
Definition py_or (a : option string) (b : string) : string :=
  match a with
  | Some s => if String.eqb s "" then b else s
  | None => b
  end.

Definition mime_of (ct : option string) (fname : string) : string :=
  py_or ct (py_or (guess_type fname) "").

Definition image_exts : list string :=
  [".png"; ".jpg"; ".jpeg"; ".webp"; ".gif"; ".tiff"; ".bmp"].
Definition audio_exts : list string := [".mp3"; ".wav"; ".aac"; ".flac"; ".ogg"; ".m4a"].
Definition video_exts : list string := [".mp4"; ".mov"; ".mkv"; ".avi"; ".webm"].
Definition doc_exts : list string :=
  [".doc"; ".docx"; ".ppt"; ".pptx"; ".xls"; ".xlsx"; ".odt"; ".odp"; ".ods"].

Inductive category := Image | Audio | Video | Document | Unsupported.

#[export] Instance category_eq_dec : EqDecision category.
Proof. solve_decision. Defined.

(** The conditions of the [if]/[elif] chain, first match wins. *)
Definition route (mime sfx : string) : category :=
  if startswith mime "image/" || in_set sfx image_exts then Image
  else if startswith mime "audio/" || in_set sfx audio_exts then Audio
  else if startswith mime "video/" || in_set sfx video_exts then Video
  else if in_set sfx doc_exts then Document
  else Unsupported.

Definition download_name (fname : string) (outp : path) : string :=
  stem (parse fname) ^^ "." ^^ lstrip "." (suffix outp).

(** The branch of the chain that runs the converter; it answers the
    path of the output file. *)
Definition convert_branch (cat : category) (inp outp : path) : M path :=
  match cat with
  | Image =>
      let* _ := run_command ["convert"; to_str inp; to_str outp] 180 in ret outp
  | Audio =>
      let* _ := run_command ["ffmpeg"; "-y"; "-i"; to_str inp; to_str outp] 180 in ret outp
  | Video =>
      let* _ := run_command ["ffmpeg"; "-y"; "-i"; to_str inp; to_str outp] 180 in ret outp
  | Document =>
      if negb (String.eqb (suffix outp) ".pdf") then
        raise (http 400 "Docs supported -> pdf only in this demo")
      else
        let* _ := run_command ["soffice"; "--headless"; "--convert-to"; "pdf";
                               "--outdir"; to_str OUTPUT_DIR; to_str inp] 180 in
        ret (join OUTPUT_DIR (stem inp ^^ ".pdf"))
  | Unsupported => raise (http 400 "Unsupported file type")
  end.

(** [POST /convert]. *)
Definition convert (file : UploadFile) (target : string) (tok : list Z) : M FileResponse :=
  match filename file with
  | None => raise (http 400 "Missing filename")
  | Some fname =>
    if String.eqb fname "" then raise (http 400 "Missing filename") else
    let inp := input_path fname tok in
    let tgt := normalize_target target in
    if String.eqb tgt "" then raise (http 400 "Missing target format") else
    let outp := output_path tok tgt in
    let* _ := write_file inp (upload_size file) in
    let* _ := ensure_size_limit inp MAX_MB in
    let mime := mime_of (content_type file) fname in
    let* outp' := convert_branch (route mime (input_suffix fname)) inp outp in
    let* ex := path_exists outp' in
    if negb ex then raise (http 500 "Output not produced") else
    ret (mkFileResponse (to_str outp') (download_name fname outp') "application/octet-stream")
  end.

(** ** Views of the handler used to state its laws *)

(** The name the handler works with once [file.filename] is known to be
    set. *)
Definition fname_of (file : UploadFile) : string :=
  match filename file with Some f => f | None => "" end.

(** The world after the upload is written. *)
Definition stored (w : world) (inp : path) (size : N) : world :=
  mkWorld (<[to_str inp := size]> (fs w)) (procs w) (dirs w).

(** The upload can be written: its path is no directory and its parent
    directory exists. *)
Definition writable (w : world) (p : path) : Prop :=
  (to_str p ∉ dirs w) /\ (to_str (parent p) ∈ dirs w).

#[export] Instance writable_dec w p : Decision (writable w p).
Proof. unfold writable. apply _. Defined.

(** What follows the converter branch: the existence check and the
    response. *)
Definition finish (fname : string) (r : (exc + path) * world) : (exc + FileResponse) * world :=
  match r with
  | (inl e, w2) => (inl e, w2)
  | (inr o, w2) =>
      if exists_in w2 (to_str o)
      then (inr (mkFileResponse (to_str o) (download_name fname o) "application/octet-stream"), w2)
      else (inl (http 500 "Output not produced"), w2)
  end.

(** The command the branch of [cat] runs, the path it answers, and
    whether it runs a converter at all. *)
Definition branch_command (cat : category) (inp outp : path) : list string :=
  match cat with
  | Image => ["convert"; to_str inp; to_str outp]
  | Audio | Video => ["ffmpeg"; "-y"; "-i"; to_str inp; to_str outp]
  | Document => ["soffice"; "--headless"; "--convert-to"; "pdf";
                 "--outdir"; to_str OUTPUT_DIR; to_str inp]
  | Unsupported => []
  end.

Definition branch_output (cat : category) (inp outp : path) : path :=
  match cat with
  | Document => join OUTPUT_DIR (stem inp ^^ ".pdf")
  | _ => outp
  end.

Definition branch_runs (cat : category) (outp : path) : bool :=
  match cat with
  | Unsupported => false
  | Document => String.eqb (suffix outp) ".pdf"
  | _ => true
  end.

End Handler.

(** ** [GET /healthz] *)

(** [JSONResponse({"ok": True})]: the status and the fields of the
    object. *)
Definition health : Z * list (string * bool) := (200%Z, [("ok", true)]).

(** ** The collaborators' contract and a scripted platform

    The file a converter command writes by the collaborator contracts of
    the specification (section 6): the last argument, or [outdir/stem.pdf]
    for [soffice]. *)
Definition declared_output (cmd : list string) : string :=
  if String.eqb (hd "" cmd) "soffice"
  then to_str (join (parse (nth 5 cmd "")) (stem (parse (List.last cmd "")) ^^ ".pdf"))
  else List.last cmd "".

(** A fake in the sense of the specification's design notes: every
    process reports the same [proc_result] and, when [writes] holds,
    writes a one-byte file at [declared_output]. *)
Definition mock_platform (res : proc_result) (writes : bool) : Platform := {|
  guess_type := fun _ => None;
  run_proc := fun cmd _ f => (res, if writes then <[declared_output cmd := 1%N]> f else f);
  signal_repr := fun _ => None
|}.

(** A draw of [token_bytes(8)]. *)
Definition tok0 : list Z := [222; 173; 190; 239; 0; 1; 2; 255]%Z.

(** The directories once the server has started on a machine with
    [/tmp]: the root, [/tmp], the base directory, [uploads/] and
    [outputs/]; and the world of a fresh server. *)
Definition ready_dirs : gset string :=
  {[ "/"; "/tmp"; "/tmp/freefileconverters"; "/tmp/freefileconverters/uploads";
     "/tmp/freefileconverters/outputs" ]}.

Definition world0 : world := mkWorld ∅ [] ready_dirs.

(** ** Laws of the handler *)

Section Laws.
Context `{Platform}.

Lemma UPLOAD_DIR_eq : UPLOAD_DIR = mkPath "/" ["tmp"; "freefileconverters"; "uploads"].
Proof. reflexivity. Qed.

Lemma OUTPUT_DIR_eq : OUTPUT_DIR = mkPath "/" ["tmp"; "freefileconverters"; "outputs"].
Proof. reflexivity. Qed.

(** The lowered suffix of the uploaded name: empty, or a dot and an
    extension without separator. *)
Lemma input_suffix_shape fname :
  input_suffix fname = "" \/
  exists b, input_suffix fname = String "."%char b /\ mem "/"%char b = false.
Proof.
  unfold input_suffix.
  destruct (suffix_parse_shape fname) as [-> | (b & -> & _ & Hs & _)]; [by left|right].
  exists (lower b). split; [done|]. rewrite mem_lower_sep; [done|by left].
Qed.

Lemma safe_id_shape tok :
  TokenHex.bytes_wf tok -> length tok = 8 ->
  String.length (safe_id tok) = 16 /\ all_chars TokenHex.is_hex_char (safe_id tok) = true.
Proof.
  intros Hwf Hl. unfold safe_id, TokenHex.token_hex.
  rewrite TokenHex.hexlify_length, Hl. split; [done|]. by apply TokenHex.hexlify_hex.
Qed.

Lemma stored_name_wf tok sfx :
  TokenHex.bytes_wf tok -> length tok = 8 -> mem "/"%char sfx = false ->
  wf_part (safe_id tok ^^ sfx) = true /\ head (safe_id tok ^^ sfx) <> Some "/"%char.
Proof.
  intros Hwf Hl Hs. destruct (safe_id_shape tok Hwf Hl) as [Hlen Hhex].
  destruct (TokenHex.all_hex_no_sep _ Hhex) as [Hslash _].
  split.
  - unfold wf_part, keep_part, no_slash. rewrite mem_app, Hslash, Hs. cbn [orb negb].
    rewrite andb_true_r.
    apply andb_true_intro; split; apply negb_true_iff, String.eqb_neq; intros E;
      apply (f_equal String.length) in E; rewrite str_length_app in E; cbn in E; lia.
  - destruct (safe_id tok) as [|c t]; [done|]. rewrite str_app_cons.
    cbn in Hhex |- *. apply andb_prop in Hhex as [Hc _]. intros [= ->]. discriminate Hc.
Qed.

(** The stored upload as a path: the directory parts and one component. *)
Lemma input_path_eq fname tok :
  TokenHex.bytes_wf tok -> length tok = 8 ->
  input_path fname tok =
    mkPath "/" ["tmp"; "freefileconverters"; "uploads"; safe_id tok ^^ input_suffix fname] /\
  String.length (safe_id tok) = 16 /\ all_chars TokenHex.is_hex_char (safe_id tok) = true.
Proof.
  intros Hwf Hl. split; [|exact (safe_id_shape tok Hwf Hl)].
  assert (Hs : mem "/"%char (input_suffix fname) = false)
    by (destruct (input_suffix_shape fname) as [-> | (b & -> & Hb)]; [done|exact Hb]).
  destruct (stored_name_wf tok _ Hwf Hl Hs) as [Hw Hh].
  unfold input_path. rewrite UPLOAD_DIR_eq, join_abs by (try done; by repeat constructor).
  by rewrite parse_parts_single.
Qed.

Lemma to_str_upload x :
  to_str (mkPath "/" ["tmp"; "freefileconverters"; "uploads"; x])
  = "/tmp/freefileconverters/uploads/" ^^ x.
Proof. reflexivity. Qed.

(** C1 (safety).  Whatever the uploaded file name, the upload is stored
    directly under [/tmp/freefileconverters/uploads/], named by the 16
    lowercase hexadecimal digits of the token followed by the lowered
    suffix of the client's name: a name such as ["../../x"] cannot move
    the file elsewhere. *)
Theorem input_path_in_uploads fname tok :
  TokenHex.bytes_wf tok -> length tok = 8 ->
  to_str (input_path fname tok) = "/tmp/freefileconverters/uploads/" ^^ safe_id tok ^^ input_suffix fname /\
  name (input_path fname tok) = safe_id tok ^^ input_suffix fname /\
  String.length (safe_id tok) = 16 /\ all_chars TokenHex.is_hex_char (safe_id tok) = true /\
  (input_suffix fname = "" \/
   exists b, input_suffix fname = String "."%char b /\ mem "/"%char b = false).
Proof.
  intros Hwf Hl. destruct (input_path_eq fname tok Hwf Hl) as (-> & Hlen & Hhex).
  rewrite to_str_upload. repeat split; try done. apply input_suffix_shape.
Qed.

(** C2 (safety).  Two requests whose tokens differ never store their
    uploads at the same place, whatever their file names. *)
Theorem input_paths_distinct f1 f2 tok1 tok2 :
  TokenHex.bytes_wf tok1 -> TokenHex.bytes_wf tok2 ->
  length tok1 = 8 -> length tok2 = 8 -> tok1 <> tok2 ->
  to_str (input_path f1 tok1) <> to_str (input_path f2 tok2).
Proof.
  intros W1 W2 L1 L2 Hne.
  destruct (input_path_eq f1 tok1 W1 L1) as (-> & Len1 & _).
  destruct (input_path_eq f2 tok2 W2 L2) as (-> & Len2 & _).
  rewrite !to_str_upload. intros E. apply str_app_inv_l in E.
  apply str_app_inv_len in E as [E _]; [|congruence].
  apply Hne. by apply TokenHex.token_hex_inj.
Qed.

(** The normalized target never starts with a dot and holds no capital
    letter; it is empty exactly when the stripped target is made of dots. *)
Lemma normalize_target_shape t :
  head (normalize_target t) <> Some "."%char /\
  all_chars (fun c => negb (is_upper c)) (normalize_target t) = true /\
  (normalize_target t = "" <-> all_chars (fun c => mem c ".") (strip t) = true).
Proof.
  unfold normalize_target.
  destruct (lstrip_spec "." (strip t)) as (pre & Hs & Hpre & Hh).
  split; [|split; [apply lower_no_upper|]].
  - destruct (lstrip "." (strip t)) as [|c u]; [done|]. cbn in Hh |- *.
    intros [= Hc]. apply (proj1 (lower_char_dot c)) in Hc. subst.
    by rewrite Ascii.eqb_refl in Hh.
  - rewrite lower_empty. split.
    + intros E. rewrite E, str_app_nil_r in Hs. by rewrite Hs.
    + intros Hall. rewrite <- (str_app_nil_r (strip t)). by apply lstrip_app_head.
Qed.

(** C31 (functional).  Normalization strips whitespace before it strips
    dots: for every target whose stripped form is leading dots, a
    whitespace character and a rest (such as [". PDF"]), the whitespace
    stays at the head of the normalized target, which is therefore not
    stripped. *)
Theorem normalize_target_keeps_inner_space t d c u :
  strip t = d ^^ String c u -> all_chars (fun x => mem x ".") d = true -> isspace c = true ->
  normalize_target t = String c (lower u) /\ strip (normalize_target t) <> normalize_target t.
Proof.
  intros Ht Hd Hc. unfold normalize_target. rewrite Ht, lstrip_app_head by done.
  assert (Hn : lstrip "." (String c u) = String c u).
  { apply lstrip_no_head. cbn. destruct (Ascii.eqb_spec c "."); [subst; discriminate|done]. }
  rewrite Hn. cbn [lower]. rewrite lower_char_id by (by apply isspace_not_upper).
  split; [done|]. by apply strip_space_head.
Qed.

(** Once the name and the target pass their checks, [convert] stores
    the upload, checks its size, runs the branch of its category and
    checks the output. *)
Lemma convert_guarded file fname target tok w :
  filename file = Some fname -> fname <> "" -> normalize_target target <> "" ->
  writable w (input_path fname tok) ->
  convert file target tok w =
    let inp := input_path fname tok in
    let w1 := stored w inp (upload_size file) in
    if size_exceeds (upload_size file) MAX_MB then (inl (http 413 "File too large"), w1)
    else finish fname (convert_branch (route (mime_of (content_type file) fname) (input_suffix fname))
                         inp (output_path tok (normalize_target target)) w1).
Proof.
  intros Hf Hn Ht [Hnd Hpd]. unfold convert. rewrite Hf.
  rewrite (proj2 (String.eqb_neq _ _) Hn), (proj2 (String.eqb_neq _ _) Ht).
  unfold bind at 1 2, write_file, ensure_size_limit. cbn beta iota zeta.
  rewrite (decide_False _ _ Hnd), (decide_True _ _ Hpd). cbn [fs].
  rewrite lookup_insert_eq. unfold stored.
  destruct (size_exceeds _ _); [done|]. cbn beta iota.
  unfold bind, finish. destruct (convert_branch _ _ _ _) as [[e|o] w2]; [done|].
  unfold path_exists. cbn. by destruct (exists_in _ _).
Qed.

(** Once the name and the target pass, an upload that cannot be written
    (its directory is missing, or its path is a directory) raises the
    error of [open], which no [except] catches; nothing changes. *)
Lemma convert_unwritable file fname target tok w :
  filename file = Some fname -> fname <> "" -> normalize_target target <> "" ->
  ~ writable w (input_path fname tok) ->
  exists e, convert file target tok w = (inl (Unhandled e), w) /\
    e ∈ ["IsADirectoryError"; "NotADirectoryError"; "FileNotFoundError"].
Proof.
  intros Hf Hn Ht Hw. unfold convert. rewrite Hf.
  rewrite (proj2 (String.eqb_neq _ _) Hn), (proj2 (String.eqb_neq _ _) Ht).
  unfold bind at 1, write_file. cbn beta iota zeta.
  destruct (decide (to_str (input_path fname tok) ∈ dirs w)); [eexists; split; [done|set_solver]|].
  destruct (decide (to_str (parent (input_path fname tok)) ∈ dirs w)); [by destruct Hw|].
  destruct (decide (is_Some _)); eexists; (split; [done|set_solver]).
Qed.

(** The handler either gets past its three guards and the write of the
    upload, or stops at one of them with the world unchanged. *)
Lemma convert_early file target tok w :
  (exists fname, filename file = Some fname /\ fname <> "" /\ normalize_target target <> "" /\
     writable w (input_path fname tok)) \/
  exists e, convert file target tok w = (inl e, w) /\
    (e = http 400 "Missing filename" \/ e = http 400 "Missing target format" \/
     exists x, e = Unhandled x).
Proof.
  destruct (filename file) as [fname|] eqn:Hf;
    [|right; eexists; unfold convert; rewrite Hf; split; [done|by left]].
  destruct (String.eqb_spec fname "") as [->|Hn];
    [right; eexists; unfold convert; rewrite Hf; split; [done|by left]|].
  destruct (String.eqb_spec (normalize_target target) "") as [Ht|Ht].
  { right. eexists. unfold convert. rewrite Hf, (proj2 (String.eqb_neq _ _) Hn), Ht.
    split; [done|by right; left]. }
  destruct (decide (writable w (input_path fname tok))) as [Hw|Hw]; [left; by exists fname|right].
  destruct (convert_unwritable file fname target tok w Hf Hn Ht Hw) as (e & -> & _).
  eexists. split; [done|]. right; right. by exists e.
Qed.

(** [size_mb > max_mb] holds exactly when the size in bytes exceeds
    [max_mb] MiB: the division by a power of two loses nothing. *)
Lemma size_exceeds_spec sz max_mb :
  size_exceeds sz max_mb = (max_mb * 1048576 <? Z.of_N sz)%Z.
Proof.
  unfold size_exceeds, Qle_bool. cbn.
  change (Qnum (/ inject_Z (1024 * 1024))) with 1%Z.
  change (Qden (/ inject_Z (1024 * 1024))) with 1048576%positive.
  destruct (Z.leb_spec (Z.of_N sz * 1 * 1) (max_mb * Z.pos (1 * 1048576))),
    (Z.ltb_spec (max_mb * 1048576) (Z.of_N sz)); cbn; lia.
Qed.

Lemma run_command_eq cmd t w :
  run_command cmd t w =
    let '(r, fs') := run_proc cmd t (fs w) in
    (match run_command_outcome signal_repr cmd r with None => inr tt | Some e => inl e end,
     mkWorld fs' (procs w ++ [(cmd, t)]) (dirs w)).
Proof.
  unfold run_command. destruct (run_proc cmd t (fs w)).
  by destruct (run_command_outcome _ _ _).
Qed.

(** A branch that runs a converter runs exactly [branch_command] once
    and answers [branch_output] when the command succeeds. *)
Lemma convert_branch_runs cat inp outp w :
  branch_runs cat outp = true ->
  convert_branch cat inp outp w =
    let cmd := branch_command cat inp outp in
    let '(r, fs') := run_proc cmd 180 (fs w) in
    (match run_command_outcome signal_repr cmd r with
     | None => inr (branch_output cat inp outp) | Some e => inl e end,
     mkWorld fs' (procs w ++ [(cmd, 180%Z)]) (dirs w)).
Proof.
  intros Hr. unfold branch_runs in Hr.
  destruct cat; cbn [convert_branch branch_command branch_output]; try discriminate Hr.
  4: rewrite Hr; cbn [negb].
  all: unfold bind, ret; cbv beta; rewrite run_command_eq; destruct (run_proc _ _ _);
    by destruct (run_command_outcome _ _ _).
Qed.

(** A branch that runs no converter refuses the request and leaves the
    world as it is. *)
Lemma convert_branch_refuses cat inp outp w :
  branch_runs cat outp = false ->
  convert_branch cat inp outp w =
    (inl (if bool_decide (cat = Document) then http 400 "Docs supported -> pdf only in this demo"
          else http 400 "Unsupported file type"), w).
Proof.
  intros Hr. destruct cat; cbn in Hr |- *; try discriminate; [|done].
  by rewrite Hr.
Qed.

(** C19 (equivalence).  [ensure_size_limit] refuses a stored file of more than [max_mb] MiB
    with 413 and accepts every other one; it fails when the file is
    missing. *)
Theorem ensure_size_limit_spec p max_mb w :
  ensure_size_limit p max_mb w =
    match fs w !! to_str p with
    | None => (inl (Unhandled "FileNotFoundError"), w)
    | Some sz =>
        if (max_mb * 1048576 <? Z.of_N sz)%Z then (inl (http 413 "File too large"), w)
        else (inr tt, w)
    end.
Proof.
  unfold ensure_size_limit. destruct (fs w !! to_str p) as [sz|]; [|done].
  by rewrite size_exceeds_spec.
Qed.

Lemma parent_input_path fname tok :
  TokenHex.bytes_wf tok -> length tok = 8 ->
  to_str (parent (input_path fname tok)) = "/tmp/freefileconverters/uploads".
Proof. intros Hwf Hl. by destruct (input_path_eq fname tok Hwf Hl) as (-> & _). Qed.

(** C17 (error).  When [uploads/] is missing (the directories are created
    only at import time, so a cleaner of [/tmp] removes them for good),
    every request that passes the name and target checks fails in [open]
    with a [FileNotFoundError] (a [NotADirectoryError] when a file stands
    at [uploads]) that leaves the handler, and nothing is written. *)
Theorem convert_uploads_dir_missing file fname target tok w :
  TokenHex.bytes_wf tok -> length tok = 8 ->
  filename file = Some fname -> fname <> "" -> normalize_target target <> "" ->
  "/tmp/freefileconverters/uploads" ∉ dirs w -> to_str (input_path fname tok) ∉ dirs w ->
  convert file target tok w =
    (inl (Unhandled (if bool_decide (is_Some (fs w !! "/tmp/freefileconverters/uploads"))
                     then "NotADirectoryError" else "FileNotFoundError")), w).
Proof.
  intros Hwf Hl Hf Hn Ht Hu Hi. unfold convert. rewrite Hf.
  rewrite (proj2 (String.eqb_neq _ _) Hn), (proj2 (String.eqb_neq _ _) Ht).
  unfold bind at 1, write_file. cbn beta iota zeta.
  rewrite (decide_False _ _ Hi), parent_input_path by done. rewrite (decide_False _ _ Hu).
  by case_decide; [rewrite bool_decide_eq_true_2|rewrite bool_decide_eq_false_2].
Qed.

(** C21 (error).  A request without a file name is refused with 400
    "Missing filename" before anything is written or run. *)
Theorem convert_missing_filename file target tok w :
  filename file = None \/ filename file = Some "" ->
  convert file target tok w = (inl (http 400 "Missing filename"), w).
Proof. unfold convert. by intros [-> | ->]. Qed.

(** C20 (error).  A target that normalizes to the empty string ([""],
    ["."], ["   "], ...) is refused with 400 "Missing target format",
    and the world is left as it was: nothing written, nothing run. *)
Theorem convert_missing_target file fname target tok w :
  filename file = Some fname -> fname <> "" -> normalize_target target = "" ->
  convert file target tok w = (inl (http 400 "Missing target format"), w).
Proof.
  intros Hf Hn Ht. unfold convert. rewrite Hf, (proj2 (String.eqb_neq _ _) Hn), Ht. done.
Qed.

(** C7 (error).  Once name and target pass, an upload of more
    than 100 MiB is refused with 413, whatever its declared type: the
    upload has been written and no converter was started. *)
Theorem convert_too_large file fname target tok w :
  filename file = Some fname -> fname <> "" -> normalize_target target <> "" ->
  writable w (input_path fname tok) ->
  (100 * 1048576 < Z.of_N (upload_size file))%Z ->
  convert file target tok w =
    (inl (http 413 "File too large"), stored w (input_path fname tok) (upload_size file)).
Proof.
  intros Hf Hn Ht Hw Hsz. rewrite (convert_guarded file fname) by done. cbn zeta.
  rewrite size_exceeds_spec. unfold MAX_MB. by destruct (Z.ltb_spec (100 * 1048576) (Z.of_N (upload_size file))); [|lia].
Qed.

(** The handler once every check before the converter has passed: it
    runs the converter of the category once, on the stored upload, and
    [finish]es with its outcome. *)
Lemma convert_runs_converter file fname target tok w r fs' :
  filename file = Some fname -> fname <> "" -> normalize_target target <> "" ->
  writable w (input_path fname tok) ->
  (Z.of_N (upload_size file) <= 100 * 1048576)%Z ->
  let inp := input_path fname tok in
  let outp := output_path tok (normalize_target target) in
  let cat := route (mime_of (content_type file) fname) (input_suffix fname) in
  branch_runs cat outp = true ->
  run_proc (branch_command cat inp outp) 180 (<[to_str inp := upload_size file]> (fs w))
    = (r, fs') ->
  convert file target tok w =
    finish fname
      (match run_command_outcome signal_repr (branch_command cat inp outp) r with
       | None => inr (branch_output cat inp outp) | Some e => inl e end,
       mkWorld fs' (procs w ++ [(branch_command cat inp outp, 180%Z)]) (dirs w)).
Proof.
  intros Hf Hn Ht Hw Hsz inp outp cat Hr Hp.
  rewrite (convert_guarded file fname) by done. cbn zeta.
  rewrite size_exceeds_spec. unfold MAX_MB.
  destruct (Z.ltb_spec (100 * 1048576) (Z.of_N (upload_size file))); [lia|].
  rewrite convert_branch_runs by done. cbn zeta. unfold stored. cbn [fs procs].
  fold inp outp cat. by rewrite Hp.
Qed.

(** C3 (functional).  When the checks pass and the converter exits with
    status 0 and its output file exists, the answer is that file, under
    the name [stem + "." + extension of the output], with a generic
    binary type; exactly one process was started. *)
Theorem convert_success file fname target tok w err fs' size :
  filename file = Some fname -> fname <> "" -> normalize_target target <> "" ->
  writable w (input_path fname tok) ->
  (Z.of_N (upload_size file) <= 100 * 1048576)%Z ->
  let inp := input_path fname tok in
  let outp := output_path tok (normalize_target target) in
  let cat := route (mime_of (content_type file) fname) (input_suffix fname) in
  let o := branch_output cat inp outp in
  branch_runs cat outp = true ->
  run_proc (branch_command cat inp outp) 180 (<[to_str inp := upload_size file]> (fs w))
    = (Exited 0 err, fs') ->
  fs' !! to_str o = Some size ->
  convert file target tok w =
    (inr (mkFileResponse (to_str o) (download_name fname o) "application/octet-stream"),
     mkWorld fs' (procs w ++ [(branch_command cat inp outp, 180%Z)]) (dirs w)).
Proof.
  intros Hf Hn Ht Hw Hsz inp outp cat o Hr Hp Ho. subst inp outp cat o.
  rewrite (convert_runs_converter file fname target tok w _ fs') by done.
  unfold finish, exists_in. cbn [run_command_outcome fs Z.eqb]. rewrite Ho.
  by rewrite bool_decide_eq_true_2.
Qed.

(** C4 (error).  A converter that exits with status 0 without writing
    its output file makes the request fail with 500 "Output not
    produced". *)
Theorem convert_no_output file fname target tok w err fs' :
  filename file = Some fname -> fname <> "" -> normalize_target target <> "" ->
  writable w (input_path fname tok) ->
  (Z.of_N (upload_size file) <= 100 * 1048576)%Z ->
  let inp := input_path fname tok in
  let outp := output_path tok (normalize_target target) in
  let cat := route (mime_of (content_type file) fname) (input_suffix fname) in
  branch_runs cat outp = true ->
  run_proc (branch_command cat inp outp) 180 (<[to_str inp := upload_size file]> (fs w))
    = (Exited 0 err, fs') ->
  fs' !! to_str (branch_output cat inp outp) = None ->
  to_str (branch_output cat inp outp) ∉ dirs w ->
  fst (convert file target tok w) = inl (http 500 "Output not produced").
Proof.
  intros Hf Hn Ht Hw Hsz inp outp cat Hr Hp Ho Hd. subst inp outp cat.
  rewrite (convert_runs_converter file fname target tok w _ fs') by done.
  unfold finish, exists_in. cbn [run_command_outcome fs dirs Z.eqb]. rewrite Ho.
  rewrite bool_decide_eq_false_2 by (intros [? ?]; done).
  by rewrite bool_decide_eq_false_2.
Qed.

(** C5 (error).  A converter that runs past the timeout makes the
    request fail with 408 "Conversion timed out". *)
Theorem convert_timeout file fname target tok w fs' :
  filename file = Some fname -> fname <> "" -> normalize_target target <> "" ->
  writable w (input_path fname tok) ->
  (Z.of_N (upload_size file) <= 100 * 1048576)%Z ->
  let inp := input_path fname tok in
  let outp := output_path tok (normalize_target target) in
  let cat := route (mime_of (content_type file) fname) (input_suffix fname) in
  branch_runs cat outp = true ->
  run_proc (branch_command cat inp outp) 180 (<[to_str inp := upload_size file]> (fs w))
    = (TimedOut, fs') ->
  fst (convert file target tok w) = inl (http 408 "Conversion timed out").
Proof.
  intros Hf Hn Ht Hw Hsz inp outp cat Hr Hp.
  by rewrite (convert_runs_converter file fname target tok w TimedOut fs').
Qed.

(** C6 (error).  A converter that exits with a non-zero status makes the
    request fail with 400, the detail being "Conversion failed: "
    followed by the first 600 decoded characters of its stderr, or by
    [str(e)] when there are none. *)
Theorem convert_failed file fname target tok w rc err fs' :
  filename file = Some fname -> fname <> "" -> normalize_target target <> "" ->
  writable w (input_path fname tok) ->
  (Z.of_N (upload_size file) <= 100 * 1048576)%Z ->
  let inp := input_path fname tok in
  let outp := output_path tok (normalize_target target) in
  let cat := route (mime_of (content_type file) fname) (input_suffix fname) in
  branch_runs cat outp = true -> rc <> 0%Z ->
  run_proc (branch_command cat inp outp) 180 (<[to_str inp := upload_size file]> (fs w))
    = (Exited rc err, fs') ->
  fst (convert file target tok w) =
    inl (HTTPException 400 (cps "Conversion failed: " ++
           failure_message signal_repr (branch_command cat inp outp) rc err)).
Proof.
  intros Hf Hn Ht Hw Hsz inp outp cat Hr Hrc Hp.
  rewrite (convert_runs_converter file fname target tok w (Exited rc err) fs') by done.
  cbn. by rewrite (proj2 (Z.eqb_neq rc 0) Hrc).
Qed.

(** C23 (error).  A converter that cannot be started ([FileNotFoundError] when its
    binary is missing) is not caught by [run_command]: the exception
    leaves the handler. *)
Theorem convert_spawn_failed file fname target tok w e fs' :
  filename file = Some fname -> fname <> "" -> normalize_target target <> "" ->
  writable w (input_path fname tok) ->
  (Z.of_N (upload_size file) <= 100 * 1048576)%Z ->
  let inp := input_path fname tok in
  let outp := output_path tok (normalize_target target) in
  let cat := route (mime_of (content_type file) fname) (input_suffix fname) in
  branch_runs cat outp = true ->
  run_proc (branch_command cat inp outp) 180 (<[to_str inp := upload_size file]> (fs w))
    = (SpawnFailed e, fs') ->
  fst (convert file target tok w) = inl (Unhandled e).
Proof.
  intros Hf Hn Ht Hw Hsz inp outp cat Hr Hp.
  by rewrite (convert_runs_converter file fname target tok w (SpawnFailed e) fs').
Qed.

(** C22 (error).  A document whose output path does not end in [.pdf] is refused with
    400 before any converter runs (the upload is already stored). *)
Theorem convert_doc_requires_pdf file fname target tok w :
  filename file = Some fname -> fname <> "" -> normalize_target target <> "" ->
  writable w (input_path fname tok) ->
  (Z.of_N (upload_size file) <= 100 * 1048576)%Z ->
  route (mime_of (content_type file) fname) (input_suffix fname) = Document ->
  suffix (output_path tok (normalize_target target)) <> ".pdf" ->
  convert file target tok w =
    (inl (http 400 "Docs supported -> pdf only in this demo"),
     stored w (input_path fname tok) (upload_size file)).
Proof.
  intros Hf Hn Ht Hw Hsz Hcat Hpdf.
  rewrite (convert_guarded file fname) by done. cbn zeta.
  rewrite size_exceeds_spec. unfold MAX_MB.
  destruct (Z.ltb_spec (100 * 1048576) (Z.of_N (upload_size file))); [lia|].
  rewrite Hcat, convert_branch_refuses by (by apply String.eqb_neq). done.
Qed.

Lemma finish_world fname r : snd (finish fname r) = snd r.
Proof. destruct r as [[e|o] w2]; [done|]. cbn. by destruct (exists_in _ _). Qed.

(** What a run leaves in the process log: at most one new entry, started
    with the timeout of 180 seconds. *)
Definition procs_step (w w' : world) : Prop :=
  exists l, procs w' = procs w ++ l /\ (length l <= 1)%nat /\ Forall (fun c => c.2 = 180%Z) l.

Lemma procs_step_refl w w' : procs w' = procs w -> procs_step w w'.
Proof. intros E. exists []. rewrite E, app_nil_r. split; [done|]. split; [cbn; lia|constructor]. Qed.

Lemma procs_step_same_l w1 w w' : procs w1 = procs w -> procs_step w1 w' -> procs_step w w'.
Proof. intros E (l & Hl & Hlen & Ht). exists l. by rewrite Hl, E. Qed.

Lemma convert_branch_procs cat inp outp w : procs_step w (snd (convert_branch cat inp outp w)).
Proof.
  destruct (branch_runs cat outp) eqn:Hr.
  - rewrite convert_branch_runs by done. cbn zeta.
    destruct (run_proc _ _ _). exists [(branch_command cat inp outp, 180%Z)].
    split; [done|]. split; [cbn; lia|by repeat constructor].
  - rewrite convert_branch_refuses by done. by apply procs_step_refl.
Qed.

(** Where the world of a request comes from: untouched by an early
    refusal, the stored upload when the size check refuses it, or the
    converter branch run on the stored upload. *)
Lemma convert_world file target tok w :
  snd (convert file target tok w) = w \/
  exists fname, filename file = Some fname /\
    (snd (convert file target tok w) = stored w (input_path fname tok) (upload_size file) \/
     snd (convert file target tok w) =
       snd (convert_branch (route (mime_of (content_type file) fname) (input_suffix fname))
              (input_path fname tok) (output_path tok (normalize_target target))
              (stored w (input_path fname tok) (upload_size file)))).
Proof.
  destruct (convert_early file target tok w) as [(fname & Hf & Hn & Ht & Hw)|(e & -> & _)];
    [|by left].
  right. exists fname. split; [done|].
  rewrite (convert_guarded file fname) by done. cbn zeta.
  destruct (size_exceeds _ _); [by left|right]. by rewrite finish_world.
Qed.

(** No request creates or removes a directory. *)
Lemma convert_dirs file target tok w : dirs (snd (convert file target tok w)) = dirs w.
Proof.
  destruct (convert_world file target tok w) as [->|(fname & _ & [-> | ->])]; [done|done|].
  set (w1 := stored _ _ _). change (dirs w) with (dirs w1).
  destruct (branch_runs (route (mime_of (content_type file) fname) (input_suffix fname))
              (output_path tok (normalize_target target))) eqn:Hr.
  - rewrite convert_branch_runs by done. cbn zeta. by destruct (run_proc _ _ _).
  - by rewrite convert_branch_refuses.
Qed.

(** Every request starts at most one process, with the timeout of 180
    seconds: there is no retry and no fallback between converters, and no
    process runs unbounded. *)
Theorem convert_at_most_one_process file target tok w :
  procs_step w (snd (convert file target tok w)).
Proof.
  destruct (convert_world file target tok w) as [->|(fname & _ & [->| ->])];
    [by apply procs_step_refl..|].
  eapply procs_step_same_l; [|apply convert_branch_procs]. done.
Qed.

(** C32 (functional).  For a document and the target ["pdf"], the path [soffice] writes
    ([OUTPUT_DIR / (input_path.stem + ".pdf")]) is the generic output
    path [OUTPUT_DIR / (safe_id + ".pdf")]. *)
Theorem doc_output_is_output_path fname tok :
  TokenHex.bytes_wf tok -> length tok = 8 -> in_set (input_suffix fname) doc_exts = true ->
  branch_output Document (input_path fname tok) (output_path tok "pdf") = output_path tok "pdf".
Proof.
  intros Hwf Hl Hdoc. cbn [branch_output]. unfold output_path. f_equal.
  destruct (input_path_eq fname tok Hwf Hl) as (-> & _ & Hhex).
  destruct (TokenHex.all_hex_no_sep _ Hhex) as [_ Hdot].
  assert (Hs : exists b, input_suffix fname = String "."%char b /\ b <> "" /\ mem "."%char b = false).
  { unfold in_set in Hdoc. apply existsb_exists in Hdoc as (y & Hy & Hxy%String.eqb_eq).
    rewrite Hxy. cbn in Hy.
    repeat (destruct Hy as [<-|Hy];
      [eexists; split; [reflexivity|]; split; [done|reflexivity]|]).
    destruct Hy. }
  destruct Hs as (b & Hb & Hbne & Hbd). rewrite Hb.
  destruct (suffix_of_name (mkPath "/" ["tmp"; "freefileconverters"; "uploads";
    safe_id tok ^^ String "."%char b]) (safe_id tok) b) as [_ ->]; try done.
  destruct (safe_id_shape tok Hwf Hl) as [Hlen _]. intros E. by rewrite E in Hlen.
Qed.

(** The output path of a target without separator is the single
    component [safe_id + "." + target] under [outputs/]. *)
Lemma output_path_eq tok t :
  TokenHex.bytes_wf tok -> length tok = 8 -> mem "/"%char t = false ->
  output_path tok t = mkPath "/" ["tmp"; "freefileconverters"; "outputs"; safe_id tok ^^ "." ^^ t].
Proof.
  intros Hwf Hl Ht.
  assert (Hs : mem "/"%char ("." ^^ t) = false) by (rewrite mem_app; exact Ht).
  destruct (stored_name_wf tok _ Hwf Hl Hs) as [Hw Hh].
  unfold output_path. rewrite OUTPUT_DIR_eq, join_abs by (try done; by repeat constructor).
  by rewrite parse_parts_single.
Qed.

(** Under the hypotheses, the output suffix is the target: the document
    check is the specification's test [target = "pdf"]. *)
Lemma output_suffix_target tok t :
  TokenHex.bytes_wf tok -> length tok = 8 -> t <> "" ->
  mem "."%char t = false -> mem "/"%char t = false ->
  suffix (output_path tok t) = String "."%char t.
Proof.
  intros Hwf Hl Hne Hd Hs. rewrite output_path_eq by done.
  destruct (suffix_of_name (mkPath "/" ["tmp"; "freefileconverters"; "outputs"; safe_id tok ^^ "." ^^ t])
    (safe_id tok) t) as [-> _]; try done.
  destruct (safe_id_shape tok Hwf Hl) as [Hlen _]. intros E. by rewrite E in Hlen.
Qed.

(** C29 (functional).  The download name is the stem of the client's name,
    a dot and the target, for every target without dot or separator (the
    document branch answers [output_path tok "pdf"], [doc_output_is_output_path]). *)
Theorem download_name_spec fname tok t :
  TokenHex.bytes_wf tok -> length tok = 8 -> t <> "" ->
  mem "."%char t = false -> mem "/"%char t = false ->
  download_name fname (output_path tok t) = stem (parse fname) ^^ "." ^^ t.
Proof.
  intros Hwf Hl Hne Hd Hs. unfold download_name.
  rewrite output_suffix_target by done. cbn [lstrip mem]. rewrite Ascii.eqb_refl.
  rewrite lstrip_no_head; [done|]. destruct t as [|c t]; [done|]. cbn in Hd |- *.
  destruct (Ascii.eqb_spec "." c); [discriminate|]. destruct (Ascii.eqb_spec c "."); congruence.
Qed.

(** The output path of a target [a + ".pdf"] ends in [.pdf]. *)
Lemma output_suffix_pdf tok a :
  TokenHex.bytes_wf tok -> length tok = 8 -> mem "/"%char a = false ->
  suffix (output_path tok (a ^^ ".pdf")) = ".pdf".
Proof.
  intros Hwf Hl Ha.
  rewrite output_path_eq by (try done; rewrite mem_app, Ha; done).
  destruct (suffix_of_name (mkPath "/" ["tmp"; "freefileconverters"; "outputs";
    safe_id tok ^^ "." ^^ a ^^ ".pdf"]) (safe_id tok ^^ "." ^^ a) "pdf") as [-> _]; try done.
  - cbn [name parts List.last]. by rewrite !str_app_assoc.
  - destruct (safe_id_shape tok Hwf Hl) as [Hlen _]. intros E.
    apply (f_equal String.length) in E. rewrite str_length_app in E. cbn in E. lia.
Qed.

(** C33 (functional).  The document check reads only the suffix of the
    output path: a document upload whose target normalizes to
    [a + ".pdf"] for any [a] without ['/'] (such as ["notes.pdf"], not
    the format ["pdf"]) passes it, and [soffice] is started on the
    upload. *)
Theorem doc_check_accepts_pdf_suffix file fname target tok w a :
  TokenHex.bytes_wf tok -> length tok = 8 ->
  filename file = Some fname -> fname <> "" ->
  normalize_target target = a ^^ ".pdf" -> mem "/"%char a = false ->
  writable w (input_path fname tok) ->
  (Z.of_N (upload_size file) <= 100 * 1048576)%Z ->
  route (mime_of (content_type file) fname) (input_suffix fname) = Document ->
  procs (snd (convert file target tok w)) =
    procs w ++ [(["soffice"; "--headless"; "--convert-to"; "pdf"; "--outdir";
                  to_str OUTPUT_DIR; to_str (input_path fname tok)], 180%Z)].
Proof.
  intros Hwf Hl Hf Hn Ht Ha Hw Hsz Hcat.
  assert (Hne : normalize_target target <> "").
  { rewrite Ht. intros E. apply (f_equal String.length) in E.
    rewrite str_length_app in E. cbn in E. lia. }
  destruct (run_proc (branch_command Document (input_path fname tok)
             (output_path tok (normalize_target target))) 180
             (<[to_str (input_path fname tok) := upload_size file]> (fs w))) as [r fs'] eqn:Hp.
  rewrite <- Hcat in Hp.
  rewrite (convert_runs_converter file fname target tok w r fs') by
    (try done; rewrite Hcat; cbn; rewrite Ht, output_suffix_pdf by done; apply String.eqb_refl).
  rewrite finish_world. cbn [snd procs]. by rewrite Hcat.
Qed.

End Laws.

(** ** Witnesses at concrete inputs *)

Lemma tok0_wf : TokenHex.bytes_wf tok0 /\ length tok0 = 8.
Proof. split; [repeat constructor|reflexivity]. Qed.

(** The name ["../../etc/passwd.PNG"] still lands in [uploads/]. *)
Lemma input_path_in_uploads_witness :
  to_str (input_path "../../etc/passwd.PNG" tok0)
  = "/tmp/freefileconverters/uploads/deadbeef000102ff.png".
Proof.
  destruct (input_path_in_uploads "../../etc/passwd.PNG" tok0) as (E & _);
    [apply tok0_wf|apply tok0_wf|].
  rewrite E. reflexivity.
Defined.

Lemma input_paths_distinct_witness :
  to_str (input_path "a.png" tok0) <> to_str (input_path "a.png" [1; 2; 3; 4; 5; 6; 7; 8]%Z).
Proof.
  apply input_paths_distinct; [apply tok0_wf|repeat constructor|apply tok0_wf|reflexivity|].
  discriminate.
Defined.

Lemma download_name_spec_witness :
  download_name "holiday.photo.png" (output_path tok0 "jpg") = "holiday.photo.jpg".
Proof. rewrite (download_name_spec "holiday.photo.png" tok0 "jpg"); [reflexivity|repeat constructor|reflexivity|discriminate|reflexivity|reflexivity]. Defined.

(** The scenario of the specification: [photo.png] to [jpg] with an image
    converter that exits 0 and writes its output. *)
Lemma convert_success_witness :
  @convert (mock_platform (Exited 0 []) true) (mkUpload (Some "photo.png") None 2048) "jpg" tok0
    world0 =
  (inr (mkFileResponse "/tmp/freefileconverters/outputs/deadbeef000102ff.jpg" "photo.jpg"
          "application/octet-stream"),
   mkWorld (<["/tmp/freefileconverters/outputs/deadbeef000102ff.jpg" := 1%N]>
              (<["/tmp/freefileconverters/uploads/deadbeef000102ff.png" := 2048%N]> ∅))
     [(["convert"; "/tmp/freefileconverters/uploads/deadbeef000102ff.png";
        "/tmp/freefileconverters/outputs/deadbeef000102ff.jpg"], 180%Z)] ready_dirs).
Proof.
  rewrite (@convert_success (mock_platform (Exited 0 []) true)
    (mkUpload (Some "photo.png") None 2048) "photo.png" "jpg" tok0 world0 []
    (<["/tmp/freefileconverters/outputs/deadbeef000102ff.jpg" := 1%N]>
       (<["/tmp/freefileconverters/uploads/deadbeef000102ff.png" := 2048%N]> ∅)) 1%N);
    try reflexivity; try discriminate; try (vm_compute; discriminate); try (cbn; lia);
    try (apply (bool_decide_unpack _); vm_compute; exact I).
Defined.

Local Ltac discharge :=
  first [ reflexivity | discriminate | (vm_compute; discriminate)
        | (vm_compute; reflexivity) | (cbn; lia)
        | (apply (bool_decide_unpack _); vm_compute; exact I) ].

Definition png_upload : UploadFile := mkUpload (Some "photo.png") None 2048.
Definition stored_png : gmap string N :=
  <["/tmp/freefileconverters/uploads/deadbeef000102ff.png" := 2048%N]> ∅.

Lemma convert_no_output_witness :
  fst (@convert (mock_platform (Exited 0 []) false) png_upload "jpg" tok0 world0)
  = inl (http 500 "Output not produced").
Proof.
  apply (@convert_no_output (mock_platform (Exited 0 []) false) png_upload "photo.png" "jpg"
           tok0 world0 [] stored_png); discharge.
Defined.

Lemma convert_timeout_witness :
  fst (@convert (mock_platform TimedOut true) png_upload "jpg" tok0 world0)
  = inl (http 408 "Conversion timed out").
Proof.
  apply (@convert_timeout (mock_platform TimedOut true) png_upload "photo.png" "jpg"
           tok0 world0 (<["/tmp/freefileconverters/outputs/deadbeef000102ff.jpg" := 1%N]>
                                  stored_png)); discharge.
Defined.

(** ImageMagick fails with "boom" on stderr. *)
Lemma convert_failed_witness :
  fst (@convert (mock_platform (Exited 1 [98; 111; 111; 109]%Z) false) png_upload "jpg" tok0
         world0)
  = inl (http 400 "Conversion failed: boom").
Proof.
  rewrite (@convert_failed (mock_platform (Exited 1 [98; 111; 111; 109]%Z) false) png_upload
             "photo.png" "jpg" tok0 world0 1 [98; 111; 111; 109]%Z stored_png);
    discharge.
Defined.

Lemma convert_too_large_witness :
  @convert (mock_platform TimedOut false) (mkUpload (Some "movie.mp4") None 104857601) "webm" tok0 world0
  = (inl (http 413 "File too large"),
     stored world0 (input_path "movie.mp4" tok0) 104857601).
Proof. apply (@convert_too_large (mock_platform TimedOut false)
  (mkUpload (Some "movie.mp4") None 104857601) "movie.mp4" "webm" tok0 world0); discharge. Defined.

Lemma convert_missing_target_witness :
  @convert (mock_platform TimedOut false) png_upload "  .  " tok0 world0
  = (inl (http 400 "Missing target format"), world0).
Proof.
  apply (@convert_missing_target (mock_platform TimedOut false) _ "photo.png"); discharge.
Defined.

(** A [/tmp] cleaner removed [uploads/]. *)
Lemma convert_uploads_dir_missing_witness :
  @convert (mock_platform TimedOut false) png_upload "jpg" tok0
    (mkWorld ∅ [] {[ "/"; "/tmp"; "/tmp/freefileconverters" ]})
  = (inl (Unhandled "FileNotFoundError"), mkWorld ∅ [] {[ "/"; "/tmp"; "/tmp/freefileconverters" ]}).
Proof.
  apply (@convert_uploads_dir_missing (mock_platform TimedOut false) _ "photo.png");
    [repeat constructor|reflexivity|reflexivity|discriminate|vm_compute; discriminate|discharge|discharge].
Defined.

Lemma convert_missing_filename_witness :
  @convert (mock_platform TimedOut false) (mkUpload None None 10) "pdf" tok0 world0
  = (inl (http 400 "Missing filename"), world0).
Proof. apply (@convert_missing_filename (mock_platform TimedOut false)). left. reflexivity. Defined.

Lemma convert_doc_requires_pdf_witness :
  @convert (mock_platform TimedOut false) (mkUpload (Some "report.docx") None 10) "png" tok0
    world0
  = (inl (http 400 "Docs supported -> pdf only in this demo"),
     stored world0 (input_path "report.docx" tok0) 10).
Proof.
  apply (@convert_doc_requires_pdf (mock_platform TimedOut false)
    (mkUpload (Some "report.docx") None 10) "report.docx" "png" tok0 world0);
    [reflexivity|discriminate|vm_compute; discriminate|discharge|cbn; lia|vm_compute; reflexivity|].
  vm_compute. discriminate.
Defined.

Lemma convert_spawn_failed_witness :
  fst (@convert (mock_platform (SpawnFailed "FileNotFoundError") false) png_upload "jpg" tok0
         world0)
  = inl (Unhandled "FileNotFoundError").
Proof.
  apply (@convert_spawn_failed (mock_platform (SpawnFailed "FileNotFoundError") false) png_upload
           "photo.png" "jpg" tok0 world0 "FileNotFoundError" stored_png); discharge.
Defined.

Lemma doc_output_is_output_path_witness :
  branch_output Document (input_path "Report.DOCX" tok0) (output_path tok0 "pdf")
  = output_path tok0 "pdf".
Proof. apply doc_output_is_output_path; [apply tok0_wf|apply tok0_wf|discharge]. Defined.

Definition docx_upload : UploadFile := mkUpload (Some "report.docx") None 4096.

Lemma doc_check_accepts_pdf_suffix_witness :
  procs (snd (@convert (mock_platform (Exited 0 []) true) docx_upload "notes.pdf" tok0 world0)) =
    [(["soffice"; "--headless"; "--convert-to"; "pdf"; "--outdir";
       "/tmp/freefileconverters/outputs"; "/tmp/freefileconverters/uploads/deadbeef000102ff.docx"],
      180%Z)].
Proof.
  apply (@doc_check_accepts_pdf_suffix (mock_platform (Exited 0 []) true) docx_upload
           "report.docx" "notes.pdf" tok0 world0 "notes"); try apply tok0_wf; discharge.
Defined.

Lemma normalize_target_keeps_inner_space_witness :
  normalize_target ". PDF" = " pdf" /\ strip (normalize_target ". PDF") <> normalize_target ". PDF".
Proof. exact (normalize_target_keeps_inner_space ". PDF" "." " "%char "PDF" eq_refl eq_refl eq_refl). Defined.

End Router.
