(* ===== verification/RouterSpec.v ===== *)
(** * The specification's contract for [/convert], and its refinement

    The specification describes one request as a pipeline [Received ->
    Validated -> Persisted -> SizeChecked -> Classified -> Converting ->
    {Succeeded | Failed}] with no revisited state, a decision table for
    the classification, and an error taxonomy (400, 408, 413, 500).  This
    file states that contract on its own terms: the decision table as
    data ([spec_table], [classify]), the pipeline as a step relation
    [pstep] over [phase]s that reads an [observation] of the request (its
    name, normalized target, size, category, what the converter reported
    and whether the output exists), and the laws of that machine (every
    step moves forward, steps are deterministic, terminal phases are
    final, the pipeline always ends).  The refinement theorem
    [convert_refines_pipeline] shows that the handler of [Router] ends in
    the unique terminal phase the pipeline reaches from [Received], for
    every platform,
    under two hypotheses that isolate the divergences found: the
    normalized target holds neither ['.'] nor ['/'], and the converter
    starts. *)

From S2P Require Import Prelude PyStr PyPath TokenHex Subprocess Router.

Module RouterSpec.
Import PyStr PyPath Subprocess Router.

(** ** The decision table of the specification *)

Record row := mkRow { row_cat : category; row_prefix : option string; row_exts : list string }.

Definition spec_table : list row := [
  mkRow Image (Some "image/") [".png"; ".jpg"; ".jpeg"; ".webp"; ".gif"; ".tiff"; ".bmp"];
  mkRow Audio (Some "audio/") [".mp3"; ".wav"; ".aac"; ".flac"; ".ogg"; ".m4a"];
  mkRow Video (Some "video/") [".mp4"; ".mov"; ".mkv"; ".avi"; ".webm"];
  mkRow Document None [".doc"; ".docx"; ".ppt"; ".pptx"; ".xls"; ".xlsx"; ".odt"; ".odp"; ".ods"]
].

Definition row_matches (mime sfx : string) (r : row) : bool :=
  match row_prefix r with Some p => startswith mime p | None => false end
  || in_set sfx (row_exts r).

(** First match wins; no match is [Unsupported]. *)
Fixpoint classify (t : list row) (mime sfx : string) : category :=
  match t with
  | [] => Unsupported
  | r :: t' => if row_matches mime sfx r then row_cat r else classify t' mime sfx
  end.

(** ** The pipeline *)

Inductive phase :=
| Received | Validated | Persisted | SizeChecked
| Classified (c : category) | Converting (c : category)
| Succeeded | Failed (status : Z).

(** What the pipeline reads of one request. *)
Record observation := mkObs {
  ob_name_ok : bool;           (** a non-empty file name was sent *)
  ob_target : string;          (** the normalized target format *)
  ob_size : N;                 (** bytes of the stored upload *)
  ob_category : category;      (** the row of the decision table *)
  ob_run : proc_result;        (** what the converter reported *)
  ob_output : bool             (** whether the expected output exists afterwards *)
}.

Definition limit_bytes : Z := 100 * 1048576.

Inductive pstep (o : observation) : phase -> phase -> Prop :=
| p_no_name :
    ob_name_ok o = false -> pstep o Received (Failed 400)
| p_no_target :
    ob_name_ok o = true -> ob_target o = "" -> pstep o Received (Failed 400)
| p_valid :
    ob_name_ok o = true -> ob_target o <> "" -> pstep o Received Validated
| p_persist : pstep o Validated Persisted
| p_too_large :
    (limit_bytes < Z.of_N (ob_size o))%Z -> pstep o Persisted (Failed 413)
| p_size_ok :
    (Z.of_N (ob_size o) <= limit_bytes)%Z -> pstep o Persisted SizeChecked
| p_classify : pstep o SizeChecked (Classified (ob_category o))
| p_unsupported : pstep o (Classified Unsupported) (Failed 400)
| p_doc_not_pdf :
    ob_target o <> "pdf" -> pstep o (Classified Document) (Failed 400)
| p_start c :
    c <> Unsupported -> (c = Document -> ob_target o = "pdf") ->
    pstep o (Classified c) (Converting c)
| p_ok c err :
    ob_run o = Exited 0 err -> ob_output o = true -> pstep o (Converting c) Succeeded
| p_no_output c err :
    ob_run o = Exited 0 err -> ob_output o = false -> pstep o (Converting c) (Failed 500)
| p_nonzero c rc err :
    ob_run o = Exited rc err -> rc <> 0%Z -> pstep o (Converting c) (Failed 400)
| p_timeout c :
    ob_run o = TimedOut -> pstep o (Converting c) (Failed 408).

Definition pipeline (o : observation) : phase -> phase -> Prop := rtc (pstep o).

Definition terminal (p : phase) : bool :=
  match p with Succeeded | Failed _ => true | _ => false end.

(** The position of a phase in the pipeline. *)
Definition rank (p : phase) : nat :=
  match p with
  | Received => 0 | Validated => 1 | Persisted => 2 | SizeChecked => 3
  | Classified _ => 4 | Converting _ => 5 | Succeeded | Failed _ => 6
  end.

(** The phase the handler's result corresponds to. *)
Definition outcome_phase {A} (r : exc + A) : phase :=
  match r with
  | inr _ => Succeeded
  | inl (HTTPException s _) => Failed s
  | inl (Unhandled _) => Failed 500
  end.

(** ** What the handler shows the pipeline *)

Section Observe.
Context `{Platform}.

Definition observe (file : UploadFile) (target : string) (tok : list Z) (w : world) : observation :=
  let fname := match filename file with Some f => f | None => "" end in
  let tgt := normalize_target target in
  let inp := input_path fname tok in
  let outp := output_path tok tgt in
  let cat := route (mime_of (content_type file) fname) (input_suffix fname) in
  let fs1 := <[to_str inp := upload_size file]> (fs w) in
  let '(r, fs2) := run_proc (branch_command cat inp outp) 180 fs1 in
  mkObs (negb (String.eqb fname "")) tgt (upload_size file) cat r
        (bool_decide (is_Some (fs2 !! to_str (branch_output cat inp outp))) ||
         bool_decide (to_str (branch_output cat inp outp) ∈ dirs w)).

End Observe.

(** ** Laws of the pipeline *)

#[local] Hint Constructors pstep : pyconv.

(** Every step moves forward. *)
Lemma pstep_rank o p q : pstep o p q -> rank p < rank q.
Proof. destruct 1; cbn; lia. Qed.

(** No phase is revisited: along any non-empty run of the
    pipeline the rank strictly grows, so there is no retry loop. *)
Theorem pipeline_no_revisit o p q : tc (pstep o) p q -> rank p < rank q /\ p <> q.
Proof.
  intros Hpq. assert (rank p < rank q).
  { induction Hpq as [x y Hxy|x y z Hxy _ IH]; [exact (pstep_rank _ _ _ Hxy)|].
    pose proof (pstep_rank _ _ _ Hxy). lia. }
  split; [done|]. intros ->. lia.
Qed.

(** The pipeline is deterministic: an observation
    leaves one successor to every phase. *)
Theorem pstep_deterministic o p q1 q2 : pstep o p q1 -> pstep o p q2 -> q1 = q2.
Proof.
  destruct 1; inversion 1; subst; try done; try congruence; try lia.
  all: exfalso; match goal with H : Document = Document -> _ |- _ => specialize (H eq_refl) end;
    congruence.
Qed.

Lemma rank_le p : rank p <= 6.
Proof. destruct p; cbn; lia. Qed.

(** Every sequence of steps from any phase is finite: the pipeline read
    backwards is well founded, by the rank bounded by 6. *)
Lemma pstep_sn o p : Acc (fun q p => pstep o p q) p.
Proof.
  remember (6 - rank p) as n eqn:Hn. revert p Hn.
  induction n as [n IH] using lt_wf_ind. intros p Hn. constructor. intros q Hpq.
  apply (IH (6 - rank q)); [|done]. pose proof (pstep_rank _ _ _ Hpq). pose proof (rank_le q). lia.
Qed.

(** Terminal phases have no successor. *)
Lemma terminal_final o p q : terminal p = true -> ~ pstep o p q.
Proof. intros Ht Hs. destruct p; try discriminate; inversion Hs. Qed.

(** From [Received] the pipeline always reaches a
    terminal phase, unless the converter cannot be started (a case the
    specification has no transition for). *)
Theorem pipeline_terminates o :
  (forall e, ob_run o <> SpawnFailed e) ->
  exists q, terminal q = true /\ pipeline o Received q.
Proof.
  intros Hspawn.
  destruct (ob_name_ok o) eqn:Hn; [|exists (Failed 400); split; [done|]; by apply rtc_once, p_no_name].
  destruct (String.eqb_spec (ob_target o) "") as [Ht|Ht];
    [exists (Failed 400); split; [done|]; by apply rtc_once, p_no_target|].
  assert (Hpre : pipeline o Received Persisted)
    by (eapply rtc_l; [by apply p_valid|]; by apply rtc_once, p_persist).
  destruct (Z.ltb_spec limit_bytes (Z.of_N (ob_size o))) as [Hs|Hs];
    [exists (Failed 413); split; [done|]; eapply rtc_r; [exact Hpre|]; by apply p_too_large|].
  assert (Hcl : pipeline o Received (Classified (ob_category o))).
  { eapply rtc_r; [eapply rtc_r; [exact Hpre|by apply p_size_ok]|apply p_classify]. }
  destruct (decide (ob_category o = Unsupported)) as [Hu|Hu].
  { exists (Failed 400). split; [done|]. eapply rtc_r; [exact Hcl|]. rewrite Hu. apply p_unsupported. }
  destruct (decide (ob_category o = Document /\ ob_target o <> "pdf")) as [[Hd Hp]|Hdp].
  { exists (Failed 400). split; [done|]. eapply rtc_r; [exact Hcl|]. rewrite Hd. by apply p_doc_not_pdf. }
  assert (Hcv : pipeline o Received (Converting (ob_category o))).
  { eapply rtc_r; [exact Hcl|]. apply p_start; [done|].
    intros Hd. destruct (String.eqb_spec (ob_target o) "pdf"); [done|]. by destruct Hdp. }
  destruct (ob_run o) as [rc err| |e] eqn:Hr; [| |by destruct (Hspawn e)].
  - destruct (Z.eqb_spec rc 0) as [->|Hrc].
    + destruct (ob_output o) eqn:Ho.
      * exists Succeeded. split; [done|]. eapply rtc_r; [exact Hcv|]. by eapply p_ok.
      * exists (Failed 500). split; [done|]. eapply rtc_r; [exact Hcv|]. by eapply p_no_output.
    + exists (Failed 400). split; [done|]. eapply rtc_r; [exact Hcv|]. by eapply p_nonzero.
  - exists (Failed 408). split; [done|]. eapply rtc_r; [exact Hcv|]. by apply p_timeout.
Qed.

(** C9 (equivalence).  The [if]/[elif] chain of the handler is the
    specification's decision table read first match first. *)
Theorem route_is_spec_table mime sfx : route mime sfx = classify spec_table mime sfx.
Proof. reflexivity. Qed.

(** ** Refinement *)

(** The pipeline up to the classification. *)
Lemma pipeline_to_classified o :
  ob_name_ok o = true -> ob_target o <> "" -> (Z.of_N (ob_size o) <= limit_bytes)%Z ->
  pipeline o Received (Classified (ob_category o)).
Proof.
  intros Hn Ht Hs. eapply rtc_l; [by apply p_valid|]. eapply rtc_l; [apply p_persist|].
  eapply rtc_l; [by apply p_size_ok|]. apply rtc_once, p_classify.
Qed.

(** The phase the converter's report leads to, as the handler computes
    it. *)
Definition run_phase (r : proc_result) (out_exists : bool) : phase :=
  match r with
  | Exited rc _ => if (rc =? 0)%Z then (if out_exists then Succeeded else Failed 500) else Failed 400
  | TimedOut => Failed 408
  | SpawnFailed _ => Failed 500
  end.

Lemma pipeline_from_converting o c :
  (forall e, ob_run o <> SpawnFailed e) ->
  pstep o (Converting c) (run_phase (ob_run o) (ob_output o)).
Proof.
  intros Hspawn. destruct (ob_run o) as [rc err| |e] eqn:Hr; cbn; [| |by destruct (Hspawn e)].
  - destruct (Z.eqb_spec rc 0) as [->|Hrc]; [|by eapply p_nonzero].
    destruct (ob_output o) eqn:Ho; [by eapply p_ok|by eapply p_no_output].
  - by apply p_timeout.
Qed.

Section Refinement.
Context `{Platform}.

Lemma finish_phase fname cmd r w2 o :
  outcome_phase (fst (finish fname
    (match run_command_outcome signal_repr cmd r with None => inr o | Some e => inl e end, w2)))
  = run_phase r (exists_in w2 (to_str o)).
Proof.
  destruct r as [rc err| |e]; cbn; [|done|done].
  destruct (Z.eqb_spec rc 0); cbn; [|done]. by destruct (exists_in _ _).
Qed.

(** The fields of the observation. *)
Lemma observe_fields file target tok w :
  let fname := fname_of file in
  let inp := input_path fname tok in
  let outp := output_path tok (normalize_target target) in
  let cat := route (mime_of (content_type file) fname) (input_suffix fname) in
  let o := observe file target tok w in
  ob_name_ok o = negb (String.eqb fname "") /\ ob_target o = normalize_target target /\
  ob_size o = upload_size file /\ ob_category o = cat /\
  forall r fs2, run_proc (branch_command cat inp outp) 180 (<[to_str inp := upload_size file]> (fs w))
                = (r, fs2) ->
    ob_run o = r /\
    ob_output o = bool_decide (is_Some (fs2 !! to_str (branch_output cat inp outp))) ||
                  bool_decide (to_str (branch_output cat inp outp) ∈ dirs w).
Proof.
  cbv zeta. unfold observe, fname_of.
  destruct (run_proc _ _ _) as [r0 f0] eqn:E. repeat split; try done.
  all: match goal with H : (_, _) = (_, _) |- _ => by injection H as <- <- end.
Qed.

Lemma convert_no_name file target tok w :
  fname_of file = "" -> convert file target tok w = (inl (http 400 "Missing filename"), w).
Proof. unfold convert, fname_of. destruct (filename file) as [f|]; [intros ->|]; done. Qed.

(** The handler's run, read on the pipeline: the phase its result stands
    for is reached from [Received] on the observation of the request. *)
Lemma convert_pipeline file target tok w :
  TokenHex.bytes_wf tok -> length tok = 8 ->
  mem "."%char (normalize_target target) = false ->
  mem "/"%char (normalize_target target) = false ->
  writable w (input_path (fname_of file) tok) ->
  (forall e, ob_run (observe file target tok w) <> SpawnFailed e) ->
  pipeline (observe file target tok w) Received (outcome_phase (fst (convert file target tok w))).
Proof.
  intros Hwf Hl Hdot Hsl Hw Hspawn.
  destruct (observe_fields file target tok w) as (En & Et & Es & Ec & Erun).
  set (o := observe file target tok w) in *. clearbody o.
  destruct (String.eqb_spec (fname_of file) "") as [Hn|Hn].
  { rewrite convert_no_name by done. apply rtc_once, p_no_name. by rewrite En. }
  destruct (filename file) as [fname|] eqn:Hf; unfold fname_of in *; rewrite Hf in *; [|done].
  destruct (String.eqb_spec (normalize_target target) "") as [Ht|Ht].
  { unfold convert. rewrite Hf, (proj2 (String.eqb_neq _ _) Hn), Ht.
    apply rtc_once, p_no_target; [|by rewrite Et]. by rewrite En. }
  assert (Hok : ob_name_ok o = true) by (by rewrite En).
  rewrite (convert_guarded file fname) by done. cbn zeta.
  rewrite size_exceeds_spec. unfold MAX_MB.
  destruct (Z.ltb_spec (100 * 1048576) (Z.of_N (upload_size file))) as [Hbig|Hsmall].
  { eapply rtc_l; [by apply p_valid; rewrite ?Et|]. eapply rtc_l; [apply p_persist|].
    apply rtc_once, p_too_large. by rewrite Es. }
  assert (Hcl := pipeline_to_classified o Hok ltac:(by rewrite Et) ltac:(by rewrite Es)).
  rewrite Ec in Hcl.
  set (cat := route (mime_of (content_type file) fname) (input_suffix fname)) in *.
  assert (Hsuf := output_suffix_target tok _ Hwf Hl Ht Hdot Hsl).
  destruct (branch_runs cat (output_path tok (normalize_target target))) eqn:Hr.
  - rewrite convert_branch_runs by done. cbn zeta. unfold stored. cbn [fs procs].
    destruct (run_proc _ _ _) as [r fs2] eqn:Hrun.
    destruct (Erun r fs2 eq_refl) as [Er Eo].
    rewrite finish_phase. unfold exists_in. cbn [fs dirs]. rewrite <- Er, <- Eo.
    eapply rtc_r; [eapply rtc_r; [exact Hcl|]|apply pipeline_from_converting; exact Hspawn].
    apply p_start; [by intros Hu; rewrite Hu in Hr|].
    intros Hd. rewrite Hd in Hr. cbn in Hr. rewrite Hsuf in Hr. rewrite Et.
    by apply String.eqb_eq in Hr as [= ->].
  - rewrite convert_branch_refuses by done. cbn [finish fst].
    replace (outcome_phase _) with (Failed 400) by (case_bool; reflexivity).
    eapply rtc_r; [exact Hcl|].
    destruct cat eqn:Hc; try discriminate Hr; [|apply p_unsupported].
    apply p_doc_not_pdf. rewrite Et. intros Hp. cbn in Hr. rewrite Hsuf, Hp in Hr. discriminate.
Qed.

Lemma outcome_phase_terminal {A} (r : exc + A) : terminal (outcome_phase r) = true.
Proof. by destruct r as [[]|]. Qed.

(** C8 (refinement).  The handler implements the specification's
    pipeline: on every request and every platform, a terminal phase is
    reached by the pipeline from [Received] on the observation of the
    request exactly when it is the phase the handler's result stands for,
    provided the normalized target holds neither ['.'] nor ['/'] and the
    converter starts (the two places where the code and the specification
    part ways). *)
Theorem convert_refines_pipeline file target tok w q :
  TokenHex.bytes_wf tok -> length tok = 8 ->
  mem "."%char (normalize_target target) = false ->
  mem "/"%char (normalize_target target) = false ->
  writable w (input_path (fname_of file) tok) ->
  (forall e, ob_run (observe file target tok w) <> SpawnFailed e) ->
  terminal q = true ->
  pipeline (observe file target tok w) Received q <-> q = outcome_phase (fst (convert file target tok w)).
Proof.
  intros Hwf Hl Hdot Hsl Hw Hspawn Hq. split.
  - intros Hrun. apply (rtc_det_nf (pstep _) (pstep_deterministic _) _ _ _ Hrun);
      [by apply convert_pipeline|intros v; by apply terminal_final|intros v; apply terminal_final, outcome_phase_terminal].
  - intros ->. by apply convert_pipeline.
Qed.

(** On every request the pipeline terminates: no
    sequence of steps from [Received] is infinite, and a terminal phase
    is reached whenever the converter starts. *)
Lemma observe_pipeline_terminates file target tok w :
  Acc (fun q p => pstep (observe file target tok w) p q) Received /\
  ((forall e, ob_run (observe file target tok w) <> SpawnFailed e) ->
   exists q, terminal q = true /\ pipeline (observe file target tok w) Received q).
Proof. split; [apply pstep_sn|apply pipeline_terminates]. Qed.

End Refinement.

(** ** Witnesses *)

(** The specification's scenario, [photo.png] to [jpg]: the handler's
    success is the pipeline's [Succeeded]. *)
Lemma convert_refines_pipeline_witness :
  outcome_phase (fst (@convert (mock_platform (Exited 0 []) true) png_upload "jpg" tok0
                        world0)) = Succeeded /\
  (pipeline (@observe (mock_platform (Exited 0 []) true) png_upload "jpg" tok0 world0)
     Received Succeeded <->
   Succeeded = outcome_phase (fst (@convert (mock_platform (Exited 0 []) true) png_upload "jpg"
                                    tok0 world0))).
Proof.
  split; [vm_compute; reflexivity|].
  apply (@convert_refines_pipeline (mock_platform (Exited 0 []) true) png_upload "jpg" tok0
           world0 Succeeded); [repeat constructor|reflexivity|reflexivity|reflexivity|apply (bool_decide_unpack _); vm_compute; exact I| |reflexivity].
  intros e. vm_compute. discriminate.
Defined.


End RouterSpec.
