(* ===== verification/Server.v ===== *)
(** * The application: its routes, the request loop, and the converter
    contract

    [main.py] declares two endpoints, [@app.get("/healthz")] (line 55)
    and [@app.post("/convert")] (line 60), whose handler takes a required
    form file and a required form field ([File(...)], [Form(...)], line
    61).  What the framework does around them is modelled as the code
    relies on it:
    - [dispatch] is Starlette's router on the routes of the application,
      the documentation pages [FastAPI(title=...)] registers (line 12)
      and then the two decorated ones: the first route
      whose path and method match runs; a route whose path matches but not
      its method gives 405; otherwise, when the path with its trailing
      slash toggled matches a route, a 307 redirect (the model keeps the
      toggled path; Starlette's [Location] is the full URL with that
      path); otherwise 404;
    - [form_value] is FastAPI's reading of a form field: an absent field
      and an empty string are both missing, and a missing required
      parameter is a 422 validation error listing the missing fields;
    - [of_result] is the exception handling: an [HTTPException] becomes
      its status with [{"detail": ...}], any other exception a plain 500.
    [serve] is the application without its CORS middleware (lines
    15-21); [Cors.v] wraps it in the middleware and proves that the
    middleware changes headers only.

    [serve] answers one request in a world; [serve_all] answers a sequence
    of requests one after the other, each with its own draw of
    [token_bytes(8)].  The converter contract [ConverterContract] states
    what the specification (section 6) promises of the external
    collaborators: a command changes no file but its declared output. *)

From S2P Require Import Prelude PyStr PyPath TokenHex Subprocess Router.

Module Server.
Import PyStr PyPath Subprocess Router.

(** ** Requests and responses *)

Record request := mkRequest {
  rq_method : string;
  rq_path : string;
  rq_file : option UploadFile;     (** the [file] part of the form, when sent *)
  rq_target : option string        (** the [target] field of the form, when sent *)
}.

(** The pages [FastAPI(...)] serves by itself. *)
Inductive doc_page := OpenAPISchema | SwaggerUI | SwaggerOAuth2Redirect | ReDoc.

Inductive body :=
| DocPage (d : doc_page) (title : string)       (** generated from the application's title *)
| JSONFields (fields : list (string * bool))   (** [JSONResponse] of an object of booleans *)
| JSONDetail (detail : list Z)                (** [{"detail": ...}] *)
| JSONMissing (fields : list string)          (** 422: the missing required fields *)
| FileBody (fr : FileResponse)
| PlainText (text : string).

Record response := mkResponse { status : Z; resp_body : body }.

Inductive endpoint := Docs (d : doc_page) | Health | Convert.

(** [app = FastAPI(title=...)] (line 12). *)
Definition app_title : string := "Free File Converters API".

(** The routes of the application in registration order, each with its
    methods: the documentation routes [FastAPI.setup] adds when the object
    is built (Starlette [Route]s of function endpoints without [methods],
    hence [GET] and [HEAD]), then the decorated [APIRoute]s in the order of
    the file, with exactly the decorator's method. *)
Definition app_routes : list (list string * string * endpoint) :=
  [(["GET"; "HEAD"], "/openapi.json", Docs OpenAPISchema); (["GET"; "HEAD"], "/docs", Docs SwaggerUI);
   (["GET"; "HEAD"], "/docs/oauth2-redirect", Docs SwaggerOAuth2Redirect);
   (["GET"; "HEAD"], "/redoc", Docs ReDoc);
   (["GET"], "/healthz", Health); (["POST"], "/convert", Convert)].

Definition path_match (p : string) (r : list string * string * endpoint) : bool :=
  String.eqb r.1.2 p.

Definition full_match (m p : string) (r : list string * string * endpoint) : bool :=
  String.eqb r.1.2 p && in_set m r.1.1.

(** [s.rstrip(c)]. *)
Fixpoint rstrip_char (c : ascii) (s : string) : string :=
  match s with
  | EmptyString => ""
  | String x t =>
      let t' := rstrip_char c t in
      if String.eqb t' "" && Ascii.eqb x c then "" else String x t'
  end.

(** The path of Starlette's [redirect_slashes]. *)
Definition toggle_slash (p : string) : string :=
  if ends_with_slash p then rstrip_char "/"%char p else p ^^ "/".

Inductive dispatched :=
| ToEndpoint (e : endpoint)
| NotAllowed
| Redirect (location : string)
| NotFound.

Definition dispatch (m p : string) : dispatched :=
  match List.find (full_match m p) app_routes with
  | Some (_, _, e) => ToEndpoint e
  | None =>
      if existsb (path_match p) app_routes then NotAllowed
      else if negb (String.eqb p "/") && existsb (path_match (toggle_slash p)) app_routes
      then Redirect (toggle_slash p)
      else NotFound
  end.

(** A form field as FastAPI reads it: an empty string is missing. *)
Definition form_value (v : option string) : option string :=
  match v with
  | Some EmptyString => None
  | _ => v
  end.

Definition of_result (r : exc + FileResponse) : response :=
  match r with
  | inr fr => mkResponse 200 (FileBody fr)
  | inl (HTTPException s d) => mkResponse s (JSONDetail d)
  | inl (Unhandled _) => mkResponse 500 (PlainText "Internal Server Error")
  end.

Definition missing_fields (f : option UploadFile) (t : option string) : list string :=
  (if f is Some _ then [] else ["file"]) ++ (if t is Some _ then [] else ["target"]).

Section Serve.
Context `{Platform}.

(** One request, with the bytes [token_bytes(8)] would draw for it. *)
Definition serve (rq : request) (tok : list Z) (w : world) : response * world :=
  match dispatch (rq_method rq) (rq_path rq) with
  | ToEndpoint (Docs d) => (mkResponse 200 (DocPage d app_title), w)
  | ToEndpoint Health => (mkResponse health.1 (JSONFields health.2), w)
  | ToEndpoint Convert =>
      match rq_file rq, form_value (rq_target rq) with
      | Some file, Some target =>
          let '(r, w') := convert file target tok w in (of_result r, w')
      | f, t => (mkResponse 422 (JSONMissing (missing_fields f t)), w)
      end
  | NotAllowed => (mkResponse 405 (JSONDetail (cps "Method Not Allowed")), w)
  | Redirect loc => (mkResponse 307 (PlainText loc), w)
  | NotFound => (mkResponse 404 (JSONDetail (cps "Not Found")), w)
  end.

(** Requests answered one after the other. *)
Fixpoint serve_all (rqs : list (request * list Z)) (w : world) : list response * world :=
  match rqs with
  | [] => ([], w)
  | (rq, tok) :: rest =>
      let '(r, w1) := serve rq tok w in
      let '(rs, w2) := serve_all rest w1 in
      (r :: rs, w2)
  end.

End Serve.

(** ** The converter contract *)

(** A command changes no file but the one it declares. *)
Class ConverterContract `{Platform} := {
  run_proc_frame : forall cmd t f k,
    k <> declared_output cmd -> (run_proc cmd t f).2 !! k = f !! k
}.

Definition outputs_prefix : string := "/tmp/freefileconverters/outputs".

#[export] Instance mock_contract res writes : @ConverterContract (mock_platform res writes).
Proof.
  constructor. intros cmd t f k Hk. cbn.
  destruct writes; [by apply lookup_insert_ne|done].
Qed.

(** ** Which files a request can change *)

Lemma join_outputs_key d :
  head d <> Some "/"%char -> exists rest, to_str (join OUTPUT_DIR d) = outputs_prefix ^^ rest.
Proof.
  intros Hd. rewrite OUTPUT_DIR_eq, join_abs by (try done; by repeat constructor).
  rewrite to_str_abs. cbn [app]. unfold outputs_prefix.
  destruct (parse_parts d) as [|x m].
  - exists "". by rewrite str_app_nil_r.
  - exists ("/" ^^ join_sep (x :: m)). rewrite !join_sep_cons. by strs.
Qed.

Lemma upload_not_output x rest : "/tmp/freefileconverters/uploads/" ^^ x <> outputs_prefix ^^ rest.
Proof. unfold outputs_prefix. rewrite !str_app_cons. discriminate. Qed.

Lemma head_no_slash a b : mem "/"%char a = false -> head b <> Some "/"%char -> head (a ^^ b) <> Some "/"%char.
Proof.
  destruct a as [|c a]; [done|]. rewrite str_app_cons. cbn.
  intros [Hc _]%orb_false_iff _ [= ->]. by rewrite Ascii.eqb_refl in Hc.
Qed.

Lemma safe_id_no_slash tok :
  TokenHex.bytes_wf tok -> length tok = 8 -> mem "/"%char (safe_id tok) = false /\ safe_id tok <> "".
Proof.
  intros Hwf Hl. destruct (safe_id_shape tok Hwf Hl) as [Hlen Hhex].
  split; [exact (proj1 (TokenHex.all_hex_no_sep _ Hhex))|]. intros E. by rewrite E in Hlen.
Qed.

Lemma stem_parse_no_slash s : mem "/"%char (stem (parse s)) = false.
Proof.
  pose proof (name_parse_no_slash s) as Hn. rewrite <- stem_suffix, mem_app in Hn.
  by apply orb_false_iff in Hn as [? _].
Qed.

(** The file a converter of the handler declares is under [outputs/],
    whatever the target. *)
Lemma declared_output_branch cat fname tok t :
  TokenHex.bytes_wf tok -> length tok = 8 -> branch_runs cat (output_path tok t) = true ->
  exists rest, declared_output (branch_command cat (input_path fname tok) (output_path tok t))
               = outputs_prefix ^^ rest.
Proof.
  intros Hwf Hl Hr. destruct (safe_id_no_slash tok Hwf Hl) as [Hs Hne].
  destruct cat; try discriminate Hr; unfold declared_output; cbn [branch_command hd nth List.last].
  1-3: apply join_outputs_key, head_no_slash; [exact Hs|].
  1-3: destruct (safe_id tok) as [|c u]; [done|]; by rewrite str_app_cons.
  change (parse (to_str OUTPUT_DIR)) with OUTPUT_DIR.
  apply join_outputs_key, head_no_slash; [apply stem_parse_no_slash|done].
Qed.

(** C28 (functional).  The target is not checked for separators: a
    target such as ["/../../../../etc/passwd"] survives normalization and
    puts [".."] components in the output path, which read lexically leave
    [outputs/] (the kernel resolves them only through an existing
    directory [safe_id + "."]). *)
Theorem output_path_dotdot tok :
  TokenHex.bytes_wf tok -> length tok = 8 ->
  parts (output_path tok (normalize_target "/../../../../etc/passwd")) =
    ["tmp"; "freefileconverters"; "outputs"; safe_id tok ^^ "."; ".."; ".."; ".."; ".."; "etc"; "passwd"].
Proof.
  intros Hwf Hl. destruct (safe_id_no_slash tok Hwf Hl) as [Hs Hne].
  destruct (stored_name_wf tok "." Hwf Hl eq_refl) as [Hw _].
  change (normalize_target "/../../../../etc/passwd") with "/../../../../etc/passwd".
  unfold output_path. rewrite OUTPUT_DIR_eq, join_abs by
    (first [done | by repeat constructor | apply head_no_slash; [done|];
     destruct (safe_id tok); [done|by rewrite str_app_cons]]).
  cbn [parts]. rewrite str_app_assoc, parse_parts_app, parse_parts_single by done.
  reflexivity.
Qed.

Section Frame.
Context `{ConverterContract}.

Lemma convert_branch_frame cat fname tok t w k :
  TokenHex.bytes_wf tok -> length tok = 8 -> (forall rest, k <> outputs_prefix ^^ rest) ->
  fs (snd (convert_branch cat (input_path fname tok) (output_path tok t) w)) !! k = fs w !! k.
Proof.
  intros Hwf Hl Hout. destruct (branch_runs cat (output_path tok t)) eqn:Hr.
  - rewrite convert_branch_runs by done. cbn zeta.
    destruct (declared_output_branch cat fname tok t Hwf Hl Hr) as [rest Hd].
    destruct (run_proc _ _ _) as [r f'] eqn:E. cbn [fs snd].
    rewrite <- (run_proc_frame _ 180%Z (fs w) k), E by (rewrite Hd; apply Hout). done.
  - by rewrite convert_branch_refuses.
Qed.

(** A request changes no file but its own upload and files under
    [outputs/]. *)
Lemma convert_frame file target tok w k :
  TokenHex.bytes_wf tok -> length tok = 8 ->
  k <> to_str (input_path (fname_of file) tok) -> (forall rest, k <> outputs_prefix ^^ rest) ->
  fs (snd (convert file target tok w)) !! k = fs w !! k.
Proof.
  intros Hwf Hl Hin Hout.
  destruct (convert_world file target tok w) as [->|(fname & Hf & [-> | ->])]; [done| |].
  all: unfold fname_of in Hin; rewrite Hf in Hin.
  - cbn. apply lookup_insert_ne. congruence.
  - rewrite convert_branch_frame by done. cbn. apply lookup_insert_ne. congruence.
Qed.

End Frame.

(** ** Laws of the application *)

Lemma dispatch_convert m p : dispatch m p = ToEndpoint Convert -> m = "POST" /\ p = "/convert".
Proof.
  unfold dispatch. destruct (List.find _ _) as [[[mo q] e]|] eqn:Hf.
  - intros [= ->]. apply List.find_some in Hf as [Hin Hm]. unfold full_match in Hm. cbn in Hm.
    repeat destruct Hin as [Hin|Hin]; simplify_eq; [|done].
    unfold in_set in Hm. cbn [existsb] in Hm. rewrite orb_false_r in Hm.
    apply andb_prop in Hm as [Hq Hm']. by apply String.eqb_eq in Hq, Hm'.
  - by repeat case_bool.
Qed.

Lemma dispatch_health : dispatch "GET" "/healthz" = ToEndpoint Health.
Proof. reflexivity. Qed.

Lemma run_command_outcome_status sr cmd r e :
  run_command_outcome sr cmd r = Some e ->
  (exists d, e = HTTPException 400 d) \/ (exists d, e = HTTPException 408 d) \/ exists x, e = Unhandled x.
Proof.
  destruct r as [rc err| |x]; cbn; [destruct (rc =? 0)%Z|..]; intros [= <-]; eauto.
Qed.

Section ServeLaws.
Context `{Platform}.

(** A request that reaches [convert] needs both form fields. *)
Lemma serve_convert_cases rq tok w :
  (serve rq tok w).2 = w \/
  dispatch (rq_method rq) (rq_path rq) = ToEndpoint Convert /\
  exists file target, rq_file rq = Some file /\ form_value (rq_target rq) = Some target /\
    serve rq tok w = (of_result (convert file target tok w).1, (convert file target tok w).2).
Proof.
  unfold serve. destruct (dispatch _ _) as [[]| | |] eqn:Hd; try by left.
  destruct (rq_file rq) as [file|], (form_value (rq_target rq)) as [target|] eqn:Ht; try by left.
  right. split; [done|]. exists file, target. split; [done|]. split; [done|].
  by destruct (convert file target tok w).
Qed.

Lemma serve_procs rq tok w : procs_step w (serve rq tok w).2.
Proof.
  destruct (serve_convert_cases rq tok w) as [->|(_ & file & target & _ & _ & ->)];
    [by apply procs_step_refl|apply convert_at_most_one_process].
Qed.

Lemma serve_dirs rq tok w : dirs (serve rq tok w).2 = dirs w.
Proof.
  destruct (serve_convert_cases rq tok w) as [->|(_ & file & target & _ & _ & ->)];
    [done|apply convert_dirs].
Qed.

Lemma serve_all_dirs rqs w : dirs (serve_all rqs w).2 = dirs w.
Proof.
  revert w. induction rqs as [|[rq tok] rqs IH]; intros w; [done|]. cbn [serve_all].
  destruct (serve rq tok w) as [r w1] eqn:E1. destruct (serve_all rqs w1) as [rs w2] eqn:E2.
  cbn [snd]. specialize (IH w1). rewrite E2 in IH. cbn in IH. rewrite IH.
  pose proof (serve_dirs rq tok w) as D. by rewrite E1 in D.
Qed.

Lemma procs_step_trans_len w1 w2 w3 l :
  procs_step w1 w2 -> procs w3 = procs w2 ++ l -> Forall (fun c => c.2 = 180%Z) l ->
  exists l', procs w3 = procs w1 ++ l' /\ (length l' <= 1 + length l)%nat /\
             Forall (fun c => c.2 = 180%Z) l'.
Proof.
  intros (l1 & E1 & Len1 & F1) E2 F2. exists (l1 ++ l).
  rewrite E2, E1, app_assoc, length_app. split; [done|]. split; [lia|by apply Forall_app].
Qed.

(** C11 (invariant).  Over any sequence of requests, the server starts at
    most one process per request, each with the timeout of 180 seconds,
    and forgets none it started. *)
Theorem serve_all_processes rqs w :
  exists l, procs (serve_all rqs w).2 = procs w ++ l /\ (length l <= length rqs)%nat /\
            Forall (fun c => c.2 = 180%Z) l.
Proof.
  revert w. induction rqs as [|[rq tok] rqs IH]; intros w.
  - exists []. rewrite app_nil_r. split; [done|]. split; [cbn; lia|constructor].
  - cbn [serve_all]. destruct (serve rq tok w) as [r w1] eqn:E1.
    destruct (serve_all rqs w1) as [rs w2] eqn:E2. cbn [snd].
    destruct (IH w1) as (l & Hl & Len & F). rewrite E2 in Hl.
    pose proof (serve_procs rq tok w) as Hs. rewrite E1 in Hs.
    destruct (procs_step_trans_len _ _ _ _ Hs Hl F) as (l' & ? & ? & ?).
    exists l'. cbn [length]. split; [done|]. split; [lia|done].
Qed.

(** C26 (liveness).  [GET /healthz] answers [200 {"ok": true}] in every
    state and changes nothing. *)
Theorem serve_healthz rq tok w :
  rq_method rq = "GET" -> rq_path rq = "/healthz" ->
  serve rq tok w = (mkResponse 200 (JSONFields [("ok", true)]), w).
Proof. intros Hm Hp. unfold serve. by rewrite Hm, Hp, dispatch_health. Qed.

(** C24 (safety).  Only [POST /convert] with both form fields can change
    the state: every other request is answered without touching a file or
    starting a process. *)
Theorem serve_changes_only_convert rq tok w :
  (serve rq tok w).2 <> w ->
  rq_method rq = "POST" /\ rq_path rq = "/convert" /\
  exists file target, rq_file rq = Some file /\ form_value (rq_target rq) = Some target.
Proof.
  intros Hne. destruct (serve_convert_cases rq tok w) as [E|(Hd & file & target & Hf & Ht & _)];
    [done|].
  destruct (dispatch_convert _ _ Hd) as [-> ->]. split; [done|]. split; [done|]. by exists file, target.
Qed.

(** C27 (error).  An empty [target] field is refused by the framework's
    validation with 422, before the handler runs: the handler's own 400
    "Missing target format" is only reached by targets such as ["."] or
    ["  "]. *)
Theorem serve_empty_target_422 rq file tok w :
  rq_method rq = "POST" -> rq_path rq = "/convert" ->
  rq_file rq = Some file -> rq_target rq = Some "" ->
  serve rq tok w = (mkResponse 422 (JSONMissing ["target"]), w).
Proof. intros Hm Hp Hf Ht. unfold serve. by rewrite Hm, Hp, Hf, Ht. Qed.

(** C25 (error).  Every answer of [convert] has one of the statuses of the
    specification's taxonomy: 200, 400, 408, 413 or 500 (an exception the
    handler does not catch becomes the framework's 500). *)
Theorem convert_status_taxonomy file target tok w :
  In (status (of_result (convert file target tok w).1)) [200; 400; 408; 413; 500]%Z.
Proof.
  destruct (convert_early file target tok w) as [(fname & Hf & Hn & Ht & Hw)|(e & -> & He)].
  2: destruct He as [->|[->|[x ->]]]; cbn; tauto.
  rewrite (convert_guarded file fname) by done. cbn zeta.
  destruct (size_exceeds _ _); [cbn; tauto|].
  set (cat := route _ _). set (inp := input_path fname tok).
  set (outp := output_path tok (normalize_target target)).
  destruct (branch_runs cat outp) eqn:Hr.
  - rewrite convert_branch_runs by done. cbn zeta. destruct (run_proc _ _ _) as [r f'].
    destruct (run_command_outcome _ _ r) as [e|] eqn:Ho.
    + destruct (run_command_outcome_status _ _ _ _ Ho) as [[d ->]|[[d ->]|[x ->]]]; cbn; tauto.
    + unfold finish. case_bool; cbn; tauto.
  - rewrite convert_branch_refuses by done. cbn. case_bool; cbn; tauto.
Qed.

End ServeLaws.

Section Persist.
Context `{ConverterContract}.

Lemma serve_frame rq tok w k :
  TokenHex.bytes_wf tok -> length tok = 8 ->
  (forall f, rq_file rq = Some f -> k <> to_str (input_path (fname_of f) tok)) ->
  (forall rest, k <> outputs_prefix ^^ rest) ->
  fs (serve rq tok w).2 !! k = fs w !! k.
Proof.
  intros Hwf Hl Hin Hout.
  destruct (serve_convert_cases rq tok w) as [->|(_ & file & target & Hf & _ & ->)]; [done|].
  apply convert_frame; auto.
Qed.

(** C10 (invariant).  A stored upload survives any later sequence of
    requests whose tokens differ from its own: neither another upload nor
    a converter (under the collaborators' contract) can overwrite it. *)
Theorem uploads_persist rqs w fname tok n :
  TokenHex.bytes_wf tok -> length tok = 8 ->
  Forall (fun rt => TokenHex.bytes_wf rt.2 /\ length rt.2 = 8 /\ rt.2 <> tok) rqs ->
  fs w !! to_str (input_path fname tok) = Some n ->
  fs (serve_all rqs w).2 !! to_str (input_path fname tok) = Some n.
Proof.
  intros Hwf Hl Hall. revert w.
  induction Hall as [|[rq t] rqs (Hw & Hl' & Hne) _ IH]; intros w Hn; [done|].
  cbn [serve_all]. destruct (serve rq t w) as [r w1] eqn:E1.
  destruct (serve_all rqs w1) as [rs w2] eqn:E2. cbn [snd].
  replace w2 with (serve_all rqs w1).2 by (by rewrite E2). apply IH.
  replace w1 with (serve rq t w).2 by (by rewrite E1).
  destruct (input_path_eq fname tok Hwf Hl) as (Hp & L1 & _).
  rewrite serve_frame; [done|done|done| |].
  - intros f _. destruct (input_path_eq (fname_of f) t Hw Hl') as (-> & L2 & _).
    rewrite Hp, !to_str_upload. intros E. apply str_app_inv_l in E.
    apply str_app_inv_len in E as [E _]; [|congruence].
    apply Hne. symmetry. by apply TokenHex.token_hex_inj.
  - intros rest. rewrite Hp, to_str_upload. apply upload_not_output.
Qed.

End Persist.

(** ** Witnesses *)

Lemma output_path_dotdot_witness :
  parts (output_path tok0 (normalize_target "/../../../../etc/passwd")) =
    ["tmp"; "freefileconverters"; "outputs"; "deadbeef000102ff."; ".."; ".."; ".."; ".."; "etc"; "passwd"].
Proof. rewrite (output_path_dotdot tok0); [reflexivity|repeat constructor|reflexivity]. Defined.

Definition convert_png : request := mkRequest "POST" "/convert" (Some png_upload) (Some "jpg").

(** A second draw of [token_bytes(8)]. *)
Definition tok1 : list Z := [1; 2; 3; 4; 5; 6; 7; 8]%Z.

Lemma serve_healthz_witness :
  @serve (mock_platform TimedOut false) (mkRequest "GET" "/healthz" None None) tok0 world0
  = (mkResponse 200 (JSONFields [("ok", true)]), world0).
Proof. apply (@serve_healthz (mock_platform TimedOut false)); reflexivity. Defined.

Lemma serve_changes_only_convert_witness :
  (@serve (mock_platform (Exited 0 []) true) convert_png tok0 world0).2 <> world0 /\
  rq_method convert_png = "POST" /\ rq_path convert_png = "/convert" /\
  exists file target, rq_file convert_png = Some file /\ form_value (rq_target convert_png) = Some target.
Proof.
  assert (Hne : (@serve (mock_platform (Exited 0 []) true) convert_png tok0 world0).2
                <> world0)
    by (intros E; apply (f_equal procs) in E; vm_compute in E; discriminate).
  split; [exact Hne|]. exact (@serve_changes_only_convert (mock_platform (Exited 0 []) true) _ _ _ Hne).
Defined.

Lemma serve_empty_target_422_witness :
  @serve (mock_platform (Exited 0 []) true) (mkRequest "POST" "/convert" (Some png_upload) (Some ""))
    tok0 world0
  = (mkResponse 422 (JSONMissing ["target"]), world0).
Proof. apply (@serve_empty_target_422 (mock_platform (Exited 0 []) true) _ png_upload); reflexivity. Defined.

(** The upload of [tok0] survives a conversion under [tok1] and a health
    check. *)
Lemma uploads_persist_witness :
  fs (@serve_all (mock_platform (Exited 0 []) true)
        [(convert_png, tok1); (mkRequest "GET" "/healthz" None None, tok1)]
        (mkWorld stored_png [] ready_dirs)).2 !! to_str (input_path "photo.png" tok0) = Some 2048%N.
Proof.
  apply (@uploads_persist (mock_platform (Exited 0 []) true) (mock_contract _ _));
    [repeat constructor|reflexivity|repeat constructor; discriminate|vm_compute; reflexivity].
Defined.

End Server.
