(* ===== verification/Cors.v ===== *)
(** * The application object and its CORS middleware (lines 12-21)

    [app = FastAPI(...)] with [app.add_middleware(CORSMiddleware,
    allow_origins=["*"], allow_credentials=False, allow_methods=["*"],
    allow_headers=["*"])].  Starlette builds the application as the stack
    [ServerErrorMiddleware (CORSMiddleware (ExceptionMiddleware router))]:
    - [route_app] is the router under the exception middleware: an
      [HTTPException] or a validation error becomes its response, any
      other exception propagates (the [inl] side);
    - [cors_call] is [CORSMiddleware.__call__]: a request without an
      [Origin] header passes through; an [OPTIONS] request with
      [Access-Control-Request-Method] is answered by [preflight_response]
      without reaching the router; any other request runs the router and
      [cors_send] adds the simple headers to its response start;
    - [server_error] is [ServerErrorMiddleware]: an exception that
      reached it becomes a plain 500, built outside the CORS layer.
    [cors_init] is the middleware's [__init__] on a configuration, and
    [app_cors] the configuration of lines 16-20 (with the defaults of the
    arguments it does not pass: no origin regex, no exposed headers,
    [max_age=600]).

    Header names are lower case, as ASGI servers deliver request headers
    and as [MutableHeaders] stores the names it sets.  A response's own
    headers (content type, length, disposition) are the parameter
    [own_headers]; the theorems assume only that none of them is a CORS
    header or [Vary]. *)

From S2P Require Import Prelude PyStr PyPath TokenHex Subprocess Router Server.

Module Cors.
Import PyStr Subprocess Router Server.

(** ** Headers *)

Definition headers := list (string * string).

(** [headers.get(k)]: the first entry named [k]. *)
Definition hget (k : string) (h : headers) : option string :=
  option_map snd (List.find (fun kv => String.eqb kv.1 k) h).

Definition hhas (k : string) (h : headers) : bool := if hget k h is Some _ then true else false.

(** [MutableHeaders.__setitem__]: the first entry named [k] takes the
    value, later ones are deleted; without one, the entry is appended. *)
Fixpoint hset_go (k v : string) (found : bool) (h : headers) : headers :=
  match h with
  | [] => if found then [] else [(k, v)]
  | (k', v') :: t =>
      if String.eqb k' k then
        if found then hset_go k v true t else (k, v) :: hset_go k v true t
      else (k', v') :: hset_go k v found t
  end.

Definition hset (k v : string) (h : headers) : headers := hset_go k v false h.

(** [headers.update(d)]. *)
Definition hupdate (d : headers) (h : headers) : headers :=
  fold_left (fun acc kv => hset kv.1 kv.2 acc) d h.

(** [MutableHeaders.add_vary_header]. *)
Definition add_vary (vary : string) (h : headers) : headers :=
  hset "vary" (match hget "vary" h with Some e => e ^^ ", " ^^ vary | None => vary end) h.

(** [sep.join(l)]. *)
Fixpoint str_join (sep : string) (l : list string) : string :=
  match l with
  | [] => ""
  | [x] => x
  | x :: t => x ^^ sep ^^ str_join sep t
  end.

(** [s.split(c)]. *)
Fixpoint split_on (c : ascii) (s : string) : list string :=
  match s with
  | EmptyString => [""]
  | String x t =>
      match split_on c t with
      | [] => []
      | p :: ps => if Ascii.eqb x c then "" :: p :: ps else String x p :: ps
      end
  end.

(** Python's order on [str]: code points, a prefix first. *)
Fixpoint str_ltb (s t : string) : bool :=
  match s, t with
  | _, EmptyString => false
  | EmptyString, String _ _ => true
  | String a s', String b t' =>
      if Ascii.eqb a b then str_ltb s' t' else (ord a <? ord b)%Z
  end.

(** [sorted(set(l))]: insertion keeping the list strictly increasing. *)
Fixpoint sinsert (x : string) (l : list string) : list string :=
  match l with
  | [] => [x]
  | y :: t =>
      if str_ltb x y then x :: l
      else if String.eqb x y then l
      else y :: sinsert x t
  end.

Definition sorted_set (l : list string) : list string := fold_right sinsert [] l.

(** [str(n)] for [0 <= n]. *)
Fixpoint dec_go (fuel : nat) (n : N) (acc : string) : string :=
  match fuel with
  | O => acc
  | S f =>
      let acc' := String (ascii_of_N (48 + N.modulo n 10)) acc in
      if (n <? 10)%N then acc' else dec_go f (n / 10)%N acc'
  end.

Definition str_of_N (n : N) : string := dec_go (S (N.size_nat n)) n "".

(** ** The middleware *)

Record cors_config := mkCorsConfig {
  allow_origins : list string;
  allow_methods : list string;
  allow_headers : list string;
  allow_credentials : bool;
  expose_headers : list string;
  max_age : N
}.

(** Lines 15-21. *)
Definition app_cors : cors_config := {|
  allow_origins := ["*"];
  allow_credentials := false;
  allow_methods := ["*"];
  allow_headers := ["*"];
  expose_headers := [];
  max_age := 600
|}.

Definition ALL_METHODS : list string := ["DELETE"; "GET"; "HEAD"; "OPTIONS"; "PATCH"; "POST"; "PUT"].
Definition SAFELISTED_HEADERS : list string :=
  ["Accept"; "Accept-Language"; "Content-Language"; "Content-Type"].

(** The attributes [CORSMiddleware.__init__] computes. *)
Record cors_mw := mkCorsMw {
  mw_allow_origins : list string;
  mw_allow_methods : list string;
  mw_allow_headers : list string;
  mw_allow_all_origins : bool;
  mw_allow_all_headers : bool;
  mw_explicit_origin : bool;
  mw_simple_headers : headers;
  mw_preflight_headers : headers
}.

Definition cors_init (c : cors_config) : cors_mw :=
  let methods := if in_set "*" (allow_methods c) then ALL_METHODS else allow_methods c in
  let all_o := in_set "*" (allow_origins c) in
  let all_h := in_set "*" (allow_headers c) in
  let explicit := negb all_o || allow_credentials c in
  let simple :=
    (if all_o then [("access-control-allow-origin", "*")] else []) ++
    (if allow_credentials c then [("access-control-allow-credentials", "true")] else []) ++
    (if expose_headers c is [] then []
     else [("access-control-expose-headers", str_join ", " (expose_headers c))]) in
  let hdrs := sorted_set (SAFELISTED_HEADERS ++ allow_headers c) in
  let preflight :=
    (if explicit then [("vary", "Origin")] else [("access-control-allow-origin", "*")]) ++
    [("access-control-allow-methods", str_join ", " methods);
     ("access-control-max-age", str_of_N (max_age c))] ++
    (if negb all_h && negb (if hdrs is [] then true else false)
     then [("access-control-allow-headers", str_join ", " hdrs)] else []) ++
    (if allow_credentials c then [("access-control-allow-credentials", "true")] else []) in
  mkCorsMw (allow_origins c) methods (map lower hdrs) all_o all_h explicit simple preflight.

Definition is_allowed_origin (m : cors_mw) (origin : string) : bool :=
  mw_allow_all_origins m || in_set origin (mw_allow_origins m).

(** [allow_explicit_origin]. *)
Definition allow_explicit_origin (h : headers) (origin : string) : headers :=
  add_vary "Origin" (hset "access-control-allow-origin" origin h).

Section Middleware.
(** The headers a response object sets itself. *)
Variable own_headers : response -> headers.

(** [preflight_response]. *)
Definition preflight_response (m : cors_mw) (rh : headers) : response * headers :=
  let origin := default "" (hget "origin" rh) in
  let meth := default "" (hget "access-control-request-method" rh) in
  let h0 := mw_preflight_headers m in
  let '(h1, f1) :=
    if is_allowed_origin m origin then
      ((if mw_explicit_origin m then hset "access-control-allow-origin" origin h0 else h0), [])
    else (h0, ["origin"]) in
  let f2 := if in_set meth (mw_allow_methods m) then [] else ["method"] in
  let '(h3, f3) :=
    match hget "access-control-request-headers" rh with
    | Some rq =>
        if mw_allow_all_headers m then (hset "access-control-allow-headers" rq h1, [])
        else (h1, if forallb (fun x => in_set (strip x) (mw_allow_headers m)) (map lower (split_on "," rq))
                  then [] else ["headers"])
    | None => (h1, [])
    end in
  let resp :=
    match f1 ++ f2 ++ f3 with
    | [] => mkResponse 200 (PlainText "OK")
    | fs => mkResponse 400 (PlainText ("Disallowed CORS " ^^ str_join ", " fs))
    end in
  (resp, h3 ++ own_headers resp).

(** [send]: the headers of the response start. *)
Definition cors_send (m : cors_mw) (rh : headers) (h : headers) : headers :=
  let h1 := hupdate (mw_simple_headers m) h in
  let origin := default "" (hget "origin" rh) in
  if mw_allow_all_origins m && hhas "cookie" rh then allow_explicit_origin h1 origin
  else if negb (mw_allow_all_origins m) && is_allowed_origin m origin then allow_explicit_origin h1 origin
  else h1.

(** [CORSMiddleware.__call__] around an application that answers or
    raises. *)
Definition cors_call (m : cors_mw) (meth : string) (rh : headers)
    (app : world -> (string + response) * world) (w : world)
    : (string + (response * headers)) * world :=
  let pass := fun (add : headers -> headers) =>
    let '(r, w') := app w in
    (match r with inl e => inl e | inr resp => inr (resp, add (own_headers resp)) end, w') in
  match hget "origin" rh with
  | None => pass id
  | Some _ =>
      if String.eqb meth "OPTIONS" && hhas "access-control-request-method" rh
      then (inr (preflight_response m rh), w)
      else pass (cors_send m rh)
  end.

(** [ServerErrorMiddleware]. *)
Definition internal_error : response := mkResponse 500 (PlainText "Internal Server Error").

Definition server_error (r : string + (response * headers)) : response * headers :=
  match r with
  | inl _ => (internal_error, own_headers internal_error)
  | inr x => x
  end.

End Middleware.

(** ** The stack *)

Record http_request := mkHttp { hreq : request; hheaders : headers }.

(** [ExceptionMiddleware]: handled exceptions become responses. *)
Definition exception_middleware (r : exc + FileResponse) : string + response :=
  match r with
  | inr fr => inr (mkResponse 200 (FileBody fr))
  | inl (HTTPException s d) => inr (mkResponse s (JSONDetail d))
  | inl (Unhandled e) => inl e
  end.

Section Stack.
Context `{Platform}.
Variable own_headers : response -> headers.

(** The router under the exception middleware. *)
Definition route_app (rq : request) (tok : list Z) (w : world) : (string + response) * world :=
  match dispatch (rq_method rq) (rq_path rq) with
  | ToEndpoint (Docs d) => (inr (mkResponse 200 (DocPage d app_title)), w)
  | ToEndpoint Health => (inr (mkResponse health.1 (JSONFields health.2)), w)
  | ToEndpoint Convert =>
      match rq_file rq, form_value (rq_target rq) with
      | Some file, Some target =>
          let '(r, w') := convert file target tok w in (exception_middleware r, w')
      | f, t => (inr (mkResponse 422 (JSONMissing (missing_fields f t))), w)
      end
  | NotAllowed => (inr (mkResponse 405 (JSONDetail (cps "Method Not Allowed"))), w)
  | Redirect loc => (inr (mkResponse 307 (PlainText loc)), w)
  | NotFound => (inr (mkResponse 404 (JSONDetail (cps "Not Found"))), w)
  end.

(** [app]: the whole stack on one request. *)
Definition asgi (hr : http_request) (tok : list Z) (w : world) : (response * headers) * world :=
  let '(r, w') :=
    cors_call own_headers (cors_init app_cors) (rq_method (hreq hr)) (hheaders hr)
      (route_app (hreq hr) tok) w in
  (server_error own_headers r, w').

End Stack.

(** A header list that names no CORS header and no [Vary]. *)
Definition cors_free (h : headers) : bool :=
  forallb (fun kv => negb (String.prefix "access-control-" kv.1) && negb (String.eqb kv.1 "vary")) h.

(** The response class of the witnesses: a content type only. *)
Definition media_headers (r : response) : headers :=
  match resp_body r with
  | PlainText _ => [("content-type", "text/plain; charset=utf-8")]
  | FileBody _ => [("content-type", "application/octet-stream")]
  | DocPage OpenAPISchema _ => [("content-type", "application/json")]
  | DocPage _ _ => [("content-type", "text/html; charset=utf-8")]
  | _ => [("content-type", "application/json")]
  end.

(** ** Header lemmas *)

Lemma hget_nil k : hget k [] = None.
Proof. done. Qed.

Lemma hget_cons k k' v t : hget k ((k', v) :: t) = if String.eqb k' k then Some v else hget k t.
Proof. unfold hget. cbn. by destruct (String.eqb k' k). Qed.

Lemma hget_hset_go_true k v h : hget k (hset_go k v true h) = None.
Proof.
  induction h as [|[k' v'] t IH]; [done|]. cbn.
  destruct (String.eqb_spec k' k); [done|]. rewrite hget_cons. by destruct (String.eqb_spec k' k).
Qed.

Lemma hget_hset_eq k v h : hget k (hset k v h) = Some v.
Proof.
  unfold hset. induction h as [|[k' v'] t IH]; cbn; [by rewrite hget_cons, String.eqb_refl|].
  destruct (String.eqb_spec k' k); rewrite !hget_cons, ?String.eqb_refl; [done|].
  by destruct (String.eqb_spec k' k).
Qed.

Lemma hget_hset_ne k k' v h : k <> k' -> hget k (hset k' v h) = hget k h.
Proof.
  intros Hne. unfold hset. generalize false.
  induction h as [|[k1 v1] t IH]; intros b; cbn.
  - destruct b; [done|]. rewrite hget_cons. by destruct (String.eqb_spec k' k).
  - destruct (String.eqb_spec k1 k'); [destruct b|]; rewrite ?hget_cons, ?IH; subst.
    + destruct (String.eqb_spec k' k); [congruence|]. done.
    + destruct (String.eqb_spec k' k); [congruence|]. done.
    + done.
Qed.

Lemma hget_cors_free k h :
  cors_free h = true -> String.prefix "access-control-" k || String.eqb k "vary" = true -> hget k h = None.
Proof.
  intros Hf Hk. induction h as [|[k' v] t IH]; [done|].
  cbn in Hf. apply andb_prop in Hf as [Hkv Ht]. rewrite hget_cons.
  destruct (String.eqb_spec k' k); [subst|by apply IH].
  by destruct (String.prefix _ k), (String.eqb k _).
Qed.

Lemma app_mw :
  cors_init app_cors =
  mkCorsMw ["*"] ALL_METHODS ["*"; "accept"; "accept-language"; "content-language"; "content-type"]
    true true false [("access-control-allow-origin", "*")]
    [("access-control-allow-origin", "*");
     ("access-control-allow-methods", "DELETE, GET, HEAD, OPTIONS, PATCH, POST, PUT");
     ("access-control-max-age", "600")].
Proof. vm_compute. reflexivity. Qed.

Lemma hget_app k h1 h2 :
  hget k (h1 ++ h2) = match hget k h1 with Some v => Some v | None => hget k h2 end.
Proof.
  induction h1 as [|[k' v] t IH]; [done|]. rewrite <- app_comm_cons, !hget_cons.
  by destruct (String.eqb k' k).
Qed.

(** Rewrites [hget] through the header operations on distinct names. *)
Ltac hsimpl :=
  repeat first
    [ rewrite hget_app | rewrite hget_hset_eq | rewrite hget_nil | rewrite hget_cons; cbn [String.eqb]
    | rewrite hget_hset_ne by discriminate ].

Section Laws.
Variable own_headers : response -> headers.

(** The preflight answer of the application's configuration: every
    origin is allowed, only the method is checked, and the requested
    headers are mirrored. *)
Lemma preflight_app rh :
  preflight_response own_headers (cors_init app_cors) rh =
  let resp :=
    if in_set (default "" (hget "access-control-request-method" rh)) ALL_METHODS
    then mkResponse 200 (PlainText "OK")
    else mkResponse 400 (PlainText "Disallowed CORS method") in
  (resp, match hget "access-control-request-headers" rh with
         | Some rq => hset "access-control-allow-headers" rq (mw_preflight_headers (cors_init app_cors))
         | None => mw_preflight_headers (cors_init app_cors)
         end ++ own_headers resp).
Proof.
  rewrite app_mw. unfold preflight_response. cbn [is_allowed_origin mw_allow_all_origins orb
    mw_explicit_origin mw_allow_methods mw_allow_all_headers mw_preflight_headers].
  by destruct (hget "access-control-request-headers" rh), (in_set _ ALL_METHODS).
Qed.

(** What [cors_send] adds under the configuration: [*], or the origin
    and [Vary: Origin] when the request carries cookies. *)
Lemma cors_send_app rh h :
  cors_send (cors_init app_cors) rh h =
  if hhas "cookie" rh
  then allow_explicit_origin (hset "access-control-allow-origin" "*" h) (default "" (hget "origin" rh))
  else hset "access-control-allow-origin" "*" h.
Proof. rewrite app_mw. unfold cors_send. cbn. by destruct (hhas "cookie" rh). Qed.

Lemma cors_call_pass m meth rh app w :
  hget "origin" rh = None \/ (String.eqb meth "OPTIONS" && hhas "access-control-request-method" rh) = false ->
  cors_call own_headers m meth rh app w =
  (match (app w).1 with
   | inl e => inl e
   | inr resp => inr (resp, if hget "origin" rh is Some _ then cors_send m rh (own_headers resp)
                          else own_headers resp)
   end, (app w).2).
Proof.
  intros Hc. unfold cors_call. destruct (app w) as [r w'].
  destruct (hget "origin" rh); [|done]. destruct Hc as [Hc| ->]; [done|]. done.
Qed.

Context `{Platform}.

(** The router under the exception middleware, then the server-error
    middleware, is [serve]. *)
Lemma route_app_serve rq tok w :
  serve rq tok w =
  (match (route_app rq tok w).1 with inl _ => internal_error | inr r => r end, (route_app rq tok w).2).
Proof.
  unfold serve, route_app. destruct (dispatch _ _) as [[]| | |]; try done.
  destruct (rq_file rq), (form_value _); try done.
  by destruct (convert _ _ _ _) as [[[st d|e]|fr] w'].
Qed.

End Laws.

Section Stack_laws.
Context `{Platform}.
Variable own_headers : response -> headers.
Hypothesis own_clean : forall r, cors_free (own_headers r) = true.

Lemma own_none k r :
  String.prefix "access-control-" k || String.eqb k "vary" = true -> hget k (own_headers r) = None.
Proof. apply hget_cors_free, own_clean. Qed.

Ltac hsimpl_own := hsimpl; rewrite ?own_none by reflexivity.

(** The preflight branch of the stack. *)
Lemma asgi_preflight_eq rq rh tok w o :
  hget "origin" rh = Some o ->
  (String.eqb (rq_method rq) "OPTIONS" && hhas "access-control-request-method" rh) = true ->
  asgi own_headers (mkHttp rq rh) tok w = (preflight_response own_headers (cors_init app_cors) rh, w).
Proof. intros Ho Hp. unfold asgi, cors_call. cbn [hreq hheaders]. by rewrite Ho, Hp. Qed.

(** The other branches: the router's answer, or the uncaught 500. *)
Lemma asgi_pass_eq rq rh tok w :
  hget "origin" rh = None \/
  (String.eqb (rq_method rq) "OPTIONS" && hhas "access-control-request-method" rh) = false ->
  asgi own_headers (mkHttp rq rh) tok w =
  (match (route_app rq tok w).1 with
   | inl _ => (internal_error, own_headers internal_error)
   | inr resp => (resp, if hget "origin" rh is Some _
                        then cors_send (cors_init app_cors) rh (own_headers resp)
                        else own_headers resp)
   end, (route_app rq tok w).2).
Proof.
  intros Hc. unfold asgi. cbn [hreq hheaders]. rewrite cors_call_pass by done.
  by destruct (route_app rq tok w) as [[e|r] w'].
Qed.

Lemma preflight_or_pass rq rh :
  (exists o, hget "origin" rh = Some o /\
     (String.eqb (rq_method rq) "OPTIONS" && hhas "access-control-request-method" rh) = true) \/
  hget "origin" rh = None \/
  (String.eqb (rq_method rq) "OPTIONS" && hhas "access-control-request-method" rh) = false.
Proof.
  destruct (hget "origin" rh) as [o|]; [|by right; left].
  destruct (_ && _); [left; by exists o|by right; right].
Qed.

(** C13 (safety).  With [allow_credentials=False], no response of the
    application, preflight, simple or the 500 of an uncaught exception,
    carries [Access-Control-Allow-Credentials]. *)
Theorem asgi_no_credentials hr tok w :
  hget "access-control-allow-credentials" (asgi own_headers hr tok w).1.2 = None.
Proof.
  destruct hr as [rq rh]. destruct (preflight_or_pass rq rh) as [(o & Ho & Hp)|Hc].
  - rewrite (asgi_preflight_eq _ _ _ _ _ Ho Hp), preflight_app, app_mw. cbn [fst snd mw_preflight_headers].
    destruct (hget "access-control-request-headers" rh); by hsimpl_own.
  - rewrite (asgi_pass_eq _ _ _ _ Hc). destruct (route_app rq tok w) as [[e|r] w']; cbn [fst snd];
      [by hsimpl_own|]. destruct (hget "origin" rh); [|by hsimpl_own]. rewrite cors_send_app.
    destruct (hhas "cookie" rh); unfold allow_explicit_origin, add_vary; by hsimpl_own.
Qed.

(** C14 (functional).  A request with an [Origin] that is not a preflight
    runs the router; its answer carries [Access-Control-Allow-Origin: *],
    or the request's origin and [Vary: Origin] when the request has
    cookies.  An uncaught exception gives the 500 of the server-error
    middleware, outside the CORS layer, with no CORS header at all. *)
Theorem asgi_simple_origin rq rh o tok w :
  hget "origin" rh = Some o ->
  (String.eqb (rq_method rq) "OPTIONS" && hhas "access-control-request-method" rh) = false ->
  let a := asgi own_headers (mkHttp rq rh) tok w in
  match (route_app rq tok w).1 with
  | inr _ =>
      hget "access-control-allow-origin" a.1.2 = Some (if hhas "cookie" rh then o else "*") /\
      hget "vary" a.1.2 = (if hhas "cookie" rh then Some "Origin" else None)
  | inl _ =>
      a.1.1 = internal_error /\
      hget "access-control-allow-origin" a.1.2 = None /\ hget "vary" a.1.2 = None
  end.
Proof.
  intros Ho Hp. cbv zeta. rewrite asgi_pass_eq by (by right).
  destruct (route_app rq tok w) as [[e|r] w']; cbn [fst snd]; [by hsimpl_own|].
  rewrite Ho, cors_send_app. destruct (hhas "cookie" rh); unfold allow_explicit_origin, add_vary;
    rewrite ?Ho; cbn [default]; by hsimpl_own.
Qed.

(** C15 (functional).  A preflight ([OPTIONS] with [Origin] and
    [Access-Control-Request-Method]) never reaches the router and leaves
    the world unchanged; it is 200 [OK] for any origin and any method of
    [ALL_METHODS], and 400 [Disallowed CORS method] for another method;
    it allows every origin and the seven methods, and mirrors the
    requested headers. *)
Theorem asgi_preflight rq rh o m tok w :
  rq_method rq = "OPTIONS" ->
  hget "origin" rh = Some o ->
  hget "access-control-request-method" rh = Some m ->
  let a := asgi own_headers (mkHttp rq rh) tok w in
  a.2 = w /\
  a.1.1 = (if in_set m ALL_METHODS then mkResponse 200 (PlainText "OK")
           else mkResponse 400 (PlainText "Disallowed CORS method")) /\
  hget "access-control-allow-origin" a.1.2 = Some "*" /\
  hget "access-control-allow-methods" a.1.2 = Some "DELETE, GET, HEAD, OPTIONS, PATCH, POST, PUT" /\
  hget "access-control-allow-headers" a.1.2 = hget "access-control-request-headers" rh.
Proof.
  intros Hm Ho Hr. cbv zeta.
  rewrite (asgi_preflight_eq _ _ _ _ _ Ho) by (rewrite Hm; unfold hhas; by rewrite Hr).
  rewrite preflight_app, Hr, app_mw. cbn [fst snd default mw_preflight_headers].
  destruct (hget "access-control-request-headers" rh); by hsimpl_own.
Qed.

End Stack_laws.

(** On every request that is not a preflight, the
    whole stack (server errors, CORS, exceptions, router) answers with
    the status and body of [serve] and leaves the same world: the CORS
    layer adds headers only. *)
Lemma asgi_refines_serve `{Platform} (own_headers : response -> headers) hr tok w :
  (String.eqb (rq_method (hreq hr)) "OPTIONS" && hhas "origin" (hheaders hr)
   && hhas "access-control-request-method" (hheaders hr)) = false ->
  (asgi own_headers hr tok w).1.1 = (serve (hreq hr) tok w).1 /\
  (asgi own_headers hr tok w).2 = (serve (hreq hr) tok w).2.
Proof.
  destruct hr as [rq rh]. cbn [hreq hheaders]. intros Hc.
  rewrite asgi_pass_eq, route_app_serve.
  - by destruct (route_app rq tok w) as [[e|r] w'].
  - unfold hhas at 1 in Hc. destruct (hget "origin" rh); [right; by rewrite andb_true_r in Hc|by left].
Qed.

Lemma media_clean r : cors_free (media_headers r) = true.
Proof. destruct r as [? [[]| | | | |]]; reflexivity. Qed.

(** ** Witnesses *)

Definition browser_headers : headers := [("origin", "https://example.org"); ("cookie", "session=1")].
Definition preflight_headers_put : headers :=
  [("origin", "https://example.org"); ("access-control-request-method", "PUT");
   ("access-control-request-headers", "X-Token")].

Lemma asgi_no_credentials_witness :
  hget "access-control-allow-credentials"
    (@asgi (mock_platform (Exited 0 []) true) media_headers (mkHttp convert_png browser_headers) tok0 world0).1.2
  = None.
Proof. exact (@asgi_no_credentials (mock_platform (Exited 0 []) true) media_headers media_clean _ _ _). Defined.

Lemma asgi_simple_origin_witness :
  hget "access-control-allow-origin"
    (@asgi (mock_platform (Exited 0 []) true) media_headers (mkHttp convert_png browser_headers) tok0 world0).1.2
  = Some "https://example.org".
Proof.
  pose proof (@asgi_simple_origin (mock_platform (Exited 0 []) true) media_headers media_clean
                convert_png browser_headers "https://example.org" tok0 world0 eq_refl eq_refl) as W.
  exact (proj1 W).
Defined.

Lemma asgi_preflight_witness :
  (@asgi (mock_platform (Exited 0 []) true) media_headers
     (mkHttp (mkRequest "OPTIONS" "/convert" None None) preflight_headers_put) tok0 world0).1.1
  = mkResponse 200 (PlainText "OK").
Proof.
  exact (proj1 (proj2 (@asgi_preflight (mock_platform (Exited 0 []) true) media_headers media_clean
    (mkRequest "OPTIONS" "/convert" None None) preflight_headers_put "https://example.org" "PUT" tok0 world0
    eq_refl eq_refl eq_refl))).
Defined.


End Cors.
