(* ===== verification/Startup.v ===== *)
(** * Startup: the directories of lines 24-28

    At import, [main.py] runs
    [for d in (UPLOAD_DIR, OUTPUT_DIR): d.mkdir(parents=True, exist_ok=True)].
    [os_mkdir] is [os.mkdir] on the model's file system (the files of
    [fs] and the directories of [dirs]): it fails with [FileExistsError]
    on an existing file or directory, with [NotADirectoryError] when the
    parent is a file, with [FileNotFoundError] when the parent is
    missing.  [path_mkdir] is [pathlib.Path.mkdir]:
    {[
    try:
        os.mkdir(self)
    except FileNotFoundError:
        if not parents or self.parent == self: raise
        self.parent.mkdir(parents=True, exist_ok=True)
        self.mkdir(parents=False, exist_ok=exist_ok)
    except OSError:
        if not exist_ok or not self.is_dir(): raise
    ]}
    The recursion on the parent is bounded by a fuel; running out of it
    is the distinct answer [None], and [length (parts p)] is enough: the
    recursion then always completes, with a result no larger fuel
    changes ([path_mkdir_total]).  [startup] runs the
    loop; an exception there stops the import, so the server never starts.
    The theorems say when startup succeeds and what it creates, when it
    fails, and that after a successful startup no request ever fails to
    store its upload. *)

From S2P Require Import Prelude PyStr PyPath TokenHex Subprocess Router Server.

Module Startup.
Import PyPath Subprocess Router Server.

Inductive os_error := FileExistsError | FileNotFoundError | NotADirectoryError.

Definition os_error_name (e : os_error) : string :=
  match e with
  | FileExistsError => "FileExistsError"
  | FileNotFoundError => "FileNotFoundError"
  | NotADirectoryError => "NotADirectoryError"
  end.

(** [os.mkdir(p)]. *)
Definition os_mkdir (p : path) (w : world) : os_error + world :=
  let k := to_str p in
  if decide (k ∈ dirs w) then inl FileExistsError
  else if decide (is_Some (fs w !! k)) then inl FileExistsError
  else if decide (to_str (parent p) ∈ dirs w) then inr (mkWorld (fs w) (procs w) ({[k]} ∪ dirs w))
  else if decide (is_Some (fs w !! to_str (parent p))) then inl NotADirectoryError
  else inl FileNotFoundError.

(** [p.is_dir()]. *)
Definition is_dir (p : path) (w : world) : bool := bool_decide (to_str p ∈ dirs w).

(** [p.mkdir(parents=parents, exist_ok=exist_ok)]. *)
Fixpoint path_mkdir (fuel : nat) (p : path) (parents exist_ok : bool) (w : world)
    : option (os_error + world) :=
  match os_mkdir p w with
  | inr w' => Some (inr w')
  | inl FileNotFoundError =>
      if negb parents || bool_decide (parent p = p) then Some (inl FileNotFoundError) else
      match fuel with
      | O => None
      | S n =>
          match path_mkdir n (parent p) true true w with
          | Some (inr w1) => path_mkdir n p false exist_ok w1
          | r => r
          end
      end
  | inl e => Some (if exist_ok && is_dir p w then inr w else inl e)
  end.

(** [p.mkdir(parents=True, exist_ok=True)]; the fuel [length (parts p)]
    never runs out ([path_mkdir_total]), so the [None] branch is not
    reached. *)
Definition mkdir_p (p : path) (w : world) : os_error + world :=
  match path_mkdir (length (parts p)) p true true w with
  | Some r => r
  | None => inl FileNotFoundError
  end.

(** Lines 27-28. *)
Definition startup (w : world) : exc + world :=
  match mkdir_p UPLOAD_DIR w with
  | inl e => inl (Unhandled (os_error_name e))
  | inr w1 =>
      match mkdir_p OUTPUT_DIR w1 with
      | inl e => inl (Unhandled (os_error_name e))
      | inr w2 => inr w2
      end
  end.

(** The directories [mkdir(parents=True)] may create for [p]: [p] and
    its ancestors below the root. *)
Fixpoint ancestors_n (n : nat) (p : path) : list string :=
  match n with
  | O => []
  | S n => to_str p :: ancestors_n n (parent p)
  end.

Definition ancestors (p : path) : list string := ancestors_n (length (parts p)) p.

(** ** The recursion on parents *)

Lemma parent_length p : parts p <> [] -> length (parts (parent p)) = pred (length (parts p)).
Proof.
  intros Hp. cbn. destruct (exists_last Hp) as (l & x & ->).
  rewrite removelast_last, length_app. cbn. lia.
Qed.

Lemma parent_fixed p : parent p = p <-> parts p = [].
Proof.
  split.
  - intros E. destruct (parts p) as [|x l] eqn:Hp; [done|]. exfalso.
    apply (f_equal (fun q => length (parts q))) in E.
    rewrite parent_length in E by (by rewrite Hp). rewrite Hp in E. cbn in E. lia.
  - destruct p as [r l]. cbn. by intros ->.
Qed.

Lemma world_eta w : mkWorld (fs w) (procs w) (dirs w) = w.
Proof. by destruct w. Qed.

(** Without [parents], [mkdir] never recurses. *)
Lemma path_mkdir_noparents n m p e w : path_mkdir n p false e w = path_mkdir m p false e w.
Proof. destruct n, m; cbn; destruct (os_mkdir p w) as [[]|]; reflexivity. Qed.

(** Without [parents], [mkdir] always answers. *)
Lemma path_mkdir_noparents_some n p e w : is_Some (path_mkdir n p false e w).
Proof. destruct n; cbn; destruct (os_mkdir p w) as [[]|]; eauto. Qed.

(** Any fuel from [length (parts p)] on gives the same answer. *)
Lemma path_mkdir_fuel n m p w :
  length (parts p) <= n -> length (parts p) <= m ->
  path_mkdir n p true true w = path_mkdir m p true true w.
Proof.
  revert m p w. induction n as [|n IH]; intros m p w Hn Hm;
    destruct m as [|m]; cbn [path_mkdir]; destruct (os_mkdir p w) as [[| |]|]; cbn [negb orb];
    try reflexivity.
  all: destruct (bool_decide_reflect (parent p = p)) as [Hf|Hf]; try reflexivity.
  1,2: exfalso; apply Hf, parent_fixed; apply length_zero_iff_nil; lia.
  assert (Hne : parts p <> []) by (by intros E%parent_fixed).
  pose proof (parent_length p Hne).
  rewrite (IH m (parent p) w) by lia. destruct (path_mkdir m (parent p) true true w) as [[]|]; [done| |done].
  apply path_mkdir_noparents.
Qed.

(** From [length (parts p)] on, the fuel never runs out. *)
Lemma path_mkdir_some n p w : length (parts p) <= n -> is_Some (path_mkdir n p true true w).
Proof.
  revert p w. induction n as [|n IH]; intros p w Hn; cbn [path_mkdir];
    destruct (os_mkdir p w) as [[| |]|]; cbn [negb orb]; eauto.
  all: destruct (bool_decide_reflect (parent p = p)) as [Hf|Hf]; eauto.
  - exfalso. apply Hf, parent_fixed, length_zero_iff_nil. lia.
  - assert (Hne : parts p <> []) by (by intros E%parent_fixed).
    pose proof (parent_length p Hne).
    destruct (IH (parent p) w) as [[e|w1] ->]; [lia|eauto|apply path_mkdir_noparents_some].
Qed.

(** C30 (termination).  [Path.mkdir(parents=True, exist_ok=True)]
    completes within the fuel [length (parts p)]: with any fuel at least
    that, the recursion on parents never runs out and answers what
    [mkdir_p] answers. *)
Theorem path_mkdir_total n p w :
  length (parts p) <= n -> path_mkdir n p true true w = Some (mkdir_p p w).
Proof.
  intros Hn. unfold mkdir_p. rewrite (path_mkdir_fuel n (length (parts p))) by lia.
  by destruct (path_mkdir_some (length (parts p)) p w) as [r ->].
Qed.

(** [os.mkdir] on a path where no file is. *)
Lemma os_mkdir_cases p w :
  fs w !! to_str p = None ->
  ((to_str p ∈ dirs w) /\ os_mkdir p w = inl FileExistsError) \/
  ((to_str p ∉ dirs w) /\ (to_str (parent p) ∈ dirs w) /\
   os_mkdir p w = inr (mkWorld (fs w) (procs w) ({[to_str p]} ∪ dirs w))) \/
  ((to_str p ∉ dirs w) /\ (to_str (parent p) ∉ dirs w) /\
   os_mkdir p w = inl (if bool_decide (is_Some (fs w !! to_str (parent p)))
                       then NotADirectoryError else FileNotFoundError)).
Proof.
  intros Hk. unfold os_mkdir. cbv zeta.
  destruct (decide (to_str p ∈ dirs w)) as [Hd|Hd]; [by left|right].
  destruct (decide (is_Some (fs w !! to_str p))) as [[? Hs]|_]; [by rewrite Hk in Hs|].
  destruct (decide (to_str (parent p) ∈ dirs w)) as [Hp|Hp]; [by left|right].
  split; [done|]. split; [done|].
  destruct (decide (is_Some (fs w !! to_str (parent p)))) as [H1|H1];
    [rewrite bool_decide_eq_true_2|rewrite bool_decide_eq_false_2]; done.
Qed.

Lemma to_str_root_nil : to_str (mkPath "/" []) = "/".
Proof. reflexivity. Qed.

Lemma ancestors_cons p :
  parts p <> [] -> ancestors p = to_str p :: ancestors (parent p).
Proof.
  intros Hp. unfold ancestors. rewrite parent_length by done.
  destruct (length (parts p)) eqn:E; [by apply length_zero_iff_nil in E|done].
Qed.

(** When no file stands where a directory is needed, [mkdir(parents=True,
    exist_ok=True)] succeeds: it creates some of [p] and its ancestors,
    [p] among the directories afterwards, and changes nothing else. *)
Lemma path_mkdir_success n p w :
  root p = "/" -> "/" ∈ dirs w -> length (parts p) <= n ->
  Forall (fun a => fs w !! a = None) (ancestors p) ->
  exists D, path_mkdir n p true true w = Some (inr (mkWorld (fs w) (procs w) D)) /\
    dirs w ⊆ D /\ D ⊆ dirs w ∪ list_to_set (ancestors p) /\ (to_str p ∈ D).
Proof.
  revert p w. induction n as [|n IH]; intros p w Hr Hroot Hn Hfs.
  all: destruct (decide (parts p = [])) as [Hnil|Hne].
  1,3: destruct p as [r l]; cbn in Hr, Hnil; subst r l;
       exists (dirs w); rewrite world_eta; cbn [path_mkdir];
       unfold os_mkdir; rewrite to_str_root_nil, decide_True by done;
       unfold is_dir; rewrite to_str_root_nil, bool_decide_eq_true_2 by done; set_solver.
  { exfalso. apply Hne, length_zero_iff_nil. lia. }
  rewrite ancestors_cons in Hfs |- * by done. apply Forall_cons in Hfs as [Hk Hfs].
  pose proof (parent_length p Hne) as Hlen.
  destruct (os_mkdir_cases p w Hk) as [(Hd & E)|[(Hd & Hp & E)|(Hd & Hp & E)]];
    cbn [path_mkdir]; rewrite E.
  - exists (dirs w). unfold is_dir. rewrite bool_decide_eq_true_2, world_eta by done. set_solver.
  - eexists. split; [done|]. set_solver.
  - assert (Hpf : fs w !! to_str (parent p) = None).
    { destruct (decide (parts (parent p) = [])) as [Hpn|Hpn].
      - exfalso. apply Hp.
        replace (parent p) with (mkPath "/" [])
          by (destruct p as [r l]; unfold parent in *; cbn in *; by rewrite Hr, Hpn).
        by rewrite to_str_root_nil.
      - rewrite ancestors_cons in Hfs by done. by apply Forall_cons in Hfs as [? _]. }
    rewrite Hpf, (bool_decide_eq_false_2 (is_Some (@None N))) by (by intros []). cbn [negb orb].
    rewrite bool_decide_eq_false_2 by (by intros ?%parent_fixed).
    destruct (IH (parent p) w) as (D1 & E1 & Hsub1 & Hsup1 & Hin1); [by destruct p|done|lia|done|].
    rewrite E1. rewrite (path_mkdir_noparents n 0).
    destruct (os_mkdir_cases p (mkWorld (fs w) (procs w) D1) Hk)
      as [(Hd1 & E2)|[(Hd1 & _ & E2)|(_ & Hp1 & _)]]; [| |by destruct Hp1];
      cbn [path_mkdir]; rewrite E2.
    + exists D1. unfold is_dir. rewrite bool_decide_eq_true_2 by done. set_solver.
    + eexists. split; [done|]. set_solver.
Qed.

Lemma os_mkdir_post p w w' :
  os_mkdir p w = inr w' -> w' = mkWorld (fs w) (procs w) ({[to_str p]} ∪ dirs w).
Proof.
  unfold os_mkdir. cbv zeta.
  repeat (case_match; try discriminate). congruence.
Qed.

Lemma ancestors_n_mono n m p : n <= m -> ancestors_n n p ⊆ ancestors_n m p.
Proof.
  revert m p. induction n as [|n IH]; intros m p Hnm; [set_solver|].
  destruct m as [|m]; [lia|]. cbn. specialize (IH m (parent p) ltac:(lia)). set_solver.
Qed.

(** What a successful [mkdir] leaves: the same files and processes, more
    directories, [p] among them, and none but [p] and its ancestors new. *)
Lemma path_mkdir_post n p b e w w' :
  path_mkdir n p b e w = Some (inr w') ->
  fs w' = fs w /\ procs w' = procs w /\ dirs w ⊆ dirs w' /\
  dirs w' ⊆ dirs w ∪ list_to_set (ancestors_n (S n) p) /\ (to_str p ∈ dirs w').
Proof.
  revert p b e w w'. induction n as [|n IH]; intros p b e w w'; cbn [path_mkdir].
  all: destruct (os_mkdir p w) as [[| |]|w''] eqn:E.
  all: try (destruct (e && is_dir p w) eqn:Hd; [|discriminate]; intros [= <-];
            apply andb_prop in Hd as [_ Hd%bool_decide_eq_true_1]; set_solver).
  all: try (intros [= <-]; apply os_mkdir_post in E as ->; cbn; set_solver).
  all: destruct (negb b || bool_decide (parent p = p)); [discriminate|]; try discriminate.
  destruct (path_mkdir n (parent p) true true w) as [[e1|w1]|] eqn:E1; [discriminate| |discriminate].
  intros E2. destruct (IH _ _ _ _ _ E1) as (F1 & P1 & S1 & T1 & _).
  destruct (IH _ _ _ _ _ E2) as (F2 & P2 & S2 & T2 & I2).
  pose proof (ancestors_n_mono (S n) (S (S n)) p ltac:(lia)) as M.
  cbn [ancestors_n] in T1, T2, M |- *. split; [congruence|]. split; [congruence|].
  split; [set_solver|]. split; [|done].
  intros x Hx. apply T2 in Hx. apply elem_of_union in Hx as [Hx|Hx]; [apply T1 in Hx|]; set_solver.
Qed.

Lemma ancestors_upload :
  ancestors UPLOAD_DIR =
    ["/tmp/freefileconverters/uploads"; "/tmp/freefileconverters"; "/tmp"].
Proof. reflexivity. Qed.

Lemma ancestors_output :
  ancestors OUTPUT_DIR =
    ["/tmp/freefileconverters/outputs"; "/tmp/freefileconverters"; "/tmp"].
Proof. reflexivity. Qed.

Lemma startup_dirs_bound :
  list_to_set (ancestors_n 4 UPLOAD_DIR) ∪ list_to_set (ancestors_n 4 OUTPUT_DIR) ⊆ ready_dirs.
Proof. apply (bool_decide_unpack _). vm_compute. exact I. Qed.

(** What a successful startup leaves: the same files and processes, and
    directories among those it may create, [uploads/] and [outputs/]
    included. *)
Lemma startup_post w w2 :
  startup w = inr w2 ->
  fs w2 = fs w /\ procs w2 = procs w /\ dirs w ⊆ dirs w2 /\ dirs w2 ⊆ dirs w ∪ ready_dirs /\
  ("/tmp/freefileconverters/uploads" ∈ dirs w2) /\ ("/tmp/freefileconverters/outputs" ∈ dirs w2).
Proof.
  unfold startup, mkdir_p. pose proof startup_dirs_bound as B.
  destruct (path_mkdir _ UPLOAD_DIR true true w) as [[e|w1]|] eqn:E1; [discriminate| |discriminate].
  destruct (path_mkdir _ OUTPUT_DIR true true w1) as [[e|w3]|] eqn:E3; [discriminate| |discriminate].
  intros [= <-].
  destruct (path_mkdir_post _ _ _ _ _ _ E1) as (F1 & P1 & S1 & T1 & I1).
  destruct (path_mkdir_post _ _ _ _ _ _ E3) as (F3 & P3 & S3 & T3 & I3).
  change (to_str UPLOAD_DIR) with "/tmp/freefileconverters/uploads" in I1.
  change (to_str OUTPUT_DIR) with "/tmp/freefileconverters/outputs" in I3.
  split; [congruence|]. split; [congruence|]. split; [set_solver|]. split; [|set_solver].
  intros x Hx. apply T3 in Hx. apply elem_of_union in Hx as [Hx|Hx]; [apply T1 in Hx|]; set_solver.
Qed.

(** C16 (liveness).  Startup succeeds on every machine whose root
    directory exists and where no file stands at [/tmp],
    [/tmp/freefileconverters], [uploads/] or [outputs/]: afterwards both
    directories exist, no file and no process changed, and no directory
    but these and their ancestors was created. *)
Theorem startup_succeeds w :
  "/" ∈ dirs w ->
  Forall (fun k => fs w !! k = None)
    ["/tmp"; "/tmp/freefileconverters"; "/tmp/freefileconverters/uploads";
     "/tmp/freefileconverters/outputs"] ->
  exists w2, startup w = inr w2 /\ fs w2 = fs w /\ procs w2 = procs w /\
    dirs w ⊆ dirs w2 /\ dirs w2 ⊆ dirs w ∪ ready_dirs /\
    ("/tmp/freefileconverters/uploads" ∈ dirs w2) /\ ("/tmp/freefileconverters/outputs" ∈ dirs w2).
Proof.
  intros Hroot Hfs. repeat (apply Forall_cons in Hfs as [? Hfs]).
  destruct (path_mkdir_success (length (parts UPLOAD_DIR)) UPLOAD_DIR w) as (D1 & E1 & _);
    [done|done|done|rewrite ancestors_upload; by repeat constructor|].
  destruct (path_mkdir_success (length (parts OUTPUT_DIR)) OUTPUT_DIR (mkWorld (fs w) (procs w) D1))
    as (D2 & E2 & _); [done| |done|rewrite ancestors_output; by repeat constructor|].
  { destruct (path_mkdir_post _ _ _ _ _ _ E1) as (_ & _ & S1 & _). cbn in S1. set_solver. }
  assert (Hs : startup w = inr (mkWorld (fs w) (procs w) D2))
    by (unfold startup, mkdir_p; by rewrite E1, E2).
  eexists. split; [exact Hs|]. exact (startup_post _ _ Hs).
Qed.

(** C18 (error).  A file standing at [/tmp/freefileconverters] stops the
    import: [uploads/] cannot be created and the server does not start. *)
Theorem startup_blocked_by_file w n :
  fs w !! "/tmp/freefileconverters" = Some n ->
  "/tmp/freefileconverters" ∉ dirs w -> "/tmp/freefileconverters/uploads" ∉ dirs w ->
  fs w !! "/tmp/freefileconverters/uploads" = None ->
  startup w = inl (Unhandled "NotADirectoryError").
Proof.
  intros Hb Hbd Hud Huf. unfold startup, mkdir_p.
  change (length (parts UPLOAD_DIR)) with 3. cbn [path_mkdir]. unfold os_mkdir, is_dir.
  change (to_str UPLOAD_DIR) with "/tmp/freefileconverters/uploads".
  change (to_str (parent UPLOAD_DIR)) with "/tmp/freefileconverters".
  rewrite (decide_False _ _ Hud), Huf, decide_False by (by intros []).
  rewrite (decide_False _ _ Hbd), Hb, decide_True by done.
  by rewrite bool_decide_eq_false_2.
Qed.

Lemma upload_key_not_ready x : "/tmp/freefileconverters/uploads/" ^^ x ∉ ready_dirs.
Proof.
  unfold ready_dirs. rewrite !elem_of_union, !elem_of_singleton, !str_app_cons.
  intros [[[[?|?]|?]|?]|?]; discriminate.
Qed.

Section AfterStartup.
Context `{Platform}.

(** C12 (invariant).  After a successful startup from a world with no
    directory inside [uploads/], every upload of every later request can
    be written: whatever sequence of requests ran before, [uploads/]
    exists and no stored name is a directory. *)
Theorem startup_then_uploads_writable w w1 rqs fname tok :
  startup w = inr w1 -> (forall x, "/tmp/freefileconverters/uploads/" ^^ x ∉ dirs w) ->
  TokenHex.bytes_wf tok -> length tok = 8 ->
  writable (serve_all rqs w1).2 (input_path fname tok).
Proof.
  intros Hs Hw Hwf Hl. destruct (startup_post _ _ Hs) as (_ & _ & _ & Hsup & Hup & _).
  unfold writable. rewrite serve_all_dirs, parent_input_path by done.
  destruct (input_path_eq fname tok Hwf Hl) as (-> & _). rewrite to_str_upload.
  split; [|done]. intros Hin%Hsup. apply elem_of_union in Hin as [Hin|Hin].
  - by apply (Hw (safe_id tok ^^ input_suffix fname)).
  - by apply (upload_key_not_ready (safe_id tok ^^ input_suffix fname)).
Qed.

End AfterStartup.

(** ** Witnesses *)

(** A fresh machine: only the root directory. *)
Definition bare_world : world := mkWorld ∅ [] {[ "/" ]}.

Lemma path_mkdir_total_witness :
  path_mkdir 10 UPLOAD_DIR true true bare_world = Some (mkdir_p UPLOAD_DIR bare_world).
Proof. apply path_mkdir_total. vm_compute. lia. Defined.

(** On a bare machine, startup creates exactly the directories of
    [world0]. *)
Lemma startup_succeeds_witness :
  startup bare_world = inr world0 /\
  exists w2, startup bare_world = inr w2 /\ fs w2 = fs bare_world /\ procs w2 = procs bare_world /\
    dirs bare_world ⊆ dirs w2 /\ dirs w2 ⊆ dirs bare_world ∪ ready_dirs /\
    ("/tmp/freefileconverters/uploads" ∈ dirs w2) /\ ("/tmp/freefileconverters/outputs" ∈ dirs w2).
Proof.
  split; [vm_compute; reflexivity|].
  apply startup_succeeds; [apply (bool_decide_unpack _); vm_compute; exact I|repeat constructor].
Defined.

Lemma startup_blocked_by_file_witness :
  startup (mkWorld {[ "/tmp/freefileconverters" := 0%N ]} [] {[ "/"; "/tmp" ]})
  = inl (Unhandled "NotADirectoryError").
Proof.
  apply (startup_blocked_by_file _ 0); [reflexivity| | |reflexivity];
    apply (bool_decide_unpack _); vm_compute; exact I.
Defined.

Lemma startup_then_uploads_writable_witness :
  @writable (@serve_all (mock_platform (Exited 0 []) true) [(convert_png, tok1)] world0).2
    (input_path "photo.png" tok0).
Proof.
  apply (@startup_then_uploads_writable (mock_platform (Exited 0 []) true) bare_world);
    [vm_compute; reflexivity| |repeat constructor|reflexivity].
  intros x. unfold bare_world. cbn [dirs]. rewrite elem_of_singleton, !str_app_cons. discriminate.
Defined.

End Startup.
